(** * opencollective-api: expenses, virtual cards, host applications and
    the orders of an account

    A shallow embedding of
    - [server/graphql/common/expenses.ts]: permission evaluators, the
      expense status actions, [createExpense], [editExpense], [payExpense],
      [getExpenseFees], the FX-rate helpers and the legal-name check;
    - [server/graphql/v2/mutation/VirtualCardMutations.ts]: the mutations
      on virtual cards and the monthly limit of [createVirtualCard] and
      [editVirtualCard];
    - [server/models/HostApplication.ts]: the static functions of the
      model;
    - [server/graphql/v2/query/collection/OrdersCollectionQuery.ts]: the
      resolver of the orders of an account.

    Conventions.  A JavaScript [number] holding an amount in cents is a [Z];
    a rate or any other fractional number is a rational [Q] that stands for
    the double nearest to it.  Where the code multiplies, adds or divides
    such numbers before rounding them to cents, the operation is the one of
    IEEE doubles ([fmul], [fadd], [fdiv]: the exact result rounded to the
    nearest double); there is no NaN and no infinity.  [Math.round] is
    [js_round].  [null] and [undefined] are [None].  An
    [async] function that reads or writes the database is a function of the
    database state that returns the new state together with either a value
    or the error it threw: a [throw] keeps the writes made so far, except
    inside [sequelize_transaction]. *)

From Stdlib Require Import ZArith QArith Qround String Ascii List Bool Lia.
From Stdlib Require Qcanon.
From stdpp Require Import gmap strings list pretty.

Local Open Scope string_scope.
Local Open Scope Z_scope.

(* ================================================================== *)
(** ** JavaScript values *)

(** [Math.round]: the nearest integer, a tie going up. *)
Definition js_round (x : Q) : Z := Qfloor (x + (1 # 2))%Q.

(** *** Doubles

    The integer nearest to [n / d], for [d] positive, a tie going to the
    even one. *)
Definition roundHalfEven (n d : Z) : Z :=
  let q := n / d in
  match 2 * (n mod d) ?= d with
  | Lt => q
  | Gt => q + 1
  | Eq => if Z.even q then q else q + 1
  end.

(** The exponent of the leading bit of [n / d], for [n] and [d] positive:
    the [k] with [2 ^ k <= n / d < 2 ^ (k + 1)]. *)
Definition binade (n d : Z) : Z :=
  let k := Z.log2 n - Z.log2 d in
  if n * 2 ^ Z.max 0 (- k) <? d * 2 ^ Z.max 0 k then k - 1 else k.

(** The double nearest to a rational: a significand of 53 bits, rounded to
    nearest with ties to even, the exponent of the last bit going down to
    -1074 (the subnormal numbers).  Numbers of magnitude [2 ^ 1024] and
    more, which a double cannot hold, are left as they are. *)
Definition toDouble (x : Q) : Q :=
  let n := Qnum (Qred x) in
  let d := Z.pos (Qden (Qred x)) in
  if n =? 0 then 0%Q
  else
    let a := Z.abs n in
    let e := Z.max (binade a d - 52) (-1074) in
    Qred (if 0 <=? e
          then inject_Z (Z.sgn n * roundHalfEven a (d * 2 ^ e) * 2 ^ e)
          else Qmake (Z.sgn n * roundHalfEven (a * 2 ^ (- e)) d) (Z.to_pos (2 ^ (- e)))).

(** [a + b], [a * b] and [a / b] on numbers. *)
Definition fadd (a b : Q) : Q := toDouble (toDouble a + toDouble b).
Definition fmul (a b : Q) : Q := toDouble (toDouble a * toDouble b).
Definition fdiv (a b : Q) : Q := toDouble (toDouble a / toDouble b).

(** [x || 0] on a number that may be missing. *)
Definition orZero (x : option Q) : Q := default 0%Q x.

(** Truthiness of a number, a string and an optional string. *)
Definition truthyQ (x : Q) : bool := negb (Qeq_bool x 0).
Definition truthyZ (x : Z) : bool := negb (x =? 0).
Definition truthyS (s : string) : bool :=
  match s with EmptyString => false | _ => true end.
Definition truthyOS (s : option string) : bool :=
  match s with Some s => truthyS s | None => false end.


Definition inQ (z : Z) : Q := inject_Z z.

(** [a < b] on numbers. *)
Definition Qltb (a b : Q) : bool := negb (Qle_bool b a).

(** The one-character string holding a double quote. *)
Definition dquote : string := String (ascii_of_nat 34) EmptyString.

(* ================================================================== *)
(** ** Errors ([server/graphql/errors.ts], [server/lib/errors.js])

    Only the class and the message of an error are kept; [BadRequest] also
    keeps its [data] argument.  A constructor called without a message
    carries the empty string. *)

Inductive error : Type :=
| Unauthorized (msg : string)
| Forbidden (msg : string)
| ValidationFailed (msg : string)
| BadRequest (msg : string) (data : list (string * string))
| NotFound (msg : string)
| FeatureNotAllowedForUser
| FeatureNotSupportedForCollective (msg : string)
| JsError (msg : string)           (* [new Error(msg)] *)
| TypeError.                       (* a property read on null or undefined *)

Inductive result (A : Type) : Type :=
| Ok (a : A)
| Err (e : error).
Arguments Ok {A} a.
Arguments Err {A} e.

Definition isOk {A} (r : result A) : bool :=
  match r with Ok _ => true | Err _ => false end.

(** The value of a result, if there is one. *)
Definition snd_ok {A} (r : result A) : option A :=
  match r with Ok a => Some a | Err _ => None end.

Definition isUnauthorized (e : error) : bool :=
  match e with Unauthorized _ => true | _ => false end.

Definition rbind {A B} (r : result A) (k : A -> result B) : result B :=
  match r with Ok a => k a | Err e => Err e end.

(** A computation over a database state [S]. *)
Definition M (S A : Type) : Type := S -> S * result A.

Definition ret {S A} (a : A) : M S A := fun s => (s, Ok a).
Definition throw {S A} (e : error) : M S A := fun s => (s, Err e).
Definition bind {S A B} (m : M S A) (k : A -> M S B) : M S B :=
  fun s => match m s with
           | (s', Ok a) => k a s'
           | (s', Err e) => (s', Err e)
           end.
Definition gets {S A} (f : S -> A) : M S A := fun s => (s, Ok (f s)).
Definition modify {S} (f : S -> S) : M S unit := fun s => (f s, Ok tt).
Definition lift {S A} (r : result A) : M S A := fun s => (s, r).

Declare Scope db_scope.
Delimit Scope db_scope with db.
Notation "x <- m ;; k" := (bind m (fun x => k))
  (at level 62, m at next level, right associativity, only parsing) : db_scope.

(** [sequelize.transaction(async t => body)]: the writes of [body] are
    committed when it returns and rolled back when it throws. *)
Definition sequelize_transaction {S A} (body : M S A) : M S A :=
  fun s => match body s with
           | (s', Ok a) => (s', Ok a)
           | (_, Err e) => (s, Err e)
           end.

(** [try { body } finally { fin }]: [fin] runs in both cases, and an error
    thrown by [fin] replaces the outcome of [body]. *)
Definition try_finally {S A} (body : M S A) (fin : M S unit) : M S A :=
  fun s => match body s with
           | (s1, r) => match fin s1 with
                        | (s2, Ok _) => (s2, r)
                        | (s2, Err e) => (s2, Err e)
                        end
           end.

(* ================================================================== *)
(** ** [server/constants/expense_status.js] *)

Inductive ExpenseStatus : Type :=
| DRAFT | UNVERIFIED | PENDING | APPROVED | REJECTED | PROCESSING
| ERROR | PAID | SCHEDULED_FOR_PAYMENT | SPAM | CANCELED.

#[global] Instance ExpenseStatus_eq_dec : EqDecision ExpenseStatus.
Proof. solve_decision. Defined.

Definition statusName (s : ExpenseStatus) : string :=
  match s with
  | DRAFT => "DRAFT" | UNVERIFIED => "UNVERIFIED" | PENDING => "PENDING"
  | APPROVED => "APPROVED" | REJECTED => "REJECTED"
  | PROCESSING => "PROCESSING" | ERROR => "ERROR" | PAID => "PAID"
  | SCHEDULED_FOR_PAYMENT => "SCHEDULED_FOR_PAYMENT" | SPAM => "SPAM"
  | CANCELED => "CANCELED"
  end.

(** [[a, b, ...].includes(s)] *)
Definition includes (l : list ExpenseStatus) (s : ExpenseStatus) : bool :=
  bool_decide (s ∈ l).

(* ================================================================== *)
(** ** [server/graphql/common/expenses.ts] *)

Module Expenses.

(** *** Rows and request objects

    A Sequelize instance is the record of its columns together with the
    associations loaded on it ([collective], [fromCollective], [items],
    [attachedFiles]).  Methods of models that are not part of this file
    ([isAdmin], [hasPolicy], ...) are fields holding a function. *)

Inductive ExpenseType : Type :=
| RECEIPT | INVOICE | CHARGE | OtherExpenseType (name : string).

Inductive CollectiveType : Type :=
| COLLECTIVE | EVENT | FUND | PROJECT | ORGANIZATION
| OtherCollectiveType (name : string).

Inductive PayoutMethodType : Type :=
| PAYPAL | BANK_ACCOUNT | ACCOUNT_BALANCE | OtherPayoutMethodType (name : string).

Inductive Feature : Type := USE_EXPENSES | MULTI_CURRENCY_EXPENSES.
Inductive Policy : Type := EXPENSE_AUTHOR_CANNOT_APPROVE.
Inductive Role : Type := ADMIN | ACCOUNTANT.

#[global] Instance ExpenseType_eq_dec : EqDecision ExpenseType.
Proof. solve_decision. Defined.
#[global] Instance CollectiveType_eq_dec : EqDecision CollectiveType.
Proof. solve_decision. Defined.
#[global] Instance PayoutMethodType_eq_dec : EqDecision PayoutMethodType.
Proof. solve_decision. Defined.

Record Host : Type := {
  h_id : Z;
  h_currency : string;
  h_payoutsTwoFactorAuth : bool
}.

Record Collective : Type := {
  c_id : Z;
  c_type : CollectiveType;
  c_currency : string;
  c_isActive : bool;
  HostCollectiveId : option Z;
  ParentCollectiveId : option Z;
  hasPolicy : Policy -> bool;
  c_host : option Host              (* the [host] association *)
}.

Record User : Type := {
  u_id : Z;
  isAdmin : option Z -> bool;
  isAdminOfCollective : option Collective -> bool;
  isAdminOfCollectiveOrHost : Collective -> bool;
  isRoot : bool;
  hasRole : Role -> option Z -> bool;
  rolesByCollectiveId : Z -> bool   (* the entry for this id is truthy *)
}.

Record Request : Type := {
  remoteUser : option User;
  Collective_byId_load : Z -> option Collective   (* [req.loaders] *)
}.

(** Wise payloads stored on [expense.data]: a transfer has [sourceCurrency],
    [targetCurrency] and [created]; a quote has [source], [target],
    [createdTime], [payOut] and [paymentOptions]. *)
Record PaymentOption : Type := {
  payIn : string;
  po_payOut : string;
  fee_total : Q
}.

Record WiseInfo : Type := {
  rate : option Q;
  sourceCurrency : option string;
  source : option string;
  targetCurrency : option string;
  target : option string;
  created : option string;
  createdTime : option string;
  payOut : string;
  paymentOptions : list PaymentOption
}.

Record TaxDefinition : Type := {
  tax_type : string;
  tax_rate : Q;
  idNumber : string
}.

Record ExpenseJsonData : Type := {
  isLocked : bool;
  transfer : option WiseInfo;
  quote : option WiseInfo;
  paymentOption : option PaymentOption;
  recipient : option string;
  taxes : list TaxDefinition
}.

Record Location : Type := {
  address : option string;
  country : option string;
  structured : option string
}.

Record ExpenseItem : Type := {
  item_id : Z;
  item_ExpenseId : Z;
  item_CreatedByUserId : Z;
  item_amount : Z;
  item_url : option string;
  item_description : option string
}.

Record ExpenseAttachedFile : Type := {
  file_id : Z;
  file_ExpenseId : Z;
  file_CreatedByUserId : Z;
  file_url : option string
}.

Record Expense : Type := {
  id : Z;
  status : ExpenseStatus;
  type : option ExpenseType;
  amount : Z;
  currency : string;
  description : option string;
  longDescription : option string;
  tags : option (list string);
  privateMessage : option string;
  invoiceInfo : option string;
  payeeLocation : option Location;
  CollectiveId : Z;
  FromCollectiveId : Z;
  UserId : Z;
  lastEditedById : option Z;
  incurredAt : option string;
  PayoutMethodId : option Z;
  legacyPayoutMethod : string;
  feesPayer : string;
  RecurringExpenseId : option Z;
  data : option ExpenseJsonData;
  (* associations and properties set on the instance *)
  collective : option Collective;
  fromCollective : option Collective;
  items : list ExpenseItem;
  attachedFiles : list ExpenseAttachedFile;
  user : option User
}.

Definition set_status_lastEditedById (st : ExpenseStatus) (by_ : Z) (e : Expense) : Expense :=
  {| id := id e; status := st; type := type e; amount := amount e;
     currency := currency e; description := description e;
     longDescription := longDescription e; tags := tags e;
     privateMessage := privateMessage e; invoiceInfo := invoiceInfo e;
     payeeLocation := payeeLocation e; CollectiveId := CollectiveId e;
     FromCollectiveId := FromCollectiveId e; UserId := UserId e;
     lastEditedById := Some by_; incurredAt := incurredAt e;
     PayoutMethodId := PayoutMethodId e;
     legacyPayoutMethod := legacyPayoutMethod e; feesPayer := feesPayer e;
     RecurringExpenseId := RecurringExpenseId e; data := data e;
     collective := collective e; fromCollective := fromCollective e;
     items := items e; attachedFiles := attachedFiles e; user := user e |}.

Definition set_collective (c : option Collective) (e : Expense) : Expense :=
  {| id := id e; status := status e; type := type e; amount := amount e;
     currency := currency e; description := description e;
     longDescription := longDescription e; tags := tags e;
     privateMessage := privateMessage e; invoiceInfo := invoiceInfo e;
     payeeLocation := payeeLocation e; CollectiveId := CollectiveId e;
     FromCollectiveId := FromCollectiveId e; UserId := UserId e;
     lastEditedById := lastEditedById e; incurredAt := incurredAt e;
     PayoutMethodId := PayoutMethodId e;
     legacyPayoutMethod := legacyPayoutMethod e; feesPayer := feesPayer e;
     RecurringExpenseId := RecurringExpenseId e; data := data e;
     collective := c; fromCollective := fromCollective e;
     items := items e; attachedFiles := attachedFiles e; user := user e |}.

Definition set_data (d : option ExpenseJsonData) (e : Expense) : Expense :=
  {| id := id e; status := status e; type := type e; amount := amount e;
     currency := currency e; description := description e;
     longDescription := longDescription e; tags := tags e;
     privateMessage := privateMessage e; invoiceInfo := invoiceInfo e;
     payeeLocation := payeeLocation e; CollectiveId := CollectiveId e;
     FromCollectiveId := FromCollectiveId e; UserId := UserId e;
     lastEditedById := lastEditedById e; incurredAt := incurredAt e;
     PayoutMethodId := PayoutMethodId e;
     legacyPayoutMethod := legacyPayoutMethod e; feesPayer := feesPayer e;
     RecurringExpenseId := RecurringExpenseId e; data := d;
     collective := collective e; fromCollective := fromCollective e;
     items := items e; attachedFiles := attachedFiles e; user := user e |}.

Definition set_fromCollective (c : option Collective) (e : Expense) : Expense :=
  {| id := id e; status := status e; type := type e; amount := amount e;
     currency := currency e; description := description e;
     longDescription := longDescription e; tags := tags e;
     privateMessage := privateMessage e; invoiceInfo := invoiceInfo e;
     payeeLocation := payeeLocation e; CollectiveId := CollectiveId e;
     FromCollectiveId := FromCollectiveId e; UserId := UserId e;
     lastEditedById := lastEditedById e; incurredAt := incurredAt e;
     PayoutMethodId := PayoutMethodId e;
     legacyPayoutMethod := legacyPayoutMethod e; feesPayer := feesPayer e;
     RecurringExpenseId := RecurringExpenseId e; data := data e;
     collective := collective e; fromCollective := c;
     items := items e; attachedFiles := attachedFiles e; user := user e |}.

Definition set_items (l : list ExpenseItem) (e : Expense) : Expense :=
  {| id := id e; status := status e; type := type e; amount := amount e;
     currency := currency e; description := description e;
     longDescription := longDescription e; tags := tags e;
     privateMessage := privateMessage e; invoiceInfo := invoiceInfo e;
     payeeLocation := payeeLocation e; CollectiveId := CollectiveId e;
     FromCollectiveId := FromCollectiveId e; UserId := UserId e;
     lastEditedById := lastEditedById e; incurredAt := incurredAt e;
     PayoutMethodId := PayoutMethodId e;
     legacyPayoutMethod := legacyPayoutMethod e; feesPayer := feesPayer e;
     RecurringExpenseId := RecurringExpenseId e; data := data e;
     collective := collective e; fromCollective := fromCollective e;
     items := l; attachedFiles := attachedFiles e; user := user e |}.

Definition set_attachedFiles (l : list ExpenseAttachedFile) (e : Expense) : Expense :=
  {| id := id e; status := status e; type := type e; amount := amount e;
     currency := currency e; description := description e;
     longDescription := longDescription e; tags := tags e;
     privateMessage := privateMessage e; invoiceInfo := invoiceInfo e;
     payeeLocation := payeeLocation e; CollectiveId := CollectiveId e;
     FromCollectiveId := FromCollectiveId e; UserId := UserId e;
     lastEditedById := lastEditedById e; incurredAt := incurredAt e;
     PayoutMethodId := PayoutMethodId e;
     legacyPayoutMethod := legacyPayoutMethod e; feesPayer := feesPayer e;
     RecurringExpenseId := RecurringExpenseId e; data := data e;
     collective := collective e; fromCollective := fromCollective e;
     items := items e; attachedFiles := l; user := user e |}.

Definition set_user (u : option User) (e : Expense) : Expense :=
  {| id := id e; status := status e; type := type e; amount := amount e;
     currency := currency e; description := description e;
     longDescription := longDescription e; tags := tags e;
     privateMessage := privateMessage e; invoiceInfo := invoiceInfo e;
     payeeLocation := payeeLocation e; CollectiveId := CollectiveId e;
     FromCollectiveId := FromCollectiveId e; UserId := UserId e;
     lastEditedById := lastEditedById e; incurredAt := incurredAt e;
     PayoutMethodId := PayoutMethodId e;
     legacyPayoutMethod := legacyPayoutMethod e; feesPayer := feesPayer e;
     RecurringExpenseId := RecurringExpenseId e; data := data e;
     collective := collective e; fromCollective := fromCollective e;
     items := items e; attachedFiles := attachedFiles e; user := u |}.

(** [{ ...expense.data, isLocked: b }] *)
Definition with_isLocked (b : bool) (d : option ExpenseJsonData) : option ExpenseJsonData :=
  match d with
  | Some d => Some {| isLocked := b; transfer := transfer d; quote := quote d;
                      paymentOption := paymentOption d;
                      recipient := recipient d; taxes := taxes d |}
  | None => Some {| isLocked := b; transfer := None; quote := None;
                    paymentOption := None; recipient := None; taxes := [] |}
  end.

(** [expense.data?.isLocked] *)
Definition data_isLocked (e : Expense) : bool :=
  match data e with Some d => isLocked d | None => false end.

(* ------------------------------------------------------------------ *)
(** *** FX rates recorded by the payment providers *)






(* ------------------------------------------------------------------ *)
(** *** What this file imports

    The functions of [lib/user-permissions], [lib/allowed-features],
    [lib/currency], [lib/math], the payment providers and the model methods
    that the functions below call.  They are parameters of the development:
    every theorem holds whatever they compute. *)

Record PayoutMethod : Type := {
  pm_id : Z;
  pm_type : PayoutMethodType;
  pm_CollectiveId : Z
}.

Record ConnectedAccount : Type := {
  ca_id : Z;
  ca_service : string
}.

Inductive ActivityType : Type :=
| COLLECTIVE_EXPENSE_CREATED
| COLLECTIVE_EXPENSE_APPROVED
| COLLECTIVE_EXPENSE_UNAPPROVED
| COLLECTIVE_EXPENSE_REJECTED
| COLLECTIVE_EXPENSE_MARKED_AS_SPAM
| COLLECTIVE_EXPENSE_PAID.

Record Activity : Type := {
  act_type : ActivityType;
  act_ExpenseId : Z;
  act_UserId : Z
}.

(** The database.  [others] stands for the tables and the provider accounts
    that are only reached through the imported functions (collectives,
    payout methods, transactions, ...). *)
Record DB (Others : Type) : Type := {
  expenses : gmap Z Expense;
  expenseItems : list ExpenseItem;
  expenseAttachedFiles : list ExpenseAttachedFile;
  activities : list Activity;
  limitedFeatures : list (Z * Feature);
  recurringExpenses : gset Z;
  spamNotifications : list Activity;
  others : Others
}.
Arguments expenses {Others} _.
Arguments expenseItems {Others} _.
Arguments expenseAttachedFiles {Others} _.
Arguments activities {Others} _.
Arguments limitedFeatures {Others} _.
Arguments recurringExpenses {Others} _.
Arguments spamNotifications {Others} _.
Arguments others {Others} _.

Section DBUpdates.
Context {Others : Type}.

Definition upd_expenses (f : gmap Z Expense -> gmap Z Expense) (db : DB Others) : DB Others :=
  {| expenses := f (expenses db); expenseItems := expenseItems db;
     expenseAttachedFiles := expenseAttachedFiles db;
     activities := activities db; limitedFeatures := limitedFeatures db;
     recurringExpenses := recurringExpenses db;
     spamNotifications := spamNotifications db; others := others db |}.

Definition add_expenseItem (i : ExpenseItem) (db : DB Others) : DB Others :=
  {| expenses := expenses db; expenseItems := expenseItems db ++ [i];
     expenseAttachedFiles := expenseAttachedFiles db;
     activities := activities db; limitedFeatures := limitedFeatures db;
     recurringExpenses := recurringExpenses db;
     spamNotifications := spamNotifications db; others := others db |}.

Definition add_expenseAttachedFile (f : ExpenseAttachedFile) (db : DB Others) : DB Others :=
  {| expenses := expenses db; expenseItems := expenseItems db;
     expenseAttachedFiles := expenseAttachedFiles db ++ [f];
     activities := activities db; limitedFeatures := limitedFeatures db;
     recurringExpenses := recurringExpenses db;
     spamNotifications := spamNotifications db; others := others db |}.

Definition add_activity (a : Activity) (db : DB Others) : DB Others :=
  {| expenses := expenses db; expenseItems := expenseItems db;
     expenseAttachedFiles := expenseAttachedFiles db;
     activities := activities db ++ [a]; limitedFeatures := limitedFeatures db;
     recurringExpenses := recurringExpenses db;
     spamNotifications := spamNotifications db; others := others db |}.

Definition add_limitedFeature (u : Z) (f : Feature) (db : DB Others) : DB Others :=
  {| expenses := expenses db; expenseItems := expenseItems db;
     expenseAttachedFiles := expenseAttachedFiles db;
     activities := activities db;
     limitedFeatures := limitedFeatures db ++ [(u, f)];
     recurringExpenses := recurringExpenses db;
     spamNotifications := spamNotifications db; others := others db |}.

Definition destroy_recurringExpense (r : Z) (db : DB Others) : DB Others :=
  {| expenses := expenses db; expenseItems := expenseItems db;
     expenseAttachedFiles := expenseAttachedFiles db;
     activities := activities db; limitedFeatures := limitedFeatures db;
     recurringExpenses := recurringExpenses db ∖ {[ r ]};
     spamNotifications := spamNotifications db; others := others db |}.

Definition add_spamNotification (a : Activity) (db : DB Others) : DB Others :=
  {| expenses := expenses db; expenseItems := expenseItems db;
     expenseAttachedFiles := expenseAttachedFiles db;
     activities := activities db; limitedFeatures := limitedFeatures db;
     recurringExpenses := recurringExpenses db;
     spamNotifications := spamNotifications db ++ [a]; others := others db |}.

Definition set_others (o : Others) (db : DB Others) : DB Others :=
  {| expenses := expenses db; expenseItems := expenseItems db;
     expenseAttachedFiles := expenseAttachedFiles db;
     activities := activities db; limitedFeatures := limitedFeatures db;
     recurringExpenses := recurringExpenses db;
     spamNotifications := spamNotifications db; others := o |}.

(** A computation on the other tables, run on the database. *)
Definition onOthers {A} (m : M Others A) : M (DB Others) A :=
  fun db => match m (others db) with (o, r) => (set_others o db, r) end.
End DBUpdates.

(** Inputs of [createExpense] and [payExpense]. *)
Record CollectiveReference : Type := {
  ref_id : option Z;
  disablePublicExpenseSubmission : bool   (* [settings?.disablePublicExpenseSubmission] *)
}.

Record ExpenseItemData : Type := {
  itd_amount : Z;
  itd_url : option string;
  itd_description : option string
}.

Record ExpenseData : Type := {
  ed_payoutMethod : option PayoutMethod;
  ed_payeeLocation : option Location;
  ed_items : option (list ExpenseItemData);
  ed_attachedFiles : option (list (option string));   (* each file's [url] *)
  ed_collective : option CollectiveReference;
  ed_fromCollective : option Collective;
  ed_tags : option (list string);
  ed_incurredAt : option string;
  ed_type : option ExpenseType;
  ed_description : option string;
  ed_longDescription : option string;
  ed_privateMessage : option string;
  ed_invoiceInfo : option string;
  ed_currency : option string;
  ed_tax : option (list TaxDefinition)
}.

Record PayExpenseArgs : Type := {
  args_id : Z;
  forceManual : bool;
  args_feesPayer : option string;
  args_paymentProcessorFeeInCollectiveCurrency : option Q;
  args_hostFeeInCollectiveCurrency : option Q;
  args_platformFeeInCollectiveCurrency : option Q;
  twoFactorAuthenticatorCode : option string
}.

(** The payee resolved by [createExpense] before it opens its transaction. *)
Record ResolvedPayee : Type := {
  rp_payeeLocation : option Location;  (* [expenseData.payeeLocation], filled in if missing *)
  rp_fromCollective : Collective;
  rp_payoutMethod : option PayoutMethod;
  rp_recipient : option string
}.

Class Imports (Others : Type) : Type := {
  (* lib/user-permissions, lib/allowed-features, @opencollective/taxes *)
  canUseFeature : option User -> Feature -> bool;
  collectiveHasFeature : Collective -> Feature -> bool;
  hostHasFeature : option Host -> Feature -> bool;
  accountHasVAT : Collective -> bool;
  accountHasGST : option Host -> bool;
  (* lib/currency, lib/math *)
  getFxRate : string -> string -> result Q;        (* the lookup may fail *)
  floatAmountToCents : Q -> Z;
  (* models *)
  Collective_findByPk : Z -> option Collective;
  getHostCollective : Collective -> option Host;
  getPayoutMethodTypeFromLegacy : Expense -> PayoutMethodType;
  getLegacyPayoutMethodTypeFromPayoutMethod : option PayoutMethod -> string;
  getConnectedAccounts_transferwise : Host -> list ConnectedAccount;
  getSubmitterUser : Expense -> option User;
  Expense_validate : Expense -> result unit;
  ExpenseItem_createFromData : ExpenseItemData -> User -> Expense -> result ExpenseItem;
  ExpenseAttachedFile_createFromData :
    option string -> User -> Expense -> result ExpenseAttachedFile;
  (* what [expense.createActivity] loads to describe the expense before it
     creates the activity: it can fail *)
  Expense_activityData : Expense -> ActivityType -> User -> result unit;
  now : string;                                        (* [new Date()] *)
  default_feesPayer : string;                          (* the column's default *)
  (* paymentProviders *)
  transferwise_getTemporaryQuote :
    ConnectedAccount -> option PayoutMethod -> Expense -> result WiseInfo;
  paypal_adaptive_fees : Z -> string -> Host -> result Q;
  (* [createExpense], from "Load the payee profile" to the Wise recipient:
     loads and checks the payee, may update its location, gets or creates
     the payout method and the recipient *)
  resolvePayee : User -> ExpenseData -> Collective -> M Others ResolvedPayee;
  (* [payExpense], from the fees payer to [markExpenseAsPaid]: balance
     check, two-factor authentication, the payout itself and the ledger *)
  processPayment :
    Request -> PayExpenseArgs -> Expense -> option Host -> M (DB Others) Expense
}.

Section Permissions.
Context {Others : Type} {imports : Imports Others}.

(** A condition or an evaluator returns its verdict together with the
    expense instance, on which it may have loaded [collective]. *)
Definition Condition : Type := Request -> Expense -> result (Expense * bool).
Definition ExpensePermissionEvaluator : Type :=
  Request -> Expense -> bool (* [options.throw] *) -> result (Expense * bool).

(** [if (!expense.collective) expense.collective = await load(CollectiveId)] *)
Definition loadCollective (req : Request) (expense : Expense) : Expense :=
  match collective expense with
  | Some _ => expense
  | None => set_collective (Collective_byId_load req (CollectiveId expense)) expense
  end.

Definition isCollectiveAdmin : Condition := fun req expense =>
  match remoteUser req with
  | None => Ok (expense, false)
  | Some u =>
      let expense := loadCollective req expense in
      Ok (expense, isAdminOfCollective u (collective expense))
  end.

Definition isHostAdmin : Condition := fun req expense =>
  match remoteUser req with
  | None => Ok (expense, false)
  | Some u =>
      let expense := loadCollective req expense in
      match collective expense with
      | None => Ok (expense, false)
      | Some c => Ok (expense, isAdmin u (HostCollectiveId c) && c_isActive c)
      end
  end.

(** The [for] loop of [remoteUserMeetsOneCondition]. *)
Fixpoint firstConditionMet (req : Request) (conditions : list Condition)
    (expense : Expense) : result (Expense * bool) :=
  match conditions with
  | [] => Ok (expense, false)
  | condition :: rest =>
      match condition req expense with
      | Ok (expense, true) => Ok (expense, true)
      | Ok (expense, false) => firstConditionMet req rest expense
      | Err e => Err e
      end
  end.

Definition remoteUserMeetsOneCondition (req : Request) (expense : Expense)
    (conditions : list Condition) (throw_ : bool) : result (Expense * bool) :=
  match remoteUser req with
  | None =>
      if throw_ then Err (Unauthorized "User is required")
      else Ok (expense, false)
  | Some _ =>
      match firstConditionMet req conditions expense with
      | Ok (expense, true) => Ok (expense, true)
      | Ok (expense, false) =>
          if throw_ then Err (Unauthorized "User does not meet minimal condition")
          else Ok (expense, false)
      | Err e => Err e
      end
  end.

(** [if (options?.throw) { throw new Forbidden(msg); } return false;] *)
Definition deny (throw_ : bool) (msg : string) (expense : Expense)
  : result (Expense * bool) :=
  if throw_ then Err (Forbidden msg) else Ok (expense, false).

Definition canPayExpense : ExpensePermissionEvaluator := fun req expense throw_ =>
  if negb (includes [APPROVED; ERROR] (status expense))
  then deny throw_ "Can not pay expense in current status" expense
  else if negb (canUseFeature (remoteUser req) USE_EXPENSES)
  then deny throw_ "User cannot pay expenses" expense
  else remoteUserMeetsOneCondition req expense [isHostAdmin] throw_.

Definition canApprove : ExpensePermissionEvaluator := fun req expense throw_ =>
  if negb (includes [PENDING; REJECTED] (status expense))
  then deny throw_ "Can not approve expense in current status" expense
  else if negb (canUseFeature (remoteUser req) USE_EXPENSES)
  then deny throw_ "User cannot approve expenses" expense
  else
    let expense := loadCollective req expense in
    match collective expense with
    | None => Err TypeError
    | Some c =>
        if hasPolicy c EXPENSE_AUTHOR_CANNOT_APPROVE then
          match remoteUser req with
          | None => Err TypeError
          | Some u =>
              if u_id u =? UserId expense
              then deny throw_ "User cannot approve their own expenses" expense
              else remoteUserMeetsOneCondition req expense
                     [isCollectiveAdmin; isHostAdmin] throw_
          end
        else remoteUserMeetsOneCondition req expense
               [isCollectiveAdmin; isHostAdmin] throw_
    end.

Definition canReject : ExpensePermissionEvaluator := fun req expense throw_ =>
  if negb (includes [PENDING; UNVERIFIED] (status expense))
  then deny throw_ "Can not reject expense in current status" expense
  else if negb (canUseFeature (remoteUser req) USE_EXPENSES)
  then deny throw_ "User cannot reject expenses" expense
  else remoteUserMeetsOneCondition req expense [isCollectiveAdmin; isHostAdmin] throw_.

Definition canMarkAsSpam : ExpensePermissionEvaluator := fun req expense throw_ =>
  if negb (includes [REJECTED] (status expense))
  then deny throw_ "Can not mark expense as spam in current status" expense
  else if negb (canUseFeature (remoteUser req) USE_EXPENSES)
  then deny throw_ "User cannot mark expenses as spam" expense
  else remoteUserMeetsOneCondition req expense [isCollectiveAdmin; isHostAdmin] throw_.

Definition canUnapprove : ExpensePermissionEvaluator := fun req expense throw_ =>
  if negb (includes [APPROVED; ERROR] (status expense))
  then deny throw_ "Can not unapprove expense in current status" expense
  else if negb (canUseFeature (remoteUser req) USE_EXPENSES)
  then deny throw_ "User cannot unapprove expenses" expense
  else remoteUserMeetsOneCondition req expense [isCollectiveAdmin; isHostAdmin] throw_.
End Permissions.

Local Open Scope db_scope.

Section Actions.
Context {Others : Type} {imports : Imports Others}.

(** [expense.update({ status, lastEditedById })]: the instance is changed
    and its row, if there is one, gets the two columns. *)
Definition update_status (expense : Expense) (st : ExpenseStatus) (by_ : Z)
  : M (DB Others) Expense :=
  fun db =>
    (upd_expenses (alter (set_status_lastEditedById st by_) (id expense)) db,
     Ok (set_status_lastEditedById st by_ expense)).

(** [expense.update({ data })] *)
Definition update_data (expense : Expense) (d : option ExpenseJsonData)
  : M (DB Others) Expense :=
  fun db =>
    (upd_expenses (alter (set_data d) (id expense)) db, Ok (set_data d expense)).

(** [expense.createActivity(type, user)]: the activity is created once
    its data are there; a failure leaves no activity. *)
Definition createActivity (expense : Expense) (t : ActivityType) (u : User)
  : M (DB Others) Activity :=
  _ <- lift (Expense_activityData expense t u) ;;
  fun db =>
    let a := {| act_type := t; act_ExpenseId := id expense; act_UserId := u_id u |} in
    (add_activity a db, Ok a).

(** [req.remoteUser.id], read where the user is known to be there. *)
Definition remoteUser_ (req : Request) : M (DB Others) User :=
  match remoteUser req with
  | Some u => ret u
  | None => throw TypeError
  end.

Definition approveExpense (req : Request) (expense : Expense) : M (DB Others) Expense :=
  if bool_decide (status expense = APPROVED) then ret expense
  else
    verdict <- lift (canApprove req expense false) ;;
    let '(expense, allowed) := verdict in
    if negb allowed then throw (Forbidden "")
    else
      u <- remoteUser_ req ;;
      updatedExpense <- update_status expense APPROVED (u_id u) ;;
      _ <- createActivity updatedExpense COLLECTIVE_EXPENSE_APPROVED u ;;
      ret updatedExpense.

Definition unapproveExpense (req : Request) (expense : Expense) : M (DB Others) Expense :=
  if bool_decide (status expense = PENDING) then ret expense
  else
    verdict <- lift (canUnapprove req expense false) ;;
    let '(expense, allowed) := verdict in
    if negb allowed then throw (Forbidden "")
    else
      u <- remoteUser_ req ;;
      updatedExpense <- update_status expense PENDING (u_id u) ;;
      _ <- createActivity updatedExpense COLLECTIVE_EXPENSE_UNAPPROVED u ;;
      ret updatedExpense.

Definition rejectExpense (req : Request) (expense : Expense) : M (DB Others) Expense :=
  if bool_decide (status expense = REJECTED) then ret expense
  else
    verdict <- lift (canReject req expense false) ;;
    let '(expense, allowed) := verdict in
    if negb allowed then throw (Forbidden "")
    else
      u <- remoteUser_ req ;;
      updatedExpense <- update_status expense REJECTED (u_id u) ;;
      _ <- createActivity updatedExpense COLLECTIVE_EXPENSE_REJECTED u ;;
      ret updatedExpense.

Definition markExpenseAsSpam (req : Request) (expense : Expense) : M (DB Others) Expense :=
  if bool_decide (status expense = SPAM) then ret expense
  else
    verdict <- lift (canMarkAsSpam req expense false) ;;
    let '(expense, allowed) := verdict in
    if negb allowed then throw (Forbidden "")
    else
      u <- remoteUser_ req ;;
      updatedExpense <- update_status expense SPAM (u_id u) ;;
      (* limit the submitter *)
      submittedByUser <- match getSubmitterUser updatedExpense with
                         | Some s => ret s
                         | None => throw TypeError
                         end ;;
      _ <- modify (add_limitedFeature (u_id submittedByUser) USE_EXPENSES) ;;
      (* cancel the recurring expense *)
      _ <- match RecurringExpenseId updatedExpense with
           | Some r => modify (destroy_recurringExpense r)
           | None => ret tt
           end ;;
      activity <- createActivity updatedExpense COLLECTIVE_EXPENSE_MARKED_AS_SPAM u ;;
      _ <- modify (add_spamNotification activity) ;;
      ret updatedExpense.

(** The four status actions, their target status and their evaluator. *)
Inductive StatusAction : Type := Approve | Unapprove | Reject | MarkAsSpam.

Definition targetStatus (a : StatusAction) : ExpenseStatus :=
  match a with
  | Approve => APPROVED | Unapprove => PENDING | Reject => REJECTED | MarkAsSpam => SPAM
  end.

Definition evaluatorOf (a : StatusAction) : ExpensePermissionEvaluator :=
  match a with
  | Approve => canApprove | Unapprove => canUnapprove
  | Reject => canReject | MarkAsSpam => canMarkAsSpam
  end.

Definition runAction (a : StatusAction) : Request -> Expense -> M (DB Others) Expense :=
  match a with
  | Approve => approveExpense | Unapprove => unapproveExpense
  | Reject => rejectExpense | MarkAsSpam => markExpenseAsSpam
  end.
End Actions.

Section PayExpense.
Context {Others : Type} {imports : Imports Others}.

(** [models.Expense.findByPk(id)] *)
Definition Expense_findByPk (id_ : Z) : M (DB Others) (option Expense) :=
  gets (fun db => expenses db !! id_).

(** [findByPk] with [include: [collective, fromCollective]] *)
Definition Expense_findByPk_withCollectives (id_ : Z) : M (DB Others) (option Expense) :=
  gets (fun db =>
          (fun e => set_fromCollective (Collective_findByPk (FromCollectiveId e))
                      (set_collective (Collective_findByPk (CollectiveId e)) e))
            <$> expenses db !! id_).

(** [lockExpense]: the soft lock is the [isLocked] flag of [expense.data]. *)
Definition lockExpense {A} (id_ : Z) (callback : M (DB Others) A) : M (DB Others) A :=
  _ <- sequelize_transaction
         (expense <- Expense_findByPk id_ ;;
          match expense with
          | None => throw (Unauthorized "Expense not found")
          | Some expense =>
              if data_isLocked expense
              then throw (JsError "This expense is already been processed, please try again later")
              else update_data expense (with_isLocked true (data expense))
          end) ;;
  try_finally callback
    (expense <- Expense_findByPk id_ ;;
     match expense with
     | None => throw TypeError
     | Some expense =>
         _ <- update_data expense (with_isLocked false (data expense)) ;;
         ret tt
     end).

Definition hasMultiCurrency (collective : Collective) (host : option Host) : bool :=
  if negb (bool_decide (Some (c_currency collective) = h_currency <$> host))
  then false
  else collectiveHasFeature collective MULTI_CURRENCY_EXPENSES
       || hostHasFeature host MULTI_CURRENCY_EXPENSES.

(** The callback that [payExpense] runs under the lock. *)
Definition payExpense_locked (req : Request) (args : PayExpenseArgs)
  : M (DB Others) Expense :=
  expense <- Expense_findByPk_withCollectives (args_id args) ;;
  match expense with
  | None => throw (Unauthorized "Expense not found")
  | Some expense =>
      if bool_decide (status expense = PAID)
      then throw (Unauthorized "Expense has already been paid")
      else if bool_decide (status expense = PROCESSING)
      then throw (Unauthorized
        "Expense is currently being processed, this means someone already started the payment process")
      else if bool_decide (status expense <> APPROVED)
              && negb (bool_decide (status expense = ERROR))
      then throw (Unauthorized
        ("Expense needs to be approved. Current status of the expense: "
           +:+ statusName (status expense) +:+ "."))
      else
        verdict <- lift (canPayExpense req expense false) ;;
        let '(expense, allowed) := verdict in
        if negb allowed
        then throw (Unauthorized "You don't have permission to pay this expense")
        else
          match collective expense with
          | None => throw TypeError
          | Some c =>
              let host := getHostCollective c in
              if negb (bool_decide (currency expense = c_currency c))
                 && negb (hasMultiCurrency c host)
              then throw (Unauthorized
                "Multi-currency expenses are not enabled for this collective")
              else if bool_decide (legacyPayoutMethod expense = "donation")
              then throw (JsError (dquote +:+ "In kind" +:+ dquote
                                     +:+ " donations are not supported anymore"))
              else processPayment req args expense host
          end
  end.

Definition payExpense (req : Request) (args : PayExpenseArgs) : M (DB Others) Expense :=
  match remoteUser req with
  | None => throw (Unauthorized "You need to be logged in to pay an expense")
  | Some remoteUser =>
      if negb (canUseFeature (Some remoteUser) USE_EXPENSES)
      then throw FeatureNotAllowedForUser
      else lockExpense (args_id args) (payExpense_locked req args)
  end.
End PayExpense.

(* ------------------------------------------------------------------ *)
(** *** Fees of a payout *)

Record FeesArgs : Type := {
  paymentProcessorFeeInCollectiveCurrency : option Q;
  hostFeeInCollectiveCurrency : option Q;
  platformFeeInCollectiveCurrency : option Q
}.

Record FeesInHostCurrency : Type := {
  paymentProcessorFeeInHostCurrency : Z;
  hostFeeInHostCurrency : Z;
  platformFeeInHostCurrency : Z
}.

Record FeesInExpenseCurrency : Type := {
  paymentProcessorFee : option Q;
  hostFee : option Q;
  platformFee : option Q
}.

Record ExpenseFees : Type := {
  feesInCollectiveCurrency : FeesArgs;
  feesInHostCurrency : FeesInHostCurrency;
  feesInExpenseCurrency : FeesInExpenseCurrency
}.

Definition set_paymentProcessorFeeInCollectiveCurrency (x : option Q) (f : FeesArgs) : FeesArgs :=
  {| paymentProcessorFeeInCollectiveCurrency := x;
     hostFeeInCollectiveCurrency := hostFeeInCollectiveCurrency f;
     platformFeeInCollectiveCurrency := platformFeeInCollectiveCurrency f |}.

(** [!x] on a number that may be missing. *)
Definition falsyOQ (x : option Q) : bool :=
  match x with Some q => negb (truthyQ q) | None => true end.

(** The answer of [payExpense] to a status that cannot be paid, as the
    documentation of the status checks words it: "already paid", "being
    processed", and "needs to be approved" for the rest. *)
Definition refusal (st : ExpenseStatus) : error :=
  match st with
  | PAID => Unauthorized "Expense has already been paid"
  | PROCESSING =>
      Unauthorized
        "Expense is currently being processed, this means someone already started the payment process"
  | _ =>
      Unauthorized
        ("Expense needs to be approved. Current status of the expense: "
           +:+ statusName st +:+ ".")
  end.

Section Fees.
Context {Others : Type} {imports : Imports Others}.

(** The first part of [getExpenseFees]: the payment processor fee in the
    collective's currency, asked from Wise or PayPal unless the payout is
    manual. *)
Definition estimatePaymentProcessorFee (expense : Expense) (c : Collective)
    (host : Host) (fees : FeesArgs) (payoutMethod : option PayoutMethod)
    (forceManual useExistingWiseData : bool)
    (collectiveToHostFxRate : Q) : result FeesArgs :=
  let resultFees := fees in
  let payoutMethodType :=
    match payoutMethod with
    | Some pm => pm_type pm
    | None => getPayoutMethodTypeFromLegacy expense
    end in
  if bool_decide (payoutMethodType = BANK_ACCOUNT) && negb forceManual then
    match getConnectedAccounts_transferwise host with
    | [] => Err (JsError "Host is not connected to Transferwise")
    | connectedAccount :: _ =>
        rbind
          (if useExistingWiseData then
             match data expense with
             | Some d => Ok (paymentOption d)
             | None => Err TypeError
             end
           else
             rbind (transferwise_getTemporaryQuote connectedAccount payoutMethod expense)
               (fun quote =>
                  Ok (List.find
                        (fun p => bool_decide (payIn p = "BALANCE")
                                  && bool_decide (po_payOut p = payOut quote))
                        (paymentOptions quote))))
          (fun option_ =>
             match option_ with
             | None => Err (BadRequest
                 "Could not find available payment option for this transaction." [])
             | Some paymentOption =>
                 Ok (set_paymentProcessorFeeInCollectiveCurrency
                       (Some (inQ (floatAmountToCents
                                     (fdiv (fee_total paymentOption) collectiveToHostFxRate))))
                       resultFees)
             end)
    end
  else if bool_decide (payoutMethodType = PAYPAL) && negb forceManual then
    rbind (paypal_adaptive_fees (amount expense) (c_currency c) host)
      (fun fee => Ok (set_paymentProcessorFeeInCollectiveCurrency (Some fee) resultFees))
  else Ok resultFees.

(** [if (!expense.collective) expense.collective = await findByPk(CollectiveId)] *)
Definition withCollective (expense : Expense) : Expense :=
  match collective expense with
  | Some _ => expense
  | None => set_collective (Collective_findByPk (CollectiveId expense)) expense
  end.

Definition getExpenseFees (expense : Expense) (host : Host) (fees : FeesArgs)
    (payoutMethod : option PayoutMethod) (forceManual useExistingWiseData : bool)
  : result ExpenseFees :=
  let expense := withCollective expense in
  match collective expense with
  | None => Err TypeError
  | Some c =>
      rbind (getFxRate (c_currency c) (h_currency host)) (fun collectiveToHostFxRate =>
      rbind (estimatePaymentProcessorFee expense c host fees payoutMethod
               forceManual useExistingWiseData collectiveToHostFxRate)
        (fun resultFees =>
           (* fees in host currency *)
           let feesInHostCurrency :=
             {| paymentProcessorFeeInHostCurrency :=
                  js_round (fmul collectiveToHostFxRate
                              (orZero (paymentProcessorFeeInCollectiveCurrency resultFees)));
                hostFeeInHostCurrency :=
                  js_round (fmul collectiveToHostFxRate
                              (orZero (hostFeeInCollectiveCurrency fees)));
                platformFeeInHostCurrency :=
                  js_round (fmul collectiveToHostFxRate
                              (orZero (platformFeeInCollectiveCurrency resultFees))) |} in
           let resultFees :=
             if falsyOQ (paymentProcessorFeeInCollectiveCurrency resultFees)
             then set_paymentProcessorFeeInCollectiveCurrency (Some 0%Q) resultFees
             else resultFees in
           (* fees in expense currency *)
           rbind
             (if bool_decide (currency expense = c_currency c) then
                Ok {| paymentProcessorFee :=
                        paymentProcessorFeeInCollectiveCurrency resultFees;
                      hostFee := hostFeeInCollectiveCurrency resultFees;
                      platformFee := platformFeeInCollectiveCurrency resultFees |}
              else
                rbind (getFxRate (c_currency c) (currency expense))
                  (fun collectiveToExpenseFxRate =>
                     let applyCollectiveToExpenseFxRate (amount : option Q) : option Q :=
                       Some (inQ (js_round (fmul (orZero amount)
                                              collectiveToExpenseFxRate))) in
                     Ok {| paymentProcessorFee :=
                             applyCollectiveToExpenseFxRate
                               (paymentProcessorFeeInCollectiveCurrency resultFees);
                           hostFee :=
                             applyCollectiveToExpenseFxRate
                               (hostFeeInCollectiveCurrency resultFees);
                           platformFee :=
                             applyCollectiveToExpenseFxRate
                               (platformFeeInCollectiveCurrency resultFees) |}))
             (fun feesInExpenseCurrency =>
                Ok {| feesInCollectiveCurrency := resultFees;
                      feesInHostCurrency := feesInHostCurrency;
                      feesInExpenseCurrency := feesInExpenseCurrency |})))
  end.
End Fees.

(* ------------------------------------------------------------------ *)
(** *** Creating an expense *)

(** lodash [sumBy]: 0 for an empty array; otherwise the first value, to
    which the others are added one after the other, from left to right. *)
Definition sumBy {A} (l : list A) (f : A -> Q) : Q :=
  match l with
  | [] => 0%Q
  | x :: l' => fold_left (fun result y => fadd result (f y)) l' (toDouble (f x))
  end.

(** Compute the total amount of expense from expense items. *)
Definition computeTotalAmountForExpense (items : list ExpenseItemData)
    (taxes : list TaxDefinition) : Z :=
  js_round
    (sumBy items (fun item =>
       let totalTaxes := sumBy taxes (fun tax => fmul (inQ (itd_amount item)) (tax_rate tax)) in
       fadd (inQ (itd_amount item)) totalTaxes)).

(** The fields of the expense that [checkExpenseItems] and [checkTaxes]
    read are passed as arguments. *)
Definition checkExpenseItems (expenseType : option ExpenseType)
    (items : option (list ExpenseItemData)) (taxes : list TaxDefinition) : result unit :=
  match items with
  | None | Some [] => Err (ValidationFailed "Your expense needs to have at least one item")
  | Some items =>
      if (300 <? Z.of_nat (length items))
      then Err (ValidationFailed "Expenses cannot have more than 300 items")
      else
        let sumItems := computeTotalAmountForExpense items taxes in
        if negb (truthyZ sumItems)
        then Err (ValidationFailed "The sum of all items must be above 0")
        else if bool_decide (expenseType = Some RECEIPT)
                && existsb (fun a => negb (truthyOS (itd_url a))) items
        then Err (ValidationFailed "Some items are missing a file")
        else Ok tt
  end.

(** lodash [size] of a list that may be missing. *)
Definition size_ {A} (l : option (list A)) : Z :=
  match l with Some l => Z.of_nat (length l) | None => 0 end.

Section CreateExpense.
Context {Others : Type} {imports : Imports Others}.

Definition checkTax (account : Collective) (host : option Host) (tax : TaxDefinition)
  : result unit :=
  if Qltb (tax_rate tax) 0 || Qltb 1 (tax_rate tax)
  then Err (ValidationFailed
              ("Tax rate for " +:+ tax_type tax +:+ " must be between 0% and 100%"))
  else if bool_decide (tax_type tax = "VAT") && negb (accountHasVAT account)
  then Err (ValidationFailed "This account does not have VAT enabled")
  else if bool_decide (tax_type tax = "GST") && negb (accountHasGST host)
  then Err (ValidationFailed "This host does not have GST enabled")
  else Ok tt.

Definition checkTaxes (account : Collective) (host : option Host)
    (expenseType : option ExpenseType) (taxes : list TaxDefinition) : result unit :=
  match taxes with
  | [] => Ok tt
  | [tax] =>
      if negb (bool_decide (expenseType = Some INVOICE))
      then Err (ValidationFailed "Only invoices can have taxes")
      else checkTax account host tax
  | _ => Err (ValidationFailed "Only one tax is allowed per expense")
  end.

(** [Promise.all(itemsData.map(createFromData))] inside the transaction:
    each item is validated and its row inserted; the first failure is
    the error of the whole. *)
Fixpoint createItems (itemsData : list ExpenseItemData) (remoteUser : User)
    (createdExpense : Expense) : M (DB Others) (list ExpenseItem) :=
  match itemsData with
  | [] => ret []
  | attachmentData :: rest =>
      item <- lift (ExpenseItem_createFromData attachmentData remoteUser createdExpense) ;;
      _ <- modify (add_expenseItem item) ;;
      others_ <- createItems rest remoteUser createdExpense ;;
      ret (item :: others_)
  end.

Fixpoint createFiles (urls : list (option string)) (remoteUser : User)
    (expense : Expense) : M (DB Others) (list ExpenseAttachedFile) :=
  match urls with
  | [] => ret []
  | url :: rest =>
      file <- lift (ExpenseAttachedFile_createFromData url remoteUser expense) ;;
      _ <- modify (add_expenseAttachedFile file) ;;
      others_ <- createFiles rest remoteUser expense ;;
      ret (file :: others_)
  end.

(** Creates attached files for the given expense. *)
Definition createAttachedFiles (expense : Expense)
    (attachedFilesData : option (list (option string))) (remoteUser : User)
  : M (DB Others) (list ExpenseAttachedFile) :=
  if 0 <? size_ attachedFilesData
  then createFiles (default [] attachedFilesData) remoteUser expense
  else ret [].

(** The next value of the primary key of [Expenses]. *)
Definition nextExpenseId (db : DB Others) : Z :=
  1 + map_fold (fun k _ acc => Z.max k acc) 0 (expenses db).

(** [models.Expense.create(values, { transaction })] *)
Definition Expense_create (values : Expense) : M (DB Others) Expense :=
  _ <- lift (Expense_validate values) ;;
  fun db =>
    let created := {|
      id := nextExpenseId db; status := status values; type := type values;
      amount := amount values; currency := currency values;
      description := description values;
      longDescription := longDescription values; tags := tags values;
      privateMessage := privateMessage values; invoiceInfo := invoiceInfo values;
      payeeLocation := payeeLocation values; CollectiveId := CollectiveId values;
      FromCollectiveId := FromCollectiveId values; UserId := UserId values;
      lastEditedById := lastEditedById values; incurredAt := incurredAt values;
      PayoutMethodId := PayoutMethodId values;
      legacyPayoutMethod := legacyPayoutMethod values; feesPayer := feesPayer values;
      RecurringExpenseId := RecurringExpenseId values; data := data values;
      collective := None; fromCollective := None; items := [];
      attachedFiles := []; user := None |} in
    (upd_expenses (insert (nextExpenseId db) created) db, Ok created).
End CreateExpense.

Section CreateExpenseMain.
Context {Others : Type} {imports : Imports Others}.

(** [get(expenseData, 'collective.id')] when it is truthy. *)
Definition collectiveIdOf (expenseData : ExpenseData) : option (CollectiveReference * Z) :=
  match ed_collective expenseData with
  | Some ref =>
      match ref_id ref with
      | Some i => if truthyZ i then Some (ref, i) else None
      | None => None
      end
  | None => None
  end.

(** The submitter may pick the currency. *)
Definition expenseCurrency (expenseData : ExpenseData) (collective : Collective)
  : result string :=
  match ed_currency expenseData with
  | Some cur =>
      if truthyS cur && negb (bool_decide (cur = c_currency collective)) then
        if negb (hasMultiCurrency collective (c_host collective))
        then Err (FeatureNotSupportedForCollective
                    "Multi-currency expenses are not enabled for this account")
        else Ok cur
      else Ok (c_currency collective)
  | None => Ok (c_currency collective)
  end.

(** The body of the transaction of [createExpense]. *)
Definition createExpense_transaction (remoteUser : User) (expenseData : ExpenseData)
    (collective : Collective) (currency_ : string) (payee : ResolvedPayee)
    (itemsData : list ExpenseItemData) (taxes_ : list TaxDefinition)
  : M (DB Others) Expense :=
  createdExpense <-
    Expense_create {|
      id := 0;
      description := ed_description expenseData;
      longDescription := ed_longDescription expenseData;
      type := ed_type expenseData;
      privateMessage := ed_privateMessage expenseData;
      invoiceInfo := ed_invoiceInfo expenseData;
      payeeLocation := rp_payeeLocation payee;
      currency := currency_;
      tags := ed_tags expenseData;
      status := PENDING;
      CollectiveId := c_id collective;
      FromCollectiveId := c_id (rp_fromCollective payee);
      lastEditedById := Some (u_id remoteUser);
      UserId := u_id remoteUser;
      incurredAt := Some (if truthyOS (ed_incurredAt expenseData)
                          then default now (ed_incurredAt expenseData) else now);
      PayoutMethodId := pm_id <$> rp_payoutMethod payee;
      legacyPayoutMethod :=
        getLegacyPayoutMethodTypeFromPayoutMethod (rp_payoutMethod payee);
      amount := computeTotalAmountForExpense itemsData taxes_;
      data := Some {| isLocked := false; transfer := None; quote := None;
                      paymentOption := None; recipient := rp_recipient payee;
                      taxes := taxes_ |};
      feesPayer := default_feesPayer; RecurringExpenseId := None;
      collective := None; fromCollective := None; items := [];
      attachedFiles := []; user := None |} ;;
  (* Create items *)
  items_ <- createItems itemsData remoteUser createdExpense ;;
  let createdExpense := set_items items_ createdExpense in
  (* Create attached files *)
  files <- createAttachedFiles createdExpense (ed_attachedFiles expenseData) remoteUser ;;
  ret (set_attachedFiles files createdExpense).

Definition createExpense (remoteUser : option User) (expenseData : ExpenseData)
  : M (DB Others) Expense :=
  match remoteUser with
  | None => throw (Unauthorized "You need to be logged in to create an expense")
  | Some remoteUser =>
  if negb (canUseFeature (Some remoteUser) USE_EXPENSES)
  then throw FeatureNotAllowedForUser else
  match collectiveIdOf expenseData with
  | None => throw (Unauthorized "Missing expense.collective.id")
  | Some (ref, collectiveId) =>
  match Collective_findByPk collectiveId with
  | None => throw (ValidationFailed "Collective not found")
  | Some collective =>
  let isMember := rolesByCollectiveId remoteUser (c_id collective) in
  if disablePublicExpenseSubmission ref && negb isMember
     && negb (isAdminOfCollectiveOrHost remoteUser collective)
     && negb (isRoot remoteUser)
  then throw (JsError "You must be a member of the collective to create new expense") else
  let itemsData := ed_items expenseData in
  let taxes_ := default [] (ed_tax expenseData) in
  _ <- lift (checkTaxes collective (c_host collective) (ed_type expenseData) taxes_) ;;
  _ <- lift (checkExpenseItems (ed_type expenseData) itemsData taxes_) ;;
  if 15 <? size_ (ed_attachedFiles expenseData)
  then throw (ValidationFailed
         "The number of files that you can attach to an expense is limited to 15") else
  let isAllowedType :=
    bool_decide (c_type collective ∈ [COLLECTIVE; EVENT; FUND; PROJECT]) in
  let isActiveHost :=
    bool_decide (c_type collective = ORGANIZATION) && c_isActive collective in
  if negb isAllowedType && negb isActiveHost
  then throw (ValidationFailed
         "Expenses can only be submitted to Collectives, Events, Funds, Projects and active Hosts.") else
  currency_ <- lift (expenseCurrency expenseData collective) ;;
  payee <- onOthers (resolvePayee remoteUser expenseData collective) ;;
  expense <- sequelize_transaction
               (createExpense_transaction remoteUser expenseData collective currency_
                  payee (default [] itemsData) taxes_) ;;
  let expense := set_collective (Some collective) (set_user (Some remoteUser) expense) in
  _ <- createActivity expense COLLECTIVE_EXPENSE_CREATED remoteUser ;;
  ret expense
  end end end.
End CreateExpenseMain.

(* ------------------------------------------------------------------ *)
(** *** Account holder name against legal name

    A JavaScript string is the list of its UTF-16 code units. *)
Definition JsString : Type := list N.

(** A string literal of the source whose characters are all ASCII. *)
Definition lit (s : string) : JsString := N_of_ascii <$> list_ascii_of_string s.

(** Whether [s] begins with [pat]. *)
Fixpoint startsWith (pat s : JsString) : bool :=
  match pat, s with
  | [], _ => true
  | p :: pat', c :: s' => (p =? c)%N && startsWith pat' s'
  | _ :: _, [] => false
  end.


(** [s.replace(/pat/g, '')] for a literal [pat]: one pass from the left;
    after a match the scan resumes behind it.  [skip] counts the code units
    of the current match that are still to be dropped. *)
Fixpoint removeAll_from (pat : JsString) (skip : nat) (s : JsString) : JsString :=
  match s with
  | [] => []
  | c :: rest =>
      match skip with
      | S k => removeAll_from pat k rest
      | O =>
          if startsWith pat s
          then removeAll_from pat (length pat - 1) rest
          else c :: removeAll_from pat 0 rest
      end
  end.

Definition pattern501c3 : JsString := lit "501(c)(3)".

(** [name.replace(/501\(c\)\(3\)/g, '')] *)
Definition remove501c3 (name : JsString) : JsString := removeAll_from pattern501c3 0 name.

(** White space and line terminators of ECMAScript: TAB, LF, VT, FF, CR, SP,
    NBSP, U+1680, U+2000 to U+200A, U+2028, U+2029, U+202F, U+205F, U+3000
    and U+FEFF. *)
Definition isWhiteSpace (c : N) : bool :=
  ((9 <=? c) && (c <=? 13) || (c =? 32) || (c =? 160) || (c =? 5760)
   || (8192 <=? c) && (c <=? 8202) || (c =? 8232) || (c =? 8233)
   || (c =? 8239) || (c =? 8287) || (c =? 12288) || (c =? 65279))%N.

Fixpoint trimStart (s : JsString) : JsString :=
  match s with
  | [] => []
  | c :: rest => if isWhiteSpace c then trimStart rest else s
  end.

Fixpoint trimEnd (s : JsString) : JsString :=
  match s with
  | [] => []
  | c :: rest =>
      match trimEnd rest with
      | [] => if isWhiteSpace c then [] else [c]
      | rest' => c :: rest'
      end
  end.

Definition trim (s : JsString) : JsString := trimEnd (trimStart s).

(** The code unit of [' ']. *)
Definition space : N := 32%N.

(** [s.split(' ')] *)
Fixpoint split_space (s : JsString) : list JsString :=
  match s with
  | [] => [[]]
  | c :: rest =>
      if (c =? space)%N then [] :: split_space rest
      else match split_space rest with
           | part :: parts => (c :: part) :: parts
           | [] => [[c]]
           end
  end.

(** The collator of the runtime:
    [this.localeCompare(that, undefined, { sensitivity: 'base',
    ignorePunctuation: true })], a number that is 0 when the collator finds
    the two strings equal. *)
Class Collator : Type := {
  localeCompare : JsString -> JsString -> Z
}.

(** [ToString] of a string that may be [undefined]. *)
Definition toString (s : option JsString) : JsString := default (lit "undefined") s.

Section NameMatch.
Context {collator : Collator}.

(** The collator finds the two strings equal. *)
Definition collates (a b : JsString) : Prop := localeCompare a b = 0.

Definition isAccountHolderNameAndLegalNameMatch (accountHolderName legalName : JsString) : bool :=
  (* Ignore 501(c)(3) in both account holder name and legal name *)
  let legalName := remove501c3 legalName in
  let accountHolderName := remove501c3 accountHolderName in
  let namesArray := split_space (trim legalName) in
  let legalNameReversed :=
    match namesArray with
    | [firstName; lastName] => Some (lastName ++ (space :: firstName))%list
    | _ => None
    end in
  negb (truthyZ (localeCompare accountHolderName legalName)
        && truthyZ (localeCompare accountHolderName (toString legalNameReversed))).
End NameMatch.


(** A collator for concrete cases, right on strings of ASCII characters:
    letters compare without their case; white space, control characters
    and punctuation are skipped; digits and the symbols [$ + < = > ^ ` | ~]
    stand for themselves, as does, here, every code unit beyond ASCII. *)
Definition isIgnorable (c : N) : bool :=
  ((c <=? 32) || (c =? 127)
   || existsb (N.eqb c)
        [33; 34; 35; 37; 38; 39; 40; 41; 42; 44; 45; 46; 47; 58; 59; 63; 64;
         91; 92; 93; 95; 123; 125])%N.

Definition baseLetter (c : N) : N :=
  if ((65 <=? c) && (c <=? 90))%N then (c + 32)%N else c.

Fixpoint collationKey (s : JsString) : list N :=
  match s with
  | [] => []
  | c :: rest =>
      if isIgnorable c then collationKey rest
      else baseLetter c :: collationKey rest
  end.

Fixpoint compareKeys (a b : list N) : comparison :=
  match a, b with
  | [], [] => Eq
  | [], _ :: _ => Lt
  | _ :: _, [] => Gt
  | x :: a', y :: b' =>
      match (x ?= y)%N with
      | Eq => compareKeys a' b'
      | c => c
      end
  end.

Definition asciiLocaleCompare (this that : JsString) : Z :=
  match compareKeys (collationKey this) (collationKey that) with
  | Eq => 0
  | Lt => -1
  | Gt => 1
  end.

Definition asciiCollator : Collator :=
  {| localeCompare := asciiLocaleCompare |}.

(* ------------------------------------------------------------------ *)
(** *** A small running instance

    One host, one collective, its admin, and stand-ins for the imported
    functions: enough to run the functions above on concrete requests. *)

Definition demoHost : Host :=
  {| h_id := 10; h_currency := "USD"; h_payoutsTwoFactorAuth := false |}.

(** A host that keeps its books in another currency. *)
Definition demoForeignHost : Host :=
  {| h_id := 11; h_currency := "BRL"; h_payoutsTwoFactorAuth := false |}.

Definition demoCollective : Collective :=
  {| c_id := 1; c_type := COLLECTIVE; c_currency := "USD"; c_isActive := true;
     HostCollectiveId := Some 10; ParentCollectiveId := None;
     hasPolicy := fun _ => false; c_host := Some demoHost |}.

Definition demoAdmin : User :=
  {| u_id := 7;
     isAdmin := fun c => bool_decide (c = Some 10);
     isAdminOfCollective := fun _ => true;
     isAdminOfCollectiveOrHost := fun _ => true;
     isRoot := false;
     hasRole := fun _ _ => true;
     rolesByCollectiveId := fun _ => true |}.

Definition demoRequest : Request :=
  {| remoteUser := Some demoAdmin;
     Collective_byId_load := fun i => if i =? 1 then Some demoCollective else None |}.

Definition demoExpense (id_ : Z) (st : ExpenseStatus) : Expense :=
  {| id := id_; status := st; type := Some INVOICE; amount := 5000;
     currency := "USD"; description := Some "Hosting"; longDescription := None;
     tags := None; privateMessage := None; invoiceInfo := None;
     payeeLocation := None; CollectiveId := 1; FromCollectiveId := 1;
     UserId := 7; lastEditedById := None; incurredAt := None;
     PayoutMethodId := None; legacyPayoutMethod := "other";
     feesPayer := "COLLECTIVE"; RecurringExpenseId := None; data := None;
     collective := None; fromCollective := None; items := [];
     attachedFiles := []; user := None |}.

Definition demoDB (rows : list Expense) : DB unit :=
  {| expenses := list_to_map (map (fun e => (id e, e)) rows);
     expenseItems := []; expenseAttachedFiles := []; activities := [];
     limitedFeatures := []; recurringExpenses := ∅; spamNotifications := [];
     others := tt |}.

Definition demoImportsWith (activityData : result unit) : Imports unit := {|
  canUseFeature := fun _ _ => true;
  collectiveHasFeature := fun _ _ => false;
  hostHasFeature := fun _ _ => false;
  accountHasVAT := fun _ => true;
  accountHasGST := fun _ => true;
  getFxRate := fun a b =>
    if String.eqb a b then Ok 1%Q
    else if String.eqb b "BRL" then Ok (29 # 100)%Q
    else if String.eqb b "XTS" then Err (JsError "No FX rate for this currency")
    else Ok (11 # 10)%Q;
  floatAmountToCents := fun q => js_round (fmul q 100);
  Collective_findByPk := fun i => if i =? 1 then Some demoCollective else None;
  getHostCollective := c_host;
  getPayoutMethodTypeFromLegacy := fun _ => OtherPayoutMethodType "OTHER";
  getLegacyPayoutMethodTypeFromPayoutMethod := fun _ => "other";
  getConnectedAccounts_transferwise := fun _ => [];
  getSubmitterUser := fun _ => Some demoAdmin;
  Expense_validate := fun _ => Ok tt;
  ExpenseItem_createFromData := fun d u e =>
    if itd_amount d <? 0 then Err (ValidationFailed "Validation error")
    else Ok {| item_id := 0; item_ExpenseId := id e; item_CreatedByUserId := u_id u;
               item_amount := itd_amount d; item_url := itd_url d;
               item_description := itd_description d |};
  ExpenseAttachedFile_createFromData := fun url u e =>
    if truthyOS url
    then Ok {| file_id := 0; file_ExpenseId := id e; file_CreatedByUserId := u_id u;
               file_url := url |}
    else Err (ValidationFailed "Validation error");
  Expense_activityData := fun _ _ _ => activityData;
  now := "2022-06-01T00:00:00.000Z";
  default_feesPayer := "COLLECTIVE";
  transferwise_getTemporaryQuote := fun _ _ _ => Err (JsError "No quote");
  paypal_adaptive_fees := fun _ _ _ => Ok 0%Q;
  resolvePayee := fun _ d c =>
    ret {| rp_payeeLocation := ed_payeeLocation d;
           rp_fromCollective := default c (ed_fromCollective d);
           rp_payoutMethod := ed_payoutMethod d; rp_recipient := None |};
  processPayment := fun req _ e _ =>
    match remoteUser req with
    | Some u => update_status e PAID (u_id u)
    | None => throw TypeError
    end
|}.

(** The same with activities that are always created. *)
Definition demoImports : Imports unit := demoImportsWith (Ok tt).

Definition demoItem (amount_ : Z) : ExpenseItemData :=
  {| itd_amount := amount_; itd_url := Some "https://example.org/receipt.pdf";
     itd_description := None |}.

Definition demoExpenseData (items_ : option (list ExpenseItemData))
    (files : option (list (option string))) : ExpenseData :=
  {| ed_payoutMethod := None; ed_payeeLocation := None; ed_items := items_;
     ed_attachedFiles := files;
     ed_collective := Some {| ref_id := Some 1; disablePublicExpenseSubmission := false |};
     ed_fromCollective := None; ed_tags := None; ed_incurredAt := None;
     ed_type := Some INVOICE; ed_description := Some "Hosting";
     ed_longDescription := None; ed_privateMessage := None;
     ed_invoiceInfo := None; ed_currency := None; ed_tax := None |}.

(** An invoice with 19% of VAT. *)
Definition demoTaxedExpenseData (items_ : list ExpenseItemData) : ExpenseData :=
  {| ed_payoutMethod := None; ed_payeeLocation := None; ed_items := Some items_;
     ed_attachedFiles := None;
     ed_collective := Some {| ref_id := Some 1; disablePublicExpenseSubmission := false |};
     ed_fromCollective := None; ed_tags := None; ed_incurredAt := None;
     ed_type := Some INVOICE; ed_description := Some "Hosting";
     ed_longDescription := None; ed_privateMessage := None;
     ed_invoiceInfo := None; ed_currency := None;
     ed_tax := Some [{| tax_type := "VAT"; tax_rate := (19 # 100)%Q;
                        idNumber := "EU000011111" |}] |}.

Definition demoPayArgs (id_ : Z) : PayExpenseArgs :=
  {| args_id := id_; forceManual := true; args_feesPayer := None;
     args_paymentProcessorFeeInCollectiveCurrency := None;
     args_hostFeeInCollectiveCurrency := None;
     args_platformFeeInCollectiveCurrency := None;
     twoFactorAuthenticatorCode := None |}.

(* ------------------------------------------------------------------ *)
(** *** The other conditions and evaluators *)

Section Evaluators.
Context {Others : Type} {imports : Imports Others}.

Definition isOwner : Condition := fun req expense =>
  match remoteUser req with
  | None => Ok (expense, false)
  | Some u =>
      if u_id u =? UserId expense then Ok (expense, true)
      else
        match fromCollective expense with
        | Some _ => Ok (expense, isAdminOfCollective u (fromCollective expense))
        | None =>
            let expense :=
              set_fromCollective (Collective_byId_load req (FromCollectiveId expense))
                expense in
            match fromCollective expense with
            | None => Ok (expense, false)
            | Some _ => Ok (expense, isAdminOfCollective u (fromCollective expense))
            end
        end
  end.

Definition isCollectiveAccountant : Condition := fun req expense =>
  match remoteUser req with
  | None => Ok (expense, false)
  | Some u =>
      if hasRole u ACCOUNTANT (Some (CollectiveId expense)) then Ok (expense, true)
      else
        match Collective_byId_load req (CollectiveId expense) with
        | None => Ok (expense, false)
        | Some collective =>
            if hasRole u ACCOUNTANT (HostCollectiveId collective)
            then Ok (expense, true)
            else
              match ParentCollectiveId collective with
              | Some parent =>
                  if truthyZ parent
                  then Ok (expense, hasRole u ACCOUNTANT (Some parent))
                  else Ok (expense, false)
              | None => Ok (expense, false)
              end
        end
  end.

(** Checks if the user can see expense's attachments (items URLs, attached
    files).  The evaluators that take no [options] never throw. *)
Definition canSeeExpenseAttachments : ExpensePermissionEvaluator := fun req expense _ =>
  remoteUserMeetsOneCondition req expense
    [isOwner; isCollectiveAdmin; isCollectiveAccountant; isHostAdmin] false.

Definition canSeeExpensePayoutMethod : ExpensePermissionEvaluator := fun req expense _ =>
  remoteUserMeetsOneCondition req expense
    [isOwner; isCollectiveAdmin; isCollectiveAccountant; isHostAdmin] false.

Definition canSeeExpenseInvoiceInfo : ExpensePermissionEvaluator := fun req expense throw_ =>
  remoteUserMeetsOneCondition req expense
    [isOwner; isCollectiveAdmin; isCollectiveAccountant; isHostAdmin] throw_.

Definition canSeeExpensePayeeLocation : ExpensePermissionEvaluator := fun req expense _ =>
  remoteUserMeetsOneCondition req expense
    [isOwner; isCollectiveAdmin; isCollectiveAccountant; isHostAdmin] false.

(** Checks if the user can verify or resend a draft. *)
Definition canVerifyDraftExpense : ExpensePermissionEvaluator := fun req expense _ =>
  remoteUserMeetsOneCondition req expense [isOwner; isCollectiveAdmin; isHostAdmin] false.

(** Only admin of expense.collective or of expense.collective.host can
    approve/reject expenses (deprecated). *)
Definition canUpdateExpenseStatus : ExpensePermissionEvaluator := fun req expense _ =>
  match remoteUser req with
  | None => Ok (expense, false)
  | Some remoteUser =>
      if negb (canUseFeature (Some remoteUser) USE_EXPENSES) then Ok (expense, false)
      else if hasRole remoteUser ADMIN (Some (CollectiveId expense)) then Ok (expense, true)
      else
        let expense := loadCollective req expense in
        match collective expense with
        | None => Err TypeError
        | Some c => Ok (expense, isAdmin remoteUser (HostCollectiveId c))
        end
  end.

(** [req.remoteUser?.hasRole([roles.ADMIN], expense.CollectiveId)] *)
Definition hasAdminRole (req : Request) (expense : Expense) : bool :=
  match remoteUser req with
  | Some u => hasRole u ADMIN (Some (CollectiveId expense))
  | None => false
  end.

(** Only the author or an admin of the collective or collective.host can
    edit an expense when it hasn't been paid yet. *)
Definition canEditExpense : ExpensePermissionEvaluator := fun req expense throw_ =>
  let nonEditableStatuses := [PAID; PROCESSING; DRAFT; SCHEDULED_FOR_PAYMENT; CANCELED] in
  (* Collective Admin can attach receipts to paid charge expenses *)
  if bool_decide (type expense = Some CHARGE) && bool_decide (status expense = PAID)
     && hasAdminRole req expense
  then Ok (expense, true)
  else if includes nonEditableStatuses (status expense)
  then deny throw_ "Can not edit expense in current status" expense
  else if negb (canUseFeature (remoteUser req) USE_EXPENSES)
  then deny throw_ "User cannot edit expenses" expense
  else remoteUserMeetsOneCondition req expense
         [isOwner; isHostAdmin; isCollectiveAdmin] throw_.

Definition canEditExpenseTags : ExpensePermissionEvaluator := fun req expense throw_ =>
  if negb (canUseFeature (remoteUser req) USE_EXPENSES)
  then deny throw_ "User cannot edit expense tags" expense
  else if bool_decide (status expense = PAID)
  then (* Only collective/host admins can edit tags after the expense is paid *)
    remoteUserMeetsOneCondition req expense [isHostAdmin; isCollectiveAdmin] throw_
  else remoteUserMeetsOneCondition req expense
         [isOwner; isHostAdmin; isCollectiveAdmin] throw_.

Definition canDeleteExpense : ExpensePermissionEvaluator := fun req expense throw_ =>
  if negb (includes [REJECTED; DRAFT; SPAM; CANCELED] (status expense))
  then deny throw_ "Can not delete expense in current status" expense
  else if negb (canUseFeature (remoteUser req) USE_EXPENSES)
  then deny throw_ "User cannot delete expenses" expense
  else remoteUserMeetsOneCondition req expense
         [isOwner; isCollectiveAdmin; isHostAdmin] throw_.

(** Returns true if expense can be marked as unpaid by user. *)
Definition canMarkAsUnpaid : ExpensePermissionEvaluator := fun req expense throw_ =>
  if negb (bool_decide (status expense = PAID))
  then deny throw_ "Can not mark expense as unpaid in current status" expense
  else if negb (canUseFeature (remoteUser req) USE_EXPENSES)
  then deny throw_ "User cannot mark expenses as unpaid" expense
  else remoteUserMeetsOneCondition req expense [isHostAdmin] throw_.

(** Returns true if user can comment and see others comments for this
    expense. *)
Definition canComment : ExpensePermissionEvaluator := fun req expense throw_ =>
  if negb (canUseFeature (remoteUser req) USE_EXPENSES)
  then deny throw_ "User cannot pay expenses" expense
  else remoteUserMeetsOneCondition req expense
         [isCollectiveAdmin; isHostAdmin; isOwner] throw_.

Definition canViewRequiredLegalDocuments : ExpensePermissionEvaluator := fun req expense _ =>
  remoteUserMeetsOneCondition req expense
    [isHostAdmin; isCollectiveAdmin; isCollectiveAccountant; isOwner] false.

Definition canUnschedulePayment : ExpensePermissionEvaluator := fun req expense throw_ =>
  if negb (bool_decide (status expense = SCHEDULED_FOR_PAYMENT))
  then deny throw_ "Can not pay expense in current status" expense
  else remoteUserMeetsOneCondition req expense [isHostAdmin] throw_.

(** Every evaluator of the file. *)
Definition evaluators : list ExpensePermissionEvaluator :=
  [canSeeExpenseAttachments; canSeeExpensePayoutMethod; canSeeExpenseInvoiceInfo;
   canSeeExpensePayeeLocation; canVerifyDraftExpense; canUpdateExpenseStatus;
   canEditExpense; canEditExpenseTags; canDeleteExpense; canPayExpense; canApprove;
   canReject; canMarkAsSpam; canUnapprove; canMarkAsUnpaid; canComment;
   canViewRequiredLegalDocuments; canUnschedulePayment].

(** What the conditions compute, read on the request and the expense
    without loading anything on the instance: the collective and the payee
    profile that a condition finds, and the four roles of a user. *)
Definition theCollective (req : Request) (expense : Expense) : option Collective :=
  match collective expense with
  | Some c => Some c
  | None => Collective_byId_load req (CollectiveId expense)
  end.

Definition thePayee (req : Request) (expense : Expense) : option Collective :=
  match fromCollective expense with
  | Some c => Some c
  | None => Collective_byId_load req (FromCollectiveId expense)
  end.

Definition owns (u : User) (req : Request) (expense : Expense) : bool :=
  (u_id u =? UserId expense)
  || match thePayee req expense with
     | Some c => isAdminOfCollective u (Some c)
     | None => false
     end.

Definition adminsCollective (u : User) (req : Request) (expense : Expense) : bool :=
  isAdminOfCollective u (theCollective req expense).

Definition adminsHost (u : User) (req : Request) (expense : Expense) : bool :=
  match theCollective req expense with
  | Some c => isAdmin u (HostCollectiveId c) && c_isActive c
  | None => false
  end.

Definition keepsAccounts (u : User) (req : Request) (expense : Expense) : bool :=
  hasRole u ACCOUNTANT (Some (CollectiveId expense))
  || match Collective_byId_load req (CollectiveId expense) with
     | Some c =>
         hasRole u ACCOUNTANT (HostCollectiveId c)
         || match ParentCollectiveId c with
            | Some parent => truthyZ parent && hasRole u ACCOUNTANT (Some parent)
            | None => false
            end
     | None => false
     end.

(** The request has a user, and that user holds one of the roles. *)
Definition holdsOneOf (roles_ : list (User -> Request -> Expense -> bool))
    (req : Request) (expense : Expense) : bool :=
  match remoteUser req with
  | Some u => existsb (fun role => role u req expense) roles_
  | None => false
  end.
(** [e'] is the instance [e] after conditions have run on it: the same
    columns, with [collective] and [fromCollective] either untouched or
    loaded. *)
Definition loadedFrom (req : Request) (e e' : Expense) : Prop :=
  exists c' f',
    e' = set_fromCollective f' (set_collective c' e)
    /\ (c' = collective e \/ c' = theCollective req e)
    /\ (f' = fromCollective e \/ f' = thePayee req e).
End Evaluators.

(** A collective whose policy forbids authors to approve their own
    expenses, and a request of its admin. *)
Definition demoStrictCollective : Collective :=
  {| c_id := 1; c_type := COLLECTIVE; c_currency := "USD"; c_isActive := true;
     HostCollectiveId := Some 10; ParentCollectiveId := None;
     hasPolicy := fun _ => true; c_host := Some demoHost |}.

Definition demoStrictRequest : Request :=
  {| remoteUser := Some demoAdmin;
     Collective_byId_load := fun i => if i =? 1 then Some demoStrictCollective else None |}.

(** A request without a user. *)
Definition demoAnonymousRequest : Request :=
  {| remoteUser := None;
     Collective_byId_load := fun i => if i =? 1 then Some demoCollective else None |}.

(** An expense whose collective is not in the database. *)
Definition demoOrphanExpense : Expense :=
  {| id := 2; status := PENDING; type := Some INVOICE; amount := 5000;
     currency := "USD"; description := Some "Hosting"; longDescription := None;
     tags := None; privateMessage := None; invoiceInfo := None;
     payeeLocation := None; CollectiveId := 2; FromCollectiveId := 1;
     UserId := 7; lastEditedById := None; incurredAt := None;
     PayoutMethodId := None; legacyPayoutMethod := "other";
     feesPayer := "COLLECTIVE"; RecurringExpenseId := None; data := None;
     collective := None; fromCollective := None; items := [];
     attachedFiles := []; user := None |}.

(* ------------------------------------------------------------------ *)
(** *** Balance check, scheduling, un-paying and deleting

    What these functions import beside the above: model methods, the Wise
    client and the ledger.  An activity of a kind that the functions above
    do not create is written by [Activity_create]. *)

Record LedgerTransaction : Type := {
  t_id : Z;
  t_paymentProcessorFeeInHostCurrency : Z
}.

Class PayoutImports (Others : Type) : Type := {
  (* models *)
  getPayoutMethod : Expense -> option PayoutMethod;
  getBalanceWithBlockedFunds : Others -> Collective -> string -> result Z;
  typeSupportsFeesPayer : PayoutMethodType -> bool;
  getAccountForPaymentProvider : option Host -> string -> result unit;
  User_findByPk : Z -> option User;
  Activity_create : string -> Expense -> User -> M Others unit;
  (* the EXPENSE transaction of an expense that is not a refund and has not
     been refunded *)
  Transaction_findOne : Others -> Z -> option LedgerTransaction;
  (* lib/utils, lib/payments *)
  formatCurrency : Q -> string -> string;
  createRefundTransaction :
    option LedgerTransaction -> Z -> option User -> M Others unit;
  (* paymentProviders.transferwise *)
  transferwise_scheduleExpenseForPayment : Expense -> M (DB Others) unit;
  transferwise_unscheduleExpenseForPayment : Expense -> M (DB Others) unit
}.

(** The value of a [PayoutMethodTypes] member. *)
Definition payoutMethodTypeName (t : PayoutMethodType) : string :=
  match t with
  | PAYPAL => "PAYPAL"
  | BANK_ACCOUNT => "BANK_ACCOUNT"
  | ACCOUNT_BALANCE => "ACCOUNT_BALANCE"
  | OtherPayoutMethodType name => name
  end.

(** [a + b] and [a < b] where [b] may be [undefined]: the sum is then NaN,
    written [None], and a comparison with NaN is false. *)
Definition plusOQ (a : Z) (b : option Q) : option Q :=
  (fun b => (inQ a + b)%Q) <$> b.

Definition ltOQ (a : Z) (b : option Q) : bool :=
  match b with Some b => Qltb (inQ a) b | None => false end.

Record InsufficientBalance : Type := {
  ib_object : string;
  ib_balance : Z;
  ib_currency : string;
  ib_expenseAmount : Z;
  ib_isSameCurrency : bool;
  ib_fees : option Q;        (* [None] when not passed: defaults to 0 *)
  ib_feesName : string       (* defaults to the empty string *)
}.

Record BalanceCheck : Type := {
  bc_fees : ExpenseFees;
  totalAmountToPay : option Q
}.

Definition set_feesPayer (p : string) (e : Expense) : Expense :=
  {| id := id e; status := status e; type := type e; amount := amount e;
     currency := currency e; description := description e;
     longDescription := longDescription e; tags := tags e;
     privateMessage := privateMessage e; invoiceInfo := invoiceInfo e;
     payeeLocation := payeeLocation e; CollectiveId := CollectiveId e;
     FromCollectiveId := FromCollectiveId e; UserId := UserId e;
     lastEditedById := lastEditedById e; incurredAt := incurredAt e;
     PayoutMethodId := PayoutMethodId e;
     legacyPayoutMethod := legacyPayoutMethod e; feesPayer := p;
     RecurringExpenseId := RecurringExpenseId e; data := data e;
     collective := collective e; fromCollective := fromCollective e;
     items := items e; attachedFiles := attachedFiles e; user := user e |}.

Section Payouts.
Context {Others : Type} {imports : Imports Others} {payouts : PayoutImports Others}.

Definition generateInsufficientBalanceErrorMessage (a : InsufficientBalance) : string :=
  let msg := "Collective does not have enough funds to " +:+ ib_object a +:+ "." in
  let msg := msg +:+ " Current balance: "
                 +:+ formatCurrency (inQ (ib_balance a)) (ib_currency a) in
  let msg := msg +:+ ", Expense amount: "
                 +:+ formatCurrency (inQ (ib_expenseAmount a)) (ib_currency a) in
  let msg :=
    if negb (falsyOQ (ib_fees a))
    then msg +:+ ", Estimated " +:+ ib_feesName a +:+ " fees: "
             +:+ formatCurrency (orZero (ib_fees a)) (ib_currency a)
    else msg in
  if negb (ib_isSameCurrency a)
  then msg +:+ ". For expenses submitted in a different currency than the collective, an error margin of 20% is applied. The maximum amount that can be paid is "
           +:+ formatCurrency (inQ (js_round (inQ (ib_balance a) / (12 # 10))))
                 (ib_currency a)
  else msg.

(** [getMinExpectedBalance]: a margin of 20% when the expense is not in the
    currency of the collective. *)
Definition getMinExpectedBalance (isSameCurrency : bool) (amountToPay : option Q)
  : option Q :=
  if isSameCurrency then amountToPay
  else (fun a => inQ (js_round (a * (12 # 10)))) <$> amountToPay.

(** Check if the collective balance is enough to pay the expense. *)
Definition checkHasBalanceToPayExpense (o : Others) (host : option Host)
    (expense : Expense) (payoutMethod : option PayoutMethod)
    (forceManual : bool) (manualFees : FeesArgs) (useExistingWiseData : bool)
  : result BalanceCheck :=
  let payoutMethodType :=
    match payoutMethod with
    | Some pm => pm_type pm
    | None => getPayoutMethodTypeFromLegacy expense
    end in
  match collective expense with
  | None => Err TypeError
  | Some c =>
      rbind (getBalanceWithBlockedFunds o c (currency expense))
        (fun balanceInExpenseCurrency =>
      let isSameCurrency := bool_decide (currency expense = c_currency c) in
      (* Check base balance before fees *)
      if ltOQ balanceInExpenseCurrency
           (getMinExpectedBalance isSameCurrency (Some (inQ (amount expense))))
      then Err (Unauthorized (generateInsufficientBalanceErrorMessage
             {| ib_object := "pay this expense";
                ib_balance := balanceInExpenseCurrency;
                ib_currency := currency expense;
                ib_expenseAmount := amount expense;
                ib_isSameCurrency := isSameCurrency;
                ib_fees := None; ib_feesName := EmptyString |}))
      else
        match host with
        | None => Err TypeError
        | Some host =>
            rbind (getExpenseFees expense host manualFees payoutMethod forceManual
                     useExistingWiseData)
              (fun fees =>
            let fee := paymentProcessorFee (feesInExpenseCurrency fees) in
            rbind
              (if bool_decide (feesPayer expense = "COLLECTIVE")
               then Ok (plusOQ (amount expense) fee)
               else if bool_decide (feesPayer expense = "PAYEE") then
                 if negb (typeSupportsFeesPayer payoutMethodType)
                 then Err (JsError
                   "Putting the payment processor fees on the payee is only supported for bank accounts and manual payouts at the moment")
                 else if negb (bool_decide (currency expense = c_currency c))
                 then Err (JsError
                   "Cannot put the payment processor fees on the payee when the expense currency is not the same as the collective currency")
                 else Ok (Some (inQ (amount expense)))
               else Err (JsError ("Expense fee payer " +:+ dquote +:+ feesPayer expense
                                    +:+ dquote +:+ " not supported yet")))
              (fun totalAmountToPay =>
            if ltOQ balanceInExpenseCurrency
                 (getMinExpectedBalance isSameCurrency totalAmountToPay)
            then Err (JsError (generateInsufficientBalanceErrorMessage
                   {| ib_object := "cover for the fees of this payment method";
                      ib_balance := balanceInExpenseCurrency;
                      ib_currency := currency expense;
                      ib_expenseAmount := amount expense;
                      ib_isSameCurrency := isSameCurrency;
                      ib_fees := fee;
                      ib_feesName := payoutMethodTypeName payoutMethodType |}))
            else Ok {| bc_fees := fees; totalAmountToPay := totalAmountToPay |}))
        end)
  end.

(** [expense.update({ feesPayer })] *)
Definition update_feesPayer (expense : Expense) (p : string) : M (DB Others) Expense :=
  fun db =>
    (upd_expenses (alter (set_feesPayer p) (id expense)) db, Ok (set_feesPayer p expense)).

(** [expense.createActivity(type, user)] for the other kinds of activity. *)
Definition createActivityOfType (expense : Expense) (type_ : string) (u : User)
  : M (DB Others) unit :=
  onOthers (Activity_create type_ expense u).

Definition scheduleExpenseForPayment (req : Request) (expense : Expense)
    (feesPayer_ : option string) : M (DB Others) Expense :=
  if bool_decide (status expense = SCHEDULED_FOR_PAYMENT)
  then throw (BadRequest "Expense is already scheduled for payment" [])
  else
    verdict <- lift (canPayExpense req expense false) ;;
    let '(expense, allowed) := verdict in
    if negb allowed
    then throw (Forbidden
                  "You're authenticated but you can't schedule this expense for payment")
    else
      match collective expense with
      | None => throw TypeError
      | Some c =>
          let host := getHostCollective c in
          if negb (bool_decide (currency expense = c_currency c))
             && negb (hasMultiCurrency c host)
          then throw (Unauthorized
                        "Multi-currency expenses are not enabled for this collective")
          else
            let payoutMethod := getPayoutMethod expense in
            _ <- (fun db =>
                    (db, checkHasBalanceToPayExpense (others db) host expense payoutMethod
                           false
                           {| paymentProcessorFeeInCollectiveCurrency := None;
                              hostFeeInCollectiveCurrency := None;
                              platformFeeInCollectiveCurrency := None |}
                           false)) ;;
            expense <- (if truthyOS feesPayer_
                           && negb (bool_decide (feesPayer_ = Some (feesPayer expense)))
                        then update_feesPayer expense (default EmptyString feesPayer_)
                        else ret expense) ;;
            match payoutMethod with
            | None => throw TypeError
            | Some pm =>
                _ <- (if bool_decide (pm_type pm = BANK_ACCOUNT)
                      then (* If Wise, add expense to a new batch group *)
                        transferwise_scheduleExpenseForPayment expense
                      else if bool_decide (pm_type pm = PAYPAL)
                      then (* If PayPal, check if host is connected to PayPal *)
                        lift (getAccountForPaymentProvider host "paypal")
                      else ret tt) ;;
                u <- remoteUser_ req ;;
                updatedExpense <- update_status expense SCHEDULED_FOR_PAYMENT (u_id u) ;;
                _ <- createActivityOfType updatedExpense
                       "COLLECTIVE_EXPENSE_SCHEDULED_FOR_PAYMENT" u ;;
                ret updatedExpense
            end
      end.

Definition unscheduleExpensePayment (req : Request) (expense : Expense)
  : M (DB Others) Expense :=
  verdict <- lift (canUnschedulePayment req expense false) ;;
  let '(expense, allowed) := verdict in
  if negb allowed
  then throw (BadRequest
    "Expense is not scheduled for payment or you don't have authorization to unschedule it"
    [])
  else
    match getPayoutMethod expense with
    | None => throw TypeError
    | Some pm =>
        _ <- (if bool_decide (pm_type pm = BANK_ACCOUNT)
              then transferwise_unscheduleExpenseForPayment expense
              else ret tt) ;;
        u <- remoteUser_ req ;;
        update_status expense APPROVED (u_id u)
    end.

(** [models.Expense.findByPk(id, { include: [collective] })] *)
Definition Expense_findByPk_withCollective (id_ : Z) : M (DB Others) (option Expense) :=
  gets (fun db =>
          (fun e => set_collective (Collective_findByPk (CollectiveId e)) e)
            <$> expenses db !! id_).

(** [expense.destroy()]: the row is gone for every later query. *)
Definition Expense_destroy (expense : Expense) : M (DB Others) Expense :=
  fun db => (upd_expenses (delete (id expense)) db, Ok expense).

Definition deleteExpense (req : Request) (expenseId : Z) : M (DB Others) Expense :=
  match remoteUser req with
  | None => throw (Unauthorized "You need to be logged in to delete an expense")
  | Some remoteUser =>
      if negb (canUseFeature (Some remoteUser) USE_EXPENSES)
      then throw FeatureNotAllowedForUser
      else
        expense <- Expense_findByPk_withCollective expenseId ;;
        match expense with
        | None => throw (NotFound "Expense not found")
        | Some expense =>
            verdict <- lift (canDeleteExpense req expense false) ;;
            let '(expense, allowed) := verdict in
            if negb allowed
            then throw (Unauthorized
              "You don't have permission to delete this expense or it needs to be rejected before being deleted")
            else Expense_destroy expense
        end
  end.

(** The callback that [markExpenseAsUnpaid] runs under the lock. *)
Definition markExpenseAsUnpaid_locked (req : Request) (expenseId : Z)
    (shouldRefundPaymentProcessorFee : bool) : M (DB Others) Expense :=
  match remoteUser req with
  | None => throw (Unauthorized "You need to be logged in to unpay an expense")
  | Some remoteUser =>
      if negb (canUseFeature (Some remoteUser) USE_EXPENSES)
      then throw FeatureNotAllowedForUser
      else
        expense <- Expense_findByPk_withCollective expenseId ;;
        match expense with
        | None => throw (NotFound "No expense found")
        | Some expense =>
            verdict <- lift (canMarkAsUnpaid req expense false) ;;
            let '(expense, allowed) := verdict in
            if negb allowed
            then throw (Unauthorized
                          "You don't have permission to mark this expense as unpaid")
            else if negb (bool_decide (status expense = PAID))
            then throw (Unauthorized "Expense has not been paid yet")
            else
              transaction <- gets (fun db => Transaction_findOne (others db) expenseId) ;;
              paymentProcessorFeeInHostCurrency <-
                (if shouldRefundPaymentProcessorFee
                 then match transaction with
                      | Some t => ret (t_paymentProcessorFeeInHostCurrency t)
                      | None => throw TypeError
                      end
                 else ret 0) ;;
              _ <- onOthers (createRefundTransaction transaction
                               paymentProcessorFeeInHostCurrency
                               (User_findByPk (UserId expense))) ;;
              update_status expense APPROVED (u_id remoteUser)
        end
  end.

Definition markExpenseAsUnpaid (req : Request) (expenseId : Z)
    (shouldRefundPaymentProcessorFee : bool) : M (DB Others) Expense :=
  updatedExpense <- lockExpense expenseId
                      (markExpenseAsUnpaid_locked req expenseId
                         shouldRefundPaymentProcessorFee) ;;
  u <- remoteUser_ req ;;
  _ <- createActivityOfType updatedExpense "COLLECTIVE_EXPENSE_MARKED_AS_UNPAID" u ;;
  ret updatedExpense.
End Payouts.

(** Stand-ins for these imports: every collective has 100.00 to spend, the
    expense number 3 has no payout method and the others are paid by hand,
    the ledger holds one transaction per expense. *)
Definition demoPayouts : PayoutImports unit := {|
  getPayoutMethod := fun e =>
    if id e =? 3 then None
    else Some {| pm_id := 5; pm_type := OtherPayoutMethodType "OTHER";
                 pm_CollectiveId := 1 |};
  getBalanceWithBlockedFunds := fun _ _ _ => Ok 10000;
  typeSupportsFeesPayer := fun t =>
    bool_decide (t = BANK_ACCOUNT) || bool_decide (t = OtherPayoutMethodType "OTHER");
  getAccountForPaymentProvider := fun _ _ => Ok tt;
  User_findByPk := fun _ => Some demoAdmin;
  Activity_create := fun _ _ _ => ret tt;
  Transaction_findOne := fun _ i =>
    Some {| t_id := i; t_paymentProcessorFeeInHostCurrency := 30 |};
  formatCurrency := fun _ currency_ => currency_;
  createRefundTransaction := fun _ _ _ => ret tt;
  transferwise_scheduleExpenseForPayment := fun _ => ret tt;
  transferwise_unscheduleExpenseForPayment := fun _ => ret tt
|}.

(* ------------------------------------------------------------------ *)
(** *** Payout method of a new expense, editing, amounts in another
    currency

    The columns and the JSON fields of an expense that the record above
    does not carry ([createdAt], [VirtualCardId], the PayPal payload) are
    read through [EditImports]. *)

(** [expense.data.currency_conversion] of a PayPal payout. *)
Record PaypalAmount : Type := {
  pa_currency : option string
}.

Record CurrencyConversion : Type := {
  from_amount : option PaypalAmount;
  to_amount : option PaypalAmount;
  exchange_rate : option Q             (* [parseFloat], NaN being [None] *)
}.

Inductive CurrencyExchangeRateSourceTypeEnum : Type := OPENCOLLECTIVE | PAYPAL_ | WISE.

Record ExchangeRate : Type := {
  xr_value : Q;
  xr_source : CurrencyExchangeRateSourceTypeEnum;
  xr_fromCurrency : string;
  xr_toCurrency : string;
  xr_date : option string;             (* what the [Date] was made from *)
  xr_isApproximate : bool
}.

Record Amount : Type := {
  am_value : Z;
  am_currency : string;
  am_exchangeRate : option ExchangeRate
}.

Class EditImports (Others : Type) : Type := {
  (* models and loaders *)
  PayoutMethod_findByPk : Others -> Z -> option PayoutMethod;
  PayoutMethod_getOrCreateFromData :
    PayoutMethod -> User -> Collective -> M Others (option PayoutMethod);
  PayoutMethod_byId_load : Z -> option PayoutMethod;
  expenseToHostTransactionFxRate_load : Z -> option Q;
  fxRate_load : string -> string -> Q;
  (* columns and JSON fields *)
  createdAt : Expense -> option string;
  currency_conversion : Expense -> option CurrencyConversion;
  time_processed : Expense -> option string;
  (* [ExpenseItem.diffDBEntries] has found something to create, remove or
     update, or has thrown *)
  hasItemChanges : list ExpenseItem -> list ExpenseItemData -> result bool;
  (* [editExpense], from the card charge check to the end *)
  applyEdit :
    Request -> User -> bool -> Expense -> ExpenseData -> bool -> list TaxDefinition ->
    M (DB Others) Expense
}.

Definition set_tags (t : option (list string)) (e : Expense) : Expense :=
  {| id := id e; status := status e; type := type e; amount := amount e;
     currency := currency e; description := description e;
     longDescription := longDescription e; tags := t;
     privateMessage := privateMessage e; invoiceInfo := invoiceInfo e;
     payeeLocation := payeeLocation e; CollectiveId := CollectiveId e;
     FromCollectiveId := FromCollectiveId e; UserId := UserId e;
     lastEditedById := lastEditedById e; incurredAt := incurredAt e;
     PayoutMethodId := PayoutMethodId e;
     legacyPayoutMethod := legacyPayoutMethod e; feesPayer := feesPayer e;
     RecurringExpenseId := RecurringExpenseId e; data := data e;
     collective := collective e; fromCollective := fromCollective e;
     items := items e; attachedFiles := attachedFiles e; user := user e |}.

Section Editing.
Context {Others : Type} {imports : Imports Others} {editing : EditImports Others}.

(** The payout method given with the data of an expense: one that exists,
    when the data carries an [id] (an input without [id], or with the id 0,
    is data to get or create one from), or none. *)
Definition getPayoutMethodFromExpenseData (expenseData : ExpenseData)
    (remoteUser : User) (fromCollective_ : Collective) : M Others (option PayoutMethod) :=
  match ed_payoutMethod expenseData with
  | Some input =>
      if truthyZ (pm_id input) then
        pm <- gets (fun o => PayoutMethod_findByPk o (pm_id input)) ;;
        match pm with
        | None => throw (JsError "This payout method does not exist.")
        | Some pm =>
            (* Special case: Payout Method from the Host for "Expense Accross
               Hosts" *)
            if bool_decide (Some (pm_CollectiveId pm) = HostCollectiveId fromCollective_)
               && bool_decide (pm_type pm ∈ [BANK_ACCOUNT; PAYPAL])
            then ret (Some pm)
            else if negb (isAdmin remoteUser (Some (pm_CollectiveId pm)))
            then throw (JsError "You don't have the permission to use this payout method.")
            else if negb (bool_decide (pm_CollectiveId pm = c_id fromCollective_))
            then throw (JsError "This payout method cannot be used for this collective")
            else ret (Some pm)
        end
      else PayoutMethod_getOrCreateFromData input remoteUser fromCollective_
  | None => ret None
  end.

(** [buildAmount] of [getExpenseAmountInDifferentCurrency].  [date_] is
    [None] for [null] and for a missing argument, and [Some d] for the
    [Date] made from [d], which is truthy whatever [d] is. *)
Definition buildAmount (expense : Expense) (toCurrency : string)
    (fxRatePercentage : Q) (fxRateSource : CurrencyExchangeRateSourceTypeEnum)
    (isApproximate : bool) (date_ : option (option string)) : Amount :=
  {| am_value := js_round (fmul (inQ (amount expense)) fxRatePercentage);
     am_currency := toCurrency;
     am_exchangeRate :=
       Some {| xr_value := fxRatePercentage;
               xr_source := fxRateSource;
               xr_fromCurrency := currency expense;
               xr_toCurrency := toCurrency;
               xr_date := match date_ with
                          | Some d => d
                          | None => createdAt expense
                          end;
               xr_isApproximate := isApproximate |} |}.



(** A type that is there and is not the empty string. *)
Definition truthyType (t : option ExpenseType) : bool :=
  match t with
  | Some (OtherExpenseType name) => truthyS name
  | Some _ => true
  | None => false
  end.

(** [Object.keys(omitBy(expenseData, isNil))] is [['tags']]. *)
Definition onlyTags (d : ExpenseData) : bool :=
  bool_decide (is_Some (ed_tags d))
  && bool_decide (ed_payoutMethod d = None) && bool_decide (ed_payeeLocation d = None)
  && bool_decide (ed_items d = None) && bool_decide (ed_attachedFiles d = None)
  && bool_decide (ed_collective d = None) && bool_decide (ed_fromCollective d = None)
  && bool_decide (ed_incurredAt d = None) && bool_decide (ed_type d = None)
  && bool_decide (ed_description d = None) && bool_decide (ed_longDescription d = None)
  && bool_decide (ed_privateMessage d = None) && bool_decide (ed_invoiceInfo d = None)
  && bool_decide (ed_currency d = None) && bool_decide (ed_tax d = None).

(** [expense.update({ tags })] *)
Definition update_tags (expense : Expense) (t : option (list string))
  : M (DB Others) Expense :=
  fun db => (upd_expenses (alter (set_tags t) (id expense)) db, Ok (set_tags t expense)).

(** What [findByPk] makes of a row with the [include] of [editExpense]: the
    collective (and its host), the payee, the files and the items. *)
Definition rowForEdit (db : DB Others) (e : Expense) : Expense :=
  set_attachedFiles
    (filter (fun f => bool_decide (file_ExpenseId f = id e)) (expenseAttachedFiles db))
    (set_items
       (filter (fun i => bool_decide (item_ExpenseId i = id e)) (expenseItems db))
       (set_fromCollective (Collective_findByPk (FromCollectiveId e))
          (set_collective (Collective_findByPk (CollectiveId e)) e))).

Definition Expense_findByPk_forEdit (id_ : Z) : M (DB Others) (option Expense) :=
  gets (fun db => rowForEdit db <$> expenses db !! id_).

(** [editExpense], the id of the expense being an argument of its own. *)
Definition editExpense (req : Request) (expenseId : Z) (expenseData : ExpenseData)
    (overrideRemoteUser : option User) (skipPermissionCheck : bool)
  : M (DB Others) Expense :=
  match (match overrideRemoteUser with Some u => Some u | None => remoteUser req end) with
  | None => throw (Unauthorized "You need to be logged in to edit an expense")
  | Some remoteUser =>
      if negb (canUseFeature (Some remoteUser) USE_EXPENSES)
      then throw FeatureNotAllowedForUser
      else
        expense <- Expense_findByPk_forEdit expenseId ;;
        match expense with
        | None =>
            (* [expense.items] is read before the test of [!expense], which
               therefore never fires *)
            throw TypeError
        | Some expense =>
            hasItemChanges_ <- lift (match ed_items expenseData with
                                     | Some itemsData =>
                                         hasItemChanges (items expense) itemsData
                                     | None => Ok false
                                     end) ;;
            let taxes_ :=
              match ed_tax expenseData with
              | Some t => t
              | None => match data expense with Some d => taxes d | None => [] end
              end in
            let expenseType :=
              if truthyType (ed_type expenseData) then ed_type expenseData
              else type expense in
            match collective expense with
            | None => throw TypeError
            | Some c =>
                _ <- lift (checkTaxes c (c_host c) expenseType taxes_) ;;
                if onlyTags expenseData then
                  (* Special mode when editing only tags: we don't care about
                     the expense status there *)
                  verdict <- lift (canEditExpenseTags req expense false) ;;
                  let '(expense, allowed) := verdict in
                  if negb allowed
                  then throw (Unauthorized
                                "You don't have permission to edit tags for this expense")
                  else update_tags expense (ed_tags expenseData)
                else
                  verdict <- (if skipPermissionCheck then ret (expense, true)
                              else lift (canEditExpense req expense false)) ;;
                  let '(expense, allowed) := verdict in
                  if negb allowed
                  then throw (Unauthorized
                                "You don't have permission to edit this expense")
                  else applyEdit req remoteUser skipPermissionCheck expense expenseData
                         hasItemChanges_ taxes_
            end
        end
  end.
End Editing.

(** Stand-ins for these imports: two payout methods, the bank account of
    the collective number 1 and the PayPal account of the host number 10; no
    rate recorded anywhere but the platform's, 0.9 for every pair. *)
Definition demoEditing : EditImports unit := {|
  PayoutMethod_findByPk := fun _ i =>
    if i =? 5 then Some {| pm_id := 5; pm_type := BANK_ACCOUNT; pm_CollectiveId := 1 |}
    else if i =? 6 then Some {| pm_id := 6; pm_type := PAYPAL; pm_CollectiveId := 10 |}
    else None;
  PayoutMethod_getOrCreateFromData := fun input _ c =>
    ret (Some {| pm_id := 9; pm_type := pm_type input; pm_CollectiveId := c_id c |});
  PayoutMethod_byId_load := fun i =>
    if i =? 5 then Some {| pm_id := 5; pm_type := BANK_ACCOUNT; pm_CollectiveId := 1 |}
    else None;
  expenseToHostTransactionFxRate_load := fun _ => None;
  fxRate_load := fun _ _ => (9 # 10)%Q;
  createdAt := fun _ => Some "2022-06-01T00:00:00.000Z";
  currency_conversion := fun _ => None;
  time_processed := fun _ => None;
  hasItemChanges := fun _ _ => Ok true;
  applyEdit := fun _ _ _ e _ _ _ => ret e
|}.

(** A user who is admin of nothing. *)
Definition demoStranger : User :=
  {| u_id := 8;
     isAdmin := fun _ => false;
     isAdminOfCollective := fun _ => false;
     isAdminOfCollectiveOrHost := fun _ => false;
     isRoot := false;
     hasRole := fun _ _ => false;
     rolesByCollectiveId := fun _ => false |}.

Definition demoTagsOnly : ExpenseData :=
  {| ed_payoutMethod := None; ed_payeeLocation := None; ed_items := None;
     ed_attachedFiles := None; ed_collective := None; ed_fromCollective := None;
     ed_tags := Some ["food"]; ed_incurredAt := None; ed_type := None;
     ed_description := None; ed_longDescription := None; ed_privateMessage := None;
     ed_invoiceInfo := None; ed_currency := None; ed_tax := None |}.

Definition demoPayoutData (i : Z) : ExpenseData :=
  {| ed_payoutMethod := Some {| pm_id := i; pm_type := PAYPAL; pm_CollectiveId := 0 |};
     ed_payeeLocation := None; ed_items := None;
     ed_attachedFiles := None; ed_collective := None; ed_fromCollective := None;
     ed_tags := None; ed_incurredAt := None; ed_type := None;
     ed_description := None; ed_longDescription := None; ed_privateMessage := None;
     ed_invoiceInfo := None; ed_currency := None; ed_tax := None |}.

End Expenses.

(* ================================================================== *)
(** ** [server/graphql/v2/mutation/VirtualCardMutations.ts] *)

Module VirtualCardMutations.

Local Open Scope db_scope.

Definition MAXIMUM_MONTHLY_LIMIT : Z := 2000.

Inductive Frequency : Type := MONTHLY | OtherFrequency (name : string).
Inductive Provider : Type := STRIPE | PRIVACY.

#[global] Instance Frequency_eq_dec : EqDecision Frequency.
Proof. solve_decision. Defined.
#[global] Instance Provider_eq_dec : EqDecision Provider.
Proof. solve_decision. Defined.

Record Host : Type := {
  h_id : Z;
  h_currency : string
}.

Record Account : Type := {
  a_id : Z
}.

Record User : Type := {
  u_id : Z;
  isAdmin : Z -> bool;
  isAdminOfCollective : option Host -> bool
}.

Record VirtualCard : Type := {
  id : string;
  name : string;
  HostCollectiveId : Z;
  CollectiveId : Z;
  UserId : Z;
  provider : Provider;
  spendingLimitAmount : option Z;
  spendingLimitInterval : Frequency;
  currency : string
}.

Record AmountInput : Type := {
  valueInCents : option Z
}.

Record AccountReference : Type := {
  ref_id : Z
}.

Record Activity : Type := {
  act_UserId : Z;
  act_CollectiveId : Z
}.

(** The database: the virtual cards, the activities, and whatever the
    Stripe client keeps ([external]). *)
Record DB (External : Type) : Type := {
  virtualCards : gmap string VirtualCard;
  activities : list Activity;
  external : External
}.
Arguments virtualCards {External} _.
Arguments activities {External} _.
Arguments external {External} _.

Record CreateVirtualCardArgs : Type := {
  cr_name : string;
  cr_monthlyLimit : AmountInput;
  cr_account : AccountReference;
  cr_assignee : AccountReference
}.

Record EditVirtualCardArgs : Type := {
  ed_virtualCard : string;                  (* [args.virtualCard.id] *)
  ed_name : option string;
  ed_assignee : option AccountReference;
  ed_monthlyLimit : option AmountInput
}.

Record UpdateAttributes : Type := {
  upd_UserId : option Z;
  upd_name : option string;
  upd_spendingLimitAmount : option (option Z)
}.

(** What the mutations import. *)
Class Imports (External : Type) : Type := {
  (* [fetchAccountWithReference(reference, { throwIfMissing })] *)
  fetchAccountWithReference : AccountReference -> bool -> result (option Account);
  getHostCollective : Account -> option Host;
  getUser : Account -> option User;
  (* paymentProviders/stripe/virtual-cards *)
  stripe_createVirtualCard :
    option Host -> Account -> Z -> string -> option Z -> M (DB External) VirtualCard;
  stripe_updateVirtualCardMonthlyLimit : VirtualCard -> option Z -> M (DB External) unit
}.

Section Mutations.
Context {External : Type} {imports : Imports External}.

(** [limit > MAXIMUM_MONTHLY_LIMIT * 100], false on [undefined]. *)
Definition exceedsMaximum (monthlyLimitInCents : option Z) : bool :=
  match monthlyLimitInCents with
  | Some v => MAXIMUM_MONTHLY_LIMIT * 100 <? v
  | None => false
  end.

Definition limitMessage (currency_ : string) : string :=
  "Monthly limit should not exceed " +:+ pretty MAXIMUM_MONTHLY_LIMIT +:+ " " +:+ currency_.

(** [models.Activity.create(...).catch(log)]: a failure is only logged. *)
Definition createActivity (userId collectiveId : Z) : M (DB External) unit :=
  modify (fun db =>
    {| virtualCards := virtualCards db;
       activities := activities db
                       ++ [{| act_UserId := userId; act_CollectiveId := collectiveId |}];
       external := external db |}).

(** An account reference that must resolve. *)
Definition fetchAccount (ref : AccountReference) (throwIfMissing : bool)
  : M (DB External) Account :=
  r <- lift (fetchAccountWithReference ref throwIfMissing) ;;
  match r with
  | Some a => ret a
  | None => throw TypeError
  end.

Definition createVirtualCard (remoteUser : option User) (args : CreateVirtualCardArgs)
  : M (DB External) VirtualCard :=
  match remoteUser with
  | None => throw (Unauthorized "You need to be logged in to create a virtual card")
  | Some remoteUser =>
      collective <- fetchAccount (cr_account args) true ;;
      let host := getHostCollective collective in
      let monthlyLimitInCents := valueInCents (cr_monthlyLimit args) in
      if exceedsMaximum monthlyLimitInCents then
        match host with
        | None => throw TypeError
        | Some h =>
            throw (BadRequest (limitMessage (h_currency h))
                     [("monthlyLimit", limitMessage (h_currency h))])
        end
      else if negb (isAdminOfCollective remoteUser host)
      then throw (Unauthorized "You don't have permission to edit this collective")
      else
        assignee <- fetchAccount (cr_assignee args) true ;;
        match getUser assignee with
        | None => throw (BadRequest "Could not find the assigned user" [])
        | Some user =>
            virtualCard <- stripe_createVirtualCard host collective (u_id user)
                             (cr_name args) monthlyLimitInCents ;;
            _ <- createActivity (u_id remoteUser) (a_id collective) ;;
            ret virtualCard
        end
  end.

(** [virtualCard.update(updateAttributes)] *)
Definition applyUpdate (u : UpdateAttributes) (c : VirtualCard) : VirtualCard :=
  {| id := id c;
     name := default (name c) (upd_name u);
     HostCollectiveId := HostCollectiveId c;
     CollectiveId := CollectiveId c;
     UserId := default (UserId c) (upd_UserId u);
     provider := provider c;
     spendingLimitAmount := default (spendingLimitAmount c) (upd_spendingLimitAmount u);
     spendingLimitInterval := spendingLimitInterval c;
     currency := currency c |}.

Definition VirtualCard_update (c : VirtualCard) (u : UpdateAttributes)
  : M (DB External) VirtualCard :=
  fun db =>
    ({| virtualCards := alter (applyUpdate u) (id c) (virtualCards db);
        activities := activities db; external := external db |},
     Ok (applyUpdate u c)).

Definition editVirtualCard (remoteUser : option User) (args : EditVirtualCardArgs)
  : M (DB External) VirtualCard :=
  match remoteUser with
  | None => throw (Unauthorized "You need to be logged in to assign a virtual card")
  | Some remoteUser =>
      found <- gets (fun db => virtualCards db !! ed_virtualCard args) ;;
      match found with
      | None => throw (NotFound "Could not find Virtual Card")
      | Some virtualCard =>
          if negb (isAdmin remoteUser (HostCollectiveId virtualCard))
          then throw (Unauthorized "You don't have permission to update this Virtual Card")
          else
            userId <- match ed_assignee args with
                      | Some ref =>
                          userCollective <- fetchAccount ref false ;;
                          match getUser userCollective with
                          | None => throw (BadRequest "Could not find the assigned user" [])
                          | Some user => ret (Some (u_id user))
                          end
                      | None => ret None
                      end ;;
            let name_ := match ed_name args with
                         | Some n => if truthyS n then Some n else None
                         | None => None
                         end in
            limit <- match ed_monthlyLimit args with
                     | Some monthlyLimit =>
                         if bool_decide (spendingLimitInterval virtualCard = MONTHLY)
                            && bool_decide (provider virtualCard = STRIPE)
                         then
                           let monthlyLimitInCents := valueInCents monthlyLimit in
                           if exceedsMaximum monthlyLimitInCents
                           then throw (BadRequest (limitMessage (currency virtualCard))
                                         [("monthlyLimit",
                                           limitMessage (currency virtualCard))])
                           else
                             _ <- stripe_updateVirtualCardMonthlyLimit virtualCard
                                    monthlyLimitInCents ;;
                             ret (Some monthlyLimitInCents)
                         else ret None
                     | None => ret None
                     end ;;
            VirtualCard_update virtualCard
              {| upd_UserId := userId; upd_name := name_;
                 upd_spendingLimitAmount := limit |}
      end
  end.
End Mutations.

(** A small running instance: every account is hosted by one USD host and
    Stripe issues the card that is asked for. *)
Definition cardHost : Host := {| h_id := 10; h_currency := "USD" |}.

Definition cardAdmin : User :=
  {| u_id := 7; isAdmin := fun h => h =? 10; isAdminOfCollective := fun _ => true |}.

Definition stripeCard (limit : option Z) : VirtualCard :=
  {| id := "card_1"; name := "Hosting"; HostCollectiveId := 10; CollectiveId := 1;
     UserId := 7; provider := STRIPE; spendingLimitAmount := limit;
     spendingLimitInterval := MONTHLY; currency := "USD" |}.

Definition cardImports : Imports unit := {|
  fetchAccountWithReference := fun ref _ => Ok (Some {| a_id := ref_id ref |});
  getHostCollective := fun _ => Some cardHost;
  getUser := fun _ => Some cardAdmin;
  stripe_createVirtualCard := fun _ collective userId name_ limit db =>
    let card := {| id := "card_1"; name := name_; HostCollectiveId := 10;
                   CollectiveId := a_id collective; UserId := userId;
                   provider := STRIPE; spendingLimitAmount := limit;
                   spendingLimitInterval := MONTHLY; currency := "USD" |} in
    ({| virtualCards := <[ "card_1" := card ]> (virtualCards db);
        activities := activities db; external := external db |}, Ok card);
  stripe_updateVirtualCardMonthlyLimit := fun _ _ => ret tt
|}.

Definition cardDB (cards : list VirtualCard) : DB unit :=
  {| virtualCards := list_to_map (map (fun c => (id c, c)) cards);
     activities := []; external := tt |}.

Definition createArgs (limit : Z) : CreateVirtualCardArgs :=
  {| cr_name := "Hosting"; cr_monthlyLimit := {| valueInCents := Some limit |};
     cr_account := {| ref_id := 1 |}; cr_assignee := {| ref_id := 2 |} |}.

Definition editArgs (limit : Z) : EditVirtualCardArgs :=
  {| ed_virtualCard := "card_1"; ed_name := None; ed_assignee := None;
     ed_monthlyLimit := Some {| valueInCents := Some limit |} |}.

(* ------------------------------------------------------------------ *)
(** *** Pausing, resuming, deleting and requesting a card *)

Inductive CardActivityType : Type :=
| COLLECTIVE_VIRTUAL_CARD_SUSPENDED
| VIRTUAL_CARD_REQUESTED.

(** The columns that these mutations give to [models.Activity.create]. *)
Record CardActivity : Type := {
  ca_type : CardActivityType;
  ca_UserId : option Z;
  ca_CollectiveId : option Z
}.

Class CardImports (External : Type) : Type := {
  (* the associations that [findOne] loads on a card *)
  card_host : VirtualCard -> option Host;
  card_collective : VirtualCard -> option Account;
  (* models/VirtualCard *)
  VirtualCard_pause : VirtualCard -> M (DB External) VirtualCard;
  VirtualCard_resume : VirtualCard -> M (DB External) VirtualCard;
  VirtualCard_delete : VirtualCard -> M (DB External) unit;
  Activity_create : CardActivity -> M (DB External) unit;
  (* [remoteUser.isAdminOfCollective(collective)], [remoteUser.getCollective()] *)
  isAdminOfAccount : User -> Account -> bool;
  getCollective : User -> option Account;
  getUrlPath : Account -> result string
}.

Section CardOperations.
Context {External : Type} {imports : Imports External} {cards : CardImports External}.

Definition pauseVirtualCard (remoteUser : option User) (virtualCardId : string)
  : M (DB External) VirtualCard :=
  match remoteUser with
  | None => throw (Unauthorized "You need to be logged in to assign a Virtual Card")
  | Some remoteUser =>
      found <- gets (fun db => virtualCards db !! virtualCardId) ;;
      match found with
      | None => throw (NotFound "Could not find Virtual Card")
      | Some virtualCard =>
          if negb (isAdmin remoteUser (HostCollectiveId virtualCard))
          then throw (Unauthorized "You don't have permission to edit this Virtual Card")
          else
            card <- VirtualCard_pause virtualCard ;;
            (* [virtualCard.host.info], [virtualCard.collective.info] *)
            match card_host virtualCard with
            | None => throw TypeError
            | Some _ =>
                match card_collective virtualCard with
                | None => throw TypeError
                | Some collective =>
                    _ <- Activity_create
                           {| ca_type := COLLECTIVE_VIRTUAL_CARD_SUSPENDED;
                              ca_UserId := None;
                              ca_CollectiveId := Some (a_id collective) |} ;;
                    ret card
                end
            end
      end
  end.

Definition resumeVirtualCard (remoteUser : option User) (virtualCardId : string)
  : M (DB External) VirtualCard :=
  match remoteUser with
  | None => throw (Unauthorized "You need to be logged in to assign a Virtual Card")
  | Some remoteUser =>
      found <- gets (fun db => virtualCards db !! virtualCardId) ;;
      match found with
      | None => throw (NotFound "Could not find Virtual Card")
      | Some virtualCard =>
          if negb (isAdmin remoteUser (HostCollectiveId virtualCard))
          then throw (Unauthorized "You don't have permission to edit this Virtual Card")
          else VirtualCard_resume virtualCard
      end
  end.

Definition deleteVirtualCard (remoteUser : option User) (virtualCardId : string)
  : M (DB External) bool :=
  match remoteUser with
  | None => throw (Unauthorized "You need to be logged in to assign a Virtual Card")
  | Some remoteUser =>
      found <- gets (fun db => virtualCards db !! virtualCardId) ;;
      match found with
      | None => throw (NotFound "Could not find Virtual Card")
      | Some virtualCard =>
          if negb (isAdmin remoteUser (HostCollectiveId virtualCard))
          then throw (Unauthorized "You don't have permission to edit this Virtual Card")
          else
            _ <- VirtualCard_delete virtualCard ;;
            ret true
      end
  end.

Definition requestVirtualCard (remoteUser : option User) (account : AccountReference)
  : M (DB External) bool :=
  match remoteUser with
  | None => throw (Unauthorized "You need to be logged in to request a virtual card")
  | Some remoteUser =>
      collective <- fetchAccount account true ;;
      if negb (isAdminOfAccount remoteUser collective)
      then throw (Unauthorized
                    "You don't have permission to request a virtual card for this collective")
      else
        let host := getHostCollective collective in
        let userCollective := getCollective remoteUser in
        match host with
        | None => throw TypeError            (* [host.activity] *)
        | Some _ =>
            _ <- lift (getUrlPath collective) ;;
            match userCollective with
            | None => throw TypeError        (* [userCollective.activity] *)
            | Some _ =>
                _ <- Activity_create
                       {| ca_type := VIRTUAL_CARD_REQUESTED;
                          ca_UserId := Some (u_id remoteUser);
                          ca_CollectiveId := None |} ;;
                ret true
            end
        end
  end.
(** The request comes from an admin of the host of the card [cardId]. *)
Definition byHostAdmin (remoteUser : option User) (cardId : string) (db : DB External)
  : Prop :=
  exists u card,
    remoteUser = Some u /\ virtualCards db !! cardId = Some card
    /\ isAdmin u (HostCollectiveId card) = true.

(** The call was refused with one of the three errors of the guards, the
    database being as it was. *)
Definition refusedByGuard {A} (out : DB External * result A) (db : DB External)
    (login denied : string) : Prop :=
  fst out = db
  /\ (snd out = Err (Unauthorized login)
      \/ snd out = Err (NotFound "Could not find Virtual Card")
      \/ snd out = Err (Unauthorized denied)).
End CardOperations.

(** Stand-ins for these imports: the card's host and collective are there,
    pausing and resuming leave the row alone, deleting removes it. *)
Definition cardOperations : CardImports unit := {|
  card_host := fun _ => Some cardHost;
  card_collective := fun c => Some {| a_id := CollectiveId c |};
  VirtualCard_pause := fun c => ret c;
  VirtualCard_resume := fun c => ret c;
  VirtualCard_delete := fun c =>
    modify (fun db => {| virtualCards := delete (id c) (virtualCards db);
                         activities := activities db; external := external db |});
  Activity_create := fun a =>
    modify (fun db => {| virtualCards := virtualCards db;
                         activities := activities db
                                       ++ [{| act_UserId := default 0 (ca_UserId a);
                                              act_CollectiveId :=
                                                default 0 (ca_CollectiveId a) |}];
                         external := external db |});
  isAdminOfAccount := fun u a => isAdmin u (a_id a);
  getCollective := fun u => Some {| a_id := u_id u |};
  getUrlPath := fun _ => Ok "/collective"
|}.

(** Imports for a card whose collective has been deleted, the provider
    keeping the list of the cards that it was asked to pause. *)
Definition orphanCardOperations : CardImports (list string) := {|
  card_host := fun _ => Some cardHost;
  card_collective := fun _ => None;
  VirtualCard_pause := fun c =>
    _ <- modify (fun db => {| virtualCards := virtualCards db;
                              activities := activities db;
                              external := id c :: external db |}) ;;
    ret c;
  VirtualCard_resume := fun c => ret c;
  VirtualCard_delete := fun _ => ret tt;
  Activity_create := fun _ => ret tt;
  isAdminOfAccount := fun _ _ => true;
  getCollective := fun _ => None;
  getUrlPath := fun _ => Ok "/collective"
|}.

Definition orphanCardDB : DB (list string) :=
  {| virtualCards := {[ "card_1" := stripeCard None ]}; activities := []; external := [] |}.

(** A user who administers nothing, and a card issued by the other
    provider. *)
Definition cardStranger : User :=
  {| u_id := 8; isAdmin := fun _ => false; isAdminOfCollective := fun _ => false |}.

Definition privacyCard (limit : option Z) : VirtualCard :=
  {| id := "card_1"; name := "Hosting"; HostCollectiveId := 10; CollectiveId := 1;
     UserId := 7; provider := PRIVACY; spendingLimitAmount := limit;
     spendingLimitInterval := MONTHLY; currency := "USD" |}.

End VirtualCardMutations.

(* ================================================================== *)
(** ** [server/models/HostApplication.ts] *)

Module HostApplicationModel.

Local Open Scope db_scope.

Inductive HostApplicationStatus : Type := PENDING | APPROVED | REJECTED | EXPIRED.

#[global] Instance HostApplicationStatus_eq_dec : EqDecision HostApplicationStatus.
Proof. solve_decision. Defined.

(** What the functions read of a collective. *)
Record Collective : Type := {
  c_id : Z
}.

(** A row of the table [HostApplications]; dates are instants. *)
Record HostApplication : Type := {
  id : Z;
  CollectiveId : Z;
  HostCollectiveId : Z;
  status : HostApplicationStatus;
  customData : option string;          (* the JSON document, as text *)
  message : option string;
  createdAt : Z;
  updatedAt : Z;
  deletedAt : option Z
}.

(** The table, in the order of insertion, and the next value of the
    sequence of [id]. *)
Record Table : Type := {
  rows : list HostApplication;
  nextId : Z
}.

Definition set_updatedAt (d : Z) (r : HostApplication) : HostApplication :=
  {| id := id r; CollectiveId := CollectiveId r; HostCollectiveId := HostCollectiveId r;
     status := status r; customData := customData r; message := message r;
     createdAt := createdAt r; updatedAt := d; deletedAt := deletedAt r |}.

Definition set_status (s : HostApplicationStatus) (r : HostApplication) : HostApplication :=
  {| id := id r; CollectiveId := CollectiveId r; HostCollectiveId := HostCollectiveId r;
     status := s; customData := customData r; message := message r;
     createdAt := createdAt r; updatedAt := updatedAt r; deletedAt := deletedAt r |}.

(** The [where] of the three functions; the model is paranoid, so that a
    deleted row matches nothing. *)
Definition matches (HostCollectiveId_ CollectiveId_ : Z) (status_ : HostApplicationStatus)
    (r : HostApplication) : bool :=
  bool_decide (deletedAt r = None)
  && (HostCollectiveId r =? HostCollectiveId_)
  && (CollectiveId r =? CollectiveId_)
  && bool_decide (status r = status_).

(** [order: [['createdAt', 'DESC']]] with [findOne]: a row whose
    [createdAt] is the greatest; of several such rows, the first of the
    table is taken. *)
Fixpoint latest (l : list HostApplication) : option HostApplication :=
  match l with
  | [] => None
  | r :: l' =>
      match latest l' with
      | Some r' => if createdAt r <? createdAt r' then Some r' else Some r
      | None => Some r
      end
  end.

Definition getByStatus (host collective : Collective) (status_ : HostApplicationStatus)
  : M Table (option HostApplication) :=
  gets (fun t => latest (List.filter (matches (c_id host) (c_id collective) status_)
                           (rows t))).

(** [pick(data, keys)] *)
Definition pick (data : gmap string string) (keys : list string) : gmap string string :=
  list_to_map (omap (fun k => (fun v => (k, v)) <$> data !! k) keys).

(** The validators of the model: [len: [0, 3000]] on a message that is not
    null. *)
Definition validMessage (m : option string) : bool :=
  match m with
  | Some s => (String.length s <=? 3000)%nat
  | None => true
  end.

(** [this.create(values)] at the instant [now]. *)
Definition HostApplication_create (HostCollectiveId_ CollectiveId_ : Z)
    (status_ : HostApplicationStatus) (values : gmap string string) (now : Z)
  : M Table HostApplication :=
  if negb (validMessage (values !! "message"))
  then throw (JsError "Validation error: Validation len on message failed")
  else
    fun t =>
      let row := {| id := nextId t; CollectiveId := CollectiveId_;
                    HostCollectiveId := HostCollectiveId_; status := status_;
                    customData := values !! "customData";
                    message := values !! "message";
                    createdAt := now; updatedAt := now; deletedAt := None |} in
      ({| rows := rows t ++ [row]; nextId := nextId t + 1 |}, Ok row).

(** [instance.update({ updatedAt })] on an instance read from the table.
    Sequelize drops a value given for a timestamp of a saved instance, so
    that nothing has changed: no UPDATE is sent and the row keeps its
    [updatedAt].  An instance is modelled by its row; what [save] leaves in
    the instance's own copy of [updatedAt] is not modelled. *)
Definition HostApplication_update_updatedAt (instance : HostApplication) (d : Z)
  : M Table HostApplication :=
  ret instance.

(** [now] is the value of [new Date()] during the call. *)
Definition recordApplication (host collective : Collective) (data : gmap string string)
    (now : Z) : M Table HostApplication :=
  existingApplication <- getByStatus host collective PENDING ;;
  match existingApplication with
  | Some existingApplication => HostApplication_update_updatedAt existingApplication now
  | None =>
      HostApplication_create (c_id host) (c_id collective) PENDING
        (pick data ["message"; "customData"]) now
  end.

(** Update the [status] for pending application(s) for this [host] <>
    [collective] (if any). *)
Definition updatePendingApplications (host collective : Collective)
    (status_ : HostApplicationStatus) (now : Z) : M Table unit :=
  modify (fun t =>
    {| rows := map (fun r =>
                      if matches (c_id host) (c_id collective) PENDING r
                      then set_updatedAt now (set_status status_ r)
                      else r) (rows t);
       nextId := nextId t |}).

(** The pending applications of a collective to a host. *)
Definition pendingOf (HostCollectiveId_ CollectiveId_ : Z) (t : Table)
  : list HostApplication :=
  List.filter (matches HostCollectiveId_ CollectiveId_ PENDING) (rows t).

(** No collective has two pending applications to the same host. *)
Definition onePendingPerPair (t : Table) : Prop :=
  forall h c, (length (pendingOf h c t) <= 1)%nat.

(** A table with one approved and one pending application. *)
Definition demoApplication (id_ collective : Z) (st : HostApplicationStatus) (d : Z)
  : HostApplication :=
  {| id := id_; CollectiveId := collective; HostCollectiveId := 10; status := st;
     customData := None; message := Some "Please host us"; createdAt := d;
     updatedAt := d; deletedAt := None |}.

Definition demoTable : Table :=
  {| rows := [demoApplication 1 1 APPROVED 100; demoApplication 2 2 PENDING 200];
     nextId := 3 |}.

Definition demoApplicationHost : Collective := {| c_id := 10 |}.

Definition demoData : gmap string string :=
  {[ "message" := "We would like to join"; "status" := "APPROVED" ]}.

End HostApplicationModel.

(* ================================================================== *)
(** ** [server/graphql/v2/query/collection/OrdersCollectionQuery.ts] *)

Module OrdersCollectionQuery.

(** A GraphQL [Int] argument as the resolver sees it. *)
Inductive JsInt : Type := undefined | null | num (z : Z).

(** [x <= 0] and [x > 1000]: [null] compares as 0, and [undefined] is
    neither below nor above anything. *)
Definition leZero (x : JsInt) : bool :=
  match x with
  | undefined => false
  | null => true
  | num z => z <=? 0
  end.

Definition gtThousand (x : JsInt) : bool :=
  match x with
  | undefined => false
  | null => false
  | num z => 1000 <? z
  end.

Inductive OrderAssociation : Type := fromCollective | collective.

Record Account : Type := {
  a_id : Z
}.

Record AccountReference : Type := {
  ref_id : Z
}.

Record User : Type := {
  isRoot : bool;
  isAdminOfCollective : Account -> bool
}.

Record ChronologicalOrder : Type := {
  field : string;
  direction : string
}.

Record Args : Type := {
  limit : JsInt;
  offset : JsInt;
  account : option AccountReference;
  includeHostedAccounts : bool;
  includeIncognito : bool;
  filter : option string;                 (* INCOMING or OUTGOING *)
  frequency : option string;              (* ONETIME, MONTHLY or YEARLY *)
  status : option (list string);
  orderBy : ChronologicalOrder;
  minAmount : option Z;
  maxAmount : option Z;
  dateFrom : option string;
  dateTo : option string;
  searchTerm : option string;
  tierSlug : option string;
  onlySubscriptions : bool
}.

(** The conditions that the resolver puts under [Op.and]. *)
#[warnings="-register-all"]
Inductive Condition : Type :=
| IdIs (association : OrderAssociation) (id : Z)
    (* [{ '$association.id$': id }] *)
| HostedBy (association : OrderAssociation) (id : Z)
    (* [{ '$association.HostCollectiveId$': id,
          '$association.approvedAt$': { [Op.not]: null } }] *)
| AnyOf (conditions : list Condition)            (* [{ [Op.or]: conditions }] *)
| Array (conditions : list Condition)            (* an array of conditions *)
| Search (condition : string).                   (* one of [buildSearchConditions] *)

(** [{ [Op.gte]: ..., [Op.lte]: ... }] *)
Record Range (A : Type) : Type := {
  gte : option A;
  lte : option A
}.
Arguments gte {A} _.
Arguments lte {A} _.

Record Where : Type := {
  w_and : list Condition;
  w_totalAmount : option (Range Z);
  w_createdAt : option (Range string);
  w_status : option (list string);               (* [{ [Op.in]: status }] *)
  w_SubscriptionId_is_null : bool;
  w_TierId : option Z
}.

Inductive Include : Type :=
| Association (association : OrderAssociation)
    (* [{ association, required: true, attributes: [] }] *)
| Subscription (interval : option string).
    (* [{ model: models.Subscription, required: true, where: { interval } }] *)

Record FindOptions : Type := {
  fo_include : list Include;
  fo_where : Where;
  fo_order : list (string * string);
  fo_offset : JsInt;
  fo_limit : JsInt
}.

Record Order : Type := {
  o_id : Z
}.

Record Collection : Type := {
  nodes : list Order;
  totalCount : Z;
  col_limit : JsInt;
  col_offset : JsInt
}.

(** What the resolver imports. *)
Class Imports : Type := {
  fetchAccountWithReference : AccountReference -> result (option Account);
  getIncognitoProfile : Account -> option Account;
  (* [buildSearchConditions(searchTerm, ...)] with the fields of orders *)
  buildSearchConditions : option string -> list string;
  toLowerCase : string -> string;
  (* [models.Tier.findOne({ where: { CollectiveId, slug } })], the [id] *)
  Tier_findOne : Z -> string -> option Z;
  Order_findAndCountAll : FindOptions -> result (list Order * Z)
}.

Section Resolver.
Context {imports : Imports}.

(** Returns the join condition for association *)
Definition getJoinCondition (account_ : Account) (association : OrderAssociation)
    (includeHostedAccounts_ : bool) : Condition :=
  if negb includeHostedAccounts_ then IdIs association (a_id account_)
  else AnyOf [IdIs association (a_id account_); HostedBy association (a_id account_)].

(** [req.remoteUser?.isRoot()] *)
Definition userIsRoot (remoteUser : option User) : bool :=
  match remoteUser with Some u => isRoot u | None => false end.

Definition userIsAdminOf (remoteUser : option User) (a : Account) : bool :=
  match remoteUser with Some u => isAdminOfCollective u a | None => false end.

(** Check Pagination arguments *)
Definition checkedLimit (args : Args) : JsInt :=
  if leZero (limit args) then num 100 else limit args.

Definition checkedOffset (args : Args) : JsInt :=
  if leZero (offset args) then num 0 else offset args.

(** [getJoinCondition] on what [fetchAccountWithReference] has returned. *)
Definition joinCondition (account_ : option Account) (association : OrderAssociation)
    (includeHostedAccounts_ : bool) : result Condition :=
  match account_ with
  | Some a => Ok (getJoinCondition a association includeHostedAccounts_)
  | None => Err TypeError
  end.

(** Filter on fromCollective *)
Definition outgoingConditions (args : Args) (remoteUser : option User)
    (account_ : option Account) : result (list Condition) :=
  if negb (truthyOS (filter args)) || bool_decide (filter args = Some "OUTGOING")
  then
    rbind (joinCondition account_ fromCollective (includeHostedAccounts args)) (fun own =>
      match account_ with
      | None => Err TypeError
      | Some a =>
          Ok (own ::
              (if includeIncognito args
               then
                 (* Needs to be root or admin of the profile to see incognito
                    orders *)
                 if userIsAdminOf remoteUser a || userIsRoot remoteUser
                 then
                   match getIncognitoProfile a with
                   | Some incognitoProfile =>
                       [getJoinCondition incognitoProfile fromCollective false]
                   | None => []
                   end
                 else []
               else []))
      end)
  else Ok [].

(** Filter on collective *)
Definition incomingConditions (args : Args) (account_ : option Account)
  : result (list Condition) :=
  if negb (truthyOS (filter args)) || bool_decide (filter args = Some "INCOMING")
  then rbind (joinCondition account_ collective (includeHostedAccounts args))
         (fun c => Ok [c])
  else Ok [].

(** The account, and what is bound to the query for it. *)
Definition accountConditions (args : Args) (remoteUser : option User)
  : result (option Account * list Condition) :=
  match account args with
  | None => Ok (None, [])
  | Some reference =>
      rbind (fetchAccountWithReference reference) (fun account_ =>
        rbind (outgoingConditions args remoteUser account_) (fun outgoing =>
          rbind (incomingConditions args account_) (fun incoming =>
            let conditions := (outgoing ++ incoming)%list in
            Ok (account_,
                [if (length conditions =? 1)%nat then Array conditions
                 else AnyOf conditions]))))
  end.

Definition truthyAmount (x : option Z) : bool :=
  match x with Some z => truthyZ z | None => false end.

Definition totalAmountFilter (args : Args) : option (Range Z) :=
  let w := if truthyAmount (minAmount args)
           then Some {| gte := minAmount args; lte := None |} else None in
  if truthyAmount (maxAmount args)
  then Some {| gte := match w with Some r => gte r | None => None end;
               lte := maxAmount args |}
  else w.

Definition createdAtFilter (args : Args) : option (Range string) :=
  let w := match dateFrom args with
           | Some d => Some {| gte := Some d; lte := None |}
           | None => None
           end in
  match dateTo args with
  | Some d => Some {| gte := match w with Some r => gte r | None => None end;
                      lte := Some d |}
  | None => w
  end.

Definition statusFilter (args : Args) : option (list string) :=
  match status args with
  | Some (s :: l) => Some (s :: l)
  | _ => None
  end.

Definition frequencyIncludes (args : Args) : list Include :=
  if truthyOS (frequency args) then
    if bool_decide (frequency args = Some "ONETIME") then []
    else if bool_decide (frequency args = Some "MONTHLY") then [Subscription (Some "month")]
    else if bool_decide (frequency args = Some "YEARLY") then [Subscription (Some "year")]
    else []
  else if onlySubscriptions args then [Subscription None]
  else [].

Definition tierFilter (args : Args) (account_ : option Account) : result (option Z) :=
  if truthyOS (tierSlug args) then
    match account_ with
    | None => Err (NotFound "tierSlug can only be used when an account is specified")
    | Some a =>
        match Tier_findOne (a_id a) (toLowerCase (default "" (tierSlug args))) with
        | None => Err (NotFound "tierSlug Not Found")
        | Some tier => Ok (Some tier)
        end
    end
  else Ok None.

(** What the resolver asks the database. *)
Definition findOptions (args : Args) (remoteUser : option User) : result FindOptions :=
  if gtThousand (checkedLimit args) && negb (userIsRoot remoteUser)
  then Err (JsError
              "Cannot fetch more than 1,000 orders at the same time, please adjust the limit")
  else
    rbind (accountConditions args remoteUser) (fun '(account_, conditions) =>
      let searchTermConditions := buildSearchConditions (searchTerm args) in
      let and_ := (conditions
                   ++ (if (0 <? length searchTermConditions)%nat
                       then [AnyOf (map Search searchTermConditions)] else []))%list in
      rbind (tierFilter args account_) (fun tier =>
        Ok {| fo_include := ([Association fromCollective; Association collective]
                             ++ frequencyIncludes args)%list;
              fo_where :=
                {| w_and := and_;
                   w_totalAmount := totalAmountFilter args;
                   w_createdAt := createdAtFilter args;
                   w_status := statusFilter args;
                   w_SubscriptionId_is_null :=
                     bool_decide (frequency args = Some "ONETIME");
                   w_TierId := tier |};
              fo_order := [(field (orderBy args), direction (orderBy args))];
              fo_offset := checkedOffset args;
              fo_limit := checkedLimit args |})).

Definition OrdersCollectionResolver (args : Args) (remoteUser : option User)
  : result Collection :=
  rbind (findOptions args remoteUser) (fun options =>
    rbind (Order_findAndCountAll options) (fun '(rows_, count) =>
      Ok {| nodes := rows_; totalCount := count;
            col_limit := checkedLimit args; col_offset := checkedOffset args |})).
End Resolver.

Definition set_includeIncognito (b : bool) (args : Args) : Args :=
  {| limit := limit args; offset := offset args; account := account args;
     includeHostedAccounts := includeHostedAccounts args; includeIncognito := b;
     filter := filter args; frequency := frequency args; status := status args;
     orderBy := orderBy args; minAmount := minAmount args; maxAmount := maxAmount args;
     dateFrom := dateFrom args; dateTo := dateTo args; searchTerm := searchTerm args;
     tierSlug := tierSlug args; onlySubscriptions := onlySubscriptions args |}.

(** Stand-ins for the imports: accounts 1 and 2 exist, account 1 has the
    incognito profile 11 and the tier "backer", and the database answers
    with as many orders as it is asked for, out of 2500. *)
Definition demoOrders : Imports := {|
  fetchAccountWithReference := fun reference =>
    if (ref_id reference =? 1) || (ref_id reference =? 2)
    then Ok (Some {| a_id := ref_id reference |})
    else Err (NotFound "Account Not Found");
  getIncognitoProfile := fun a => if a_id a =? 1 then Some {| a_id := 11 |} else None;
  buildSearchConditions := fun term =>
    match term with Some t => if truthyS t then [t] else [] | None => [] end;
  toLowerCase := fun s => s;
  Tier_findOne := fun collectiveId slug =>
    if (collectiveId =? 1) && bool_decide (slug = "backer") then Some 5 else None;
  Order_findAndCountAll := fun options =>
    Ok (match fo_limit options with
        | num l => map (fun i => {| o_id := Z.of_nat i |}) (seq 0 (Z.to_nat (Z.min l 2500)))
        | _ => []
        end, 2500)
|}.

Definition demoArgs (limit_ : JsInt) (account_ : option Z) (tierSlug_ : option string)
  : Args :=
  {| limit := limit_; offset := num 0;
     account := (fun i => {| ref_id := i |}) <$> account_;
     includeHostedAccounts := false; includeIncognito := true;
     filter := None; frequency := None; status := None;
     orderBy := {| field := "createdAt"; direction := "DESC" |};
     minAmount := None; maxAmount := None; dateFrom := None; dateTo := None;
     searchTerm := None; tierSlug := tierSlug_; onlySubscriptions := false |}.

Definition demoVisitor : User := {| isRoot := false; isAdminOfCollective := fun _ => false |}.

End OrdersCollectionQuery.

(* ================================================================== *)
(** * Properties *)

(** ** Rounding and truthiness *)

Lemma js_round_inject_Z (z : Z) : js_round (inQ z) = z.
Proof.
  unfold js_round, inQ, inject_Z, Qplus, Qfloor. simpl.
  rewrite Z.mul_1_r.
  symmetry. apply (Z.div_unique_pos (z * 2 + 1) 2 z 1); lia.
Qed.

Lemma sgn_mul_abs (z : Z) : Z.sgn z * Z.abs z = z.
Proof. destruct z; simpl; lia. Qed.

Lemma roundHalfEven_exact (n d : Z) : 0 < d -> roundHalfEven (n * d) d = n.
Proof.
  intros Hd. unfold roundHalfEven.
  rewrite Z.mod_mul, Z.div_mul by lia.
  replace (2 * 0) with 0 by lia. now destruct (Z.compare_spec 0 d); try lia.
Qed.

Lemma binade_integer (a : Z) : 0 < a -> binade a 1 = Z.log2 a.
Proof.
  intros Ha. unfold binade. change (Z.log2 1) with 0. rewrite Z.sub_0_r.
  pose proof (Z.log2_nonneg a) as Hl.
  rewrite (Z.max_r 0 (Z.log2 a)) by lia. rewrite Z.max_l by lia.
  pose proof (Z.log2_spec a Ha) as [H1 H2].
  destruct (Z.ltb_spec (a * 2 ^ 0) (1 * 2 ^ Z.log2 a)); [|reflexivity].
  rewrite Z.pow_0_r in *. lia.
Qed.

Lemma Qred_inject_Z (z : Z) : Qred (inject_Z z) = inject_Z z.
Proof. apply Qcanon.Qred_identity. simpl. apply Z.gcd_1_r. Qed.

(** The double of a number does not depend on how the number is written. *)
Lemma toDouble_comp (x y : Q) : (x == y)%Q -> toDouble x = toDouble y.
Proof. intros E. unfold toDouble. now rewrite (Qred_complete x y E). Qed.

(** Integers up to [2 ^ 53] are doubles. *)
Lemma toDouble_integer (z : Z) : Z.abs z <= 2 ^ 53 -> toDouble (inject_Z z) = inject_Z z.
Proof.
  intros Hz. unfold toDouble. rewrite Qred_inject_Z. cbn [Qnum Qden inject_Z].
  destruct (Z.eqb_spec z 0) as [->|Hnz]; [reflexivity|].
  assert (Ha : 0 < Z.abs z) by lia.
  rewrite (binade_integer _ Ha).
  pose proof (Z.log2_spec _ Ha) as [H1 H2].
  assert (Hl : 0 <= Z.log2 (Z.abs z) <= 53).
  { split; [apply Z.log2_nonneg|].
    destruct (Z_le_gt_dec (Z.log2 (Z.abs z)) 53) as [|G]; [assumption|].
    assert (2 ^ 54 <= 2 ^ Z.log2 (Z.abs z)) by (apply Z.pow_le_mono_r; lia).
    assert (2 ^ 53 < 2 ^ 54) by (apply Z.pow_lt_mono_r; lia). lia. }
  rewrite Z.max_l by lia.
  etransitivity; [|apply Qred_inject_Z]. apply Qred_complete.
  destruct (Z.leb_spec 0 (Z.log2 (Z.abs z) - 52)) as [He|He].
  - (* the last bit has exponent 0 or 1: [z] is between 2^52 and 2^53 *)
    assert (E : Z.log2 (Z.abs z) - 52 = 0 \/ Z.log2 (Z.abs z) - 52 = 1) by lia.
    destruct E as [E|E]; rewrite E.
    + assert (Hm : Z.sgn z * roundHalfEven (Z.abs z) (1 * 2 ^ 0) * 2 ^ 0 = z).
      { change (1 * 2 ^ 0) with 1. change (2 ^ 0) with 1.
        rewrite <- (Z.mul_1_r (Z.abs z)) at 1. rewrite roundHalfEven_exact by lia.
        rewrite Z.mul_1_r. apply sgn_mul_abs. }
      rewrite Hm. reflexivity.
    + assert (Hz' : Z.abs z = 2 ^ 53).
      { assert (Z.log2 (Z.abs z) = 53) as E' by lia. rewrite E' in H1. lia. }
      assert (Hm : Z.sgn z * roundHalfEven (Z.abs z) (1 * 2 ^ 1) * 2 ^ 1 = z).
      { rewrite Hz'. change (1 * 2 ^ 1) with 2. change (2 ^ 53) with (2 ^ 52 * 2).
        rewrite roundHalfEven_exact by lia.
        rewrite <- (sgn_mul_abs z) at 2. rewrite Hz'.
        change (2 ^ 53) with (2 ^ 52 * 2 ^ 1). ring. }
      rewrite Hm. reflexivity.
  - set (k := - (Z.log2 (Z.abs z) - 52)). assert (Hk : 0 < k) by (unfold k; lia).
    assert (Hp : 0 < 2 ^ k) by (apply Z.pow_pos_nonneg; lia).
    assert (Hm : roundHalfEven (Z.abs z * 2 ^ k) 1 = Z.abs z * 2 ^ k).
    { rewrite <- (Z.mul_1_r (Z.abs z * 2 ^ k)) at 1. apply roundHalfEven_exact. lia. }
    rewrite Hm.
    unfold Qeq. cbn [Qnum Qden inject_Z]. rewrite Z2Pos.id by exact Hp.
    rewrite Z.mul_assoc, sgn_mul_abs. ring.
Qed.

Lemma fadd_integer (a b : Z) :
  Z.abs a <= 2 ^ 53 -> Z.abs b <= 2 ^ 53 -> Z.abs (a + b) <= 2 ^ 53 ->
  fadd (inQ a) (inQ b) = inQ (a + b).
Proof.
  intros Ha Hb Hab. unfold fadd, inQ. rewrite !toDouble_integer by assumption.
  rewrite <- (toDouble_integer (a + b) Hab).
  apply toDouble_comp. now rewrite inject_Z_plus.
Qed.

Lemma fmul_comp (a b a' b' : Q) :
  (a == a')%Q -> (b == b')%Q -> fmul a b = fmul a' b'.
Proof.
  intros Ea Eb. unfold fmul. now rewrite (toDouble_comp a a' Ea), (toDouble_comp b b' Eb).
Qed.

Lemma js_round_comp (x y : Q) : (x == y)%Q -> js_round x = js_round y.
Proof.
  intros E. unfold js_round. apply Qfloor_comp. now rewrite E.
Qed.



(* ------------------------------------------------------------------ *)
(** ** Expenses *)

Module ExpensesProps.
Import Expenses.

(** *** FX rates *)




(** *** Fees of a payout *)

Section FeesProps.
Context {Others : Type} {imports : Imports Others}.

Lemma estimatePaymentProcessorFee_keeps expense c host fees payoutMethod
    forceManual useExistingWiseData rate_ resultFees :
  estimatePaymentProcessorFee expense c host fees payoutMethod forceManual
    useExistingWiseData rate_ = Ok resultFees ->
  hostFeeInCollectiveCurrency resultFees = hostFeeInCollectiveCurrency fees
  /\ platformFeeInCollectiveCurrency resultFees = platformFeeInCollectiveCurrency fees.
Proof.
  unfold estimatePaymentProcessorFee, rbind.
  repeat match goal with
         | |- context [match ?x with _ => _ end] => destruct x; simpl
         end;
    intros E; inversion E; subst; simpl; auto.
Qed.

Lemma estimatePaymentProcessorFee_manual expense c host fees payoutMethod
    useExistingWiseData rate_ :
  estimatePaymentProcessorFee expense c host fees payoutMethod true
    useExistingWiseData rate_ = Ok fees.
Proof.
  unfold estimatePaymentProcessorFee. simpl. rewrite !andb_false_r. reflexivity.
Qed.

(** Defaulting a falsy fee to 0 does not change its value as a number. *)
Lemma orZero_default (x : option Q) :
  (orZero (if falsyOQ x then Some 0%Q else x) == orZero x)%Q.
Proof.
  destruct x as [q|]; simpl; [|reflexivity].
  unfold truthyQ. destruct (Qeq_bool q 0) eqn:E; simpl; [|reflexivity].
  apply Qeq_bool_iff in E. now rewrite E.
Qed.

(** C4: the fees in host currency are the fees in collective currency
    multiplied by the collective-to-host rate, as doubles are multiplied,
    and rounded to an integer, a missing fee counting as 0; when the expense
    is in the collective's currency the fees in expense currency are the
    fees in collective currency, unconverted.  A manual payout gets its
    fees whenever the rates it needs are found, and the error of the lookup
    otherwise. *)
Theorem getExpenseFees_spec (expense : Expense) (host : Host) (fees : FeesArgs)
    (payoutMethod : option PayoutMethod) (forceManual useExistingWiseData : bool) :
  (forall r,
     getExpenseFees expense host fees payoutMethod forceManual useExistingWiseData = Ok r ->
     exists c rate_,
       collective (withCollective expense) = Some c
       /\ getFxRate (c_currency c) (h_currency host) = Ok rate_
       /\ let inCollective := feesInCollectiveCurrency r in
          paymentProcessorFeeInHostCurrency (feesInHostCurrency r)
          = js_round (fmul rate_ (orZero (paymentProcessorFeeInCollectiveCurrency inCollective)))
          /\ hostFeeInHostCurrency (feesInHostCurrency r)
             = js_round (fmul rate_ (orZero (hostFeeInCollectiveCurrency inCollective)))
          /\ platformFeeInHostCurrency (feesInHostCurrency r)
             = js_round (fmul rate_ (orZero (platformFeeInCollectiveCurrency inCollective)))
          /\ hostFeeInCollectiveCurrency inCollective = hostFeeInCollectiveCurrency fees
          /\ platformFeeInCollectiveCurrency inCollective
             = platformFeeInCollectiveCurrency fees
          /\ (currency expense = c_currency c ->
              feesInExpenseCurrency r
              = {| paymentProcessorFee := paymentProcessorFeeInCollectiveCurrency inCollective;
                   hostFee := hostFeeInCollectiveCurrency inCollective;
                   platformFee := platformFeeInCollectiveCurrency inCollective |}))
  /\ (forall c,
        collective (withCollective expense) = Some c -> forceManual = true ->
        (forall rate_,
           getFxRate (c_currency c) (h_currency host) = Ok rate_ ->
           currency expense = c_currency c
           \/ isOk (getFxRate (c_currency c) (currency expense)) = true ->
           exists r,
             getExpenseFees expense host fees payoutMethod forceManual useExistingWiseData
             = Ok r)
        /\ (forall e,
              getFxRate (c_currency c) (h_currency host) = Err e ->
              getExpenseFees expense host fees payoutMethod forceManual useExistingWiseData
              = Err e)).
Proof.
  assert (Hcur : currency (withCollective expense) = currency expense)
    by (unfold withCollective; destruct (collective expense); reflexivity).
  split.
  - intros r. unfold getExpenseFees.
    destruct (collective (withCollective expense)) as [c|] eqn:Hc; [|discriminate].
    destruct (getFxRate (c_currency c) (h_currency host)) as [rate_|e] eqn:Hrate;
      [|discriminate].
    cbn [rbind].
    destruct (estimatePaymentProcessorFee (withCollective expense) c host fees
                payoutMethod forceManual useExistingWiseData rate_) as [rf|e] eqn:Hest;
      cbn [rbind]; [|discriminate].
    destruct (estimatePaymentProcessorFee_keeps _ _ _ _ _ _ _ _ _ Hest) as [Hh Hp].
    cbv zeta.
    set (rf' := if falsyOQ (paymentProcessorFeeInCollectiveCurrency rf)
                then set_paymentProcessorFeeInCollectiveCurrency (Some 0%Q) rf else rf).
    assert (K1 : hostFeeInCollectiveCurrency rf' = hostFeeInCollectiveCurrency rf)
      by (subst rf'; destruct (falsyOQ _); reflexivity).
    assert (K2 : platformFeeInCollectiveCurrency rf' = platformFeeInCollectiveCurrency rf)
      by (subst rf'; destruct (falsyOQ _); reflexivity).
    assert (K3 : (orZero (paymentProcessorFeeInCollectiveCurrency rf')
                  == orZero (paymentProcessorFeeInCollectiveCurrency rf))%Q).
    { rewrite <- (orZero_default (paymentProcessorFeeInCollectiveCurrency rf)).
      subst rf'. destruct (falsyOQ _); reflexivity. }
    match goal with
    | |- rbind ?m _ = _ -> _ => destruct m as [inExpense|e] eqn:Hexp
    end; cbn [rbind]; [|discriminate].
    intros E. injection E as <-. exists c, rate_.
    split; [reflexivity|]. split; [exact Hrate|].
    cbn [feesInCollectiveCurrency feesInHostCurrency feesInExpenseCurrency
         paymentProcessorFeeInHostCurrency hostFeeInHostCurrency
         platformFeeInHostCurrency].
    rewrite K1, K2, Hh, Hp.
    split; [apply f_equal, fmul_comp; [reflexivity|now symmetry]|].
    split; [reflexivity|]. split; [reflexivity|]. split; [reflexivity|].
    split; [reflexivity|].
    intros Hsame. rewrite Hcur, bool_decide_eq_true_2 in Hexp by exact Hsame.
    injection Hexp as <-. now rewrite K1, K2, Hh, Hp.
  - intros c Hc ->. unfold getExpenseFees. rewrite Hc. split.
    + intros rate_ Hrate Hexp. rewrite Hrate. cbn [rbind].
      rewrite estimatePaymentProcessorFee_manual. cbn [rbind]. cbv zeta.
      rewrite Hcur.
      destruct (bool_decide (currency expense = c_currency c)) eqn:Hb;
        [cbn [rbind]; eauto|].
      destruct Hexp as [Hsame|Hok];
        [apply bool_decide_eq_false in Hb; contradiction|].
      destruct (getFxRate (c_currency c) (currency expense)); [|discriminate Hok].
      cbn [rbind]. eauto.
    + intros e Hrate. now rewrite Hrate.
Qed.

End FeesProps.

Lemma getExpenseFees_spec_witness :
  (exists r,
     @getExpenseFees unit demoImports (demoExpense 3 APPROVED) demoHost
       {| paymentProcessorFeeInCollectiveCurrency := Some (150 # 1)%Q;
          hostFeeInCollectiveCurrency := None;
          platformFeeInCollectiveCurrency := Some (25 # 1)%Q |}
       None true false = Ok r)
  /\ exists r,
       @getExpenseFees unit demoImports (demoExpense 3 APPROVED) demoForeignHost
         {| paymentProcessorFeeInCollectiveCurrency := Some (50 # 1)%Q;
            hostFeeInCollectiveCurrency := None;
            platformFeeInCollectiveCurrency := None |}
         None true false = Ok r
       /\ paymentProcessorFeeInHostCurrency (feesInHostCurrency r)
          = js_round (fmul (29 # 100) (50 # 1))
       /\ js_round (fmul (29 # 100) (50 # 1)) = 14.
Proof.
  split.
  - apply (proj1 (proj2 (@getExpenseFees_spec unit demoImports (demoExpense 3 APPROVED)
                           demoHost
                           {| paymentProcessorFeeInCollectiveCurrency := Some (150 # 1)%Q;
                              hostFeeInCollectiveCurrency := None;
                              platformFeeInCollectiveCurrency := Some (25 # 1)%Q |}
                           None true false) demoCollective eq_refl eq_refl) 1%Q).
    + reflexivity.
    + left. reflexivity.
  - eexists. split; [vm_compute; reflexivity|].
    destruct (proj1 (@getExpenseFees_spec unit demoImports (demoExpense 3 APPROVED)
                       demoForeignHost
                       {| paymentProcessorFeeInCollectiveCurrency := Some (50 # 1)%Q;
                          hostFeeInCollectiveCurrency := None;
                          platformFeeInCollectiveCurrency := None |}
                       None true false) _ ltac:(vm_compute; reflexivity))
      as (c & rate_ & Hc & Hrate & Hfee & _).
    vm_compute in Hc. injection Hc as <-.
    vm_compute in Hrate. injection Hrate as <-. split; [exact Hfee|].
    vm_compute. reflexivity.
Defined.


(** *** Paying an expense *)

Section PayExpenseProps.
Context {Others : Type} {imports : Imports Others}.

Lemma payExpense_locked_refuses (req : Request) (args : PayExpenseArgs)
    (db : DB Others) (e : Expense) :
  expenses db !! args_id args = Some e ->
  status e <> APPROVED -> status e <> ERROR ->
  payExpense_locked req args db = (db, Err (refusal (status e))).
Proof.
  intros Hrow Ha He.
  unfold payExpense_locked, Expense_findByPk_withCollectives, bind, gets, throw.
  rewrite Hrow. simpl.
  destruct (status e); try contradiction; reflexivity.
Qed.

Lemma lookup_update_data (db : DB Others) (e : Expense) (d : option ExpenseJsonData) (i : Z) :
  expenses db !! i = Some e ->
  id e = i ->
  expenses (fst (update_data e d db)) !! i = Some (set_data d e).
Proof.
  intros Hrow <-. unfold update_data. simpl. rewrite lookup_alter_eq, Hrow. reflexivity.
Qed.

Lemma payExpense_refuses (req : Request) (args : PayExpenseArgs)
    (db : DB Others) (e : Expense) :
  expenses db !! args_id args = Some e ->
  id e = args_id args ->
  status e <> APPROVED -> status e <> ERROR ->
  exists db' x,
    payExpense req args db = (db', Err x)
    /\ status <$> (expenses db' !! args_id args) = Some (status e)
    /\ (forall u, remoteUser req = Some u ->
                  canUseFeature (Some u) USE_EXPENSES = true ->
                  data_isLocked e = false -> x = refusal (status e)).
Proof.
  intros Hrow Hid Ha He. unfold payExpense.
  destruct (remoteUser req) as [u|] eqn:Hu.
  2:{ eexists _, _. split; [reflexivity|]. rewrite Hrow. split; [reflexivity|].
      intros ? [=]. }
  destruct (canUseFeature (Some u) USE_EXPENSES) eqn:Hf; simpl.
  2:{ eexists _, _. split; [reflexivity|]. rewrite Hrow. split; [reflexivity|].
      intros u0 [= <-] Hc. congruence. }
  unfold lockExpense, bind at 1, sequelize_transaction, bind at 1.
  unfold Expense_findByPk at 1, gets. rewrite Hrow.
  destruct (data_isLocked e) eqn:Hl.
  { eexists _, _. split; [reflexivity|]. rewrite Hrow. split; [reflexivity|].
    intros ? _ _ [=]. }
  unfold update_data at 1.
  set (e1 := set_data (with_isLocked true (data e)) e).
  set (db1 := upd_expenses (alter (set_data (with_isLocked true (data e))) (id e)) db).
  assert (Hrow1 : expenses db1 !! args_id args = Some e1).
  { subst db1. simpl. rewrite Hid, lookup_alter_eq, Hrow. reflexivity. }
  unfold try_finally.
  rewrite (payExpense_locked_refuses req args db1 e1 Hrow1 Ha He).
  unfold bind, Expense_findByPk, gets. rewrite Hrow1.
  unfold update_data, ret.
  eexists _, _. split; [reflexivity|]. split.
  - simpl. change (id e1) with (id e).
    rewrite Hid, !lookup_alter_eq, Hrow. reflexivity.
  - intros. reflexivity.
Qed.

(** C3: [payExpense] pays an expense only from APPROVED or ERROR.  The
    callback it runs under the lock answers [Unauthorized('Expense has
    already been paid')] to PAID, [Unauthorized] to PROCESSING and
    [Unauthorized] to every other status that is neither APPROVED nor ERROR,
    and changes nothing; for a logged-in user allowed to use expenses, on
    an expense that is not locked, that answer is the answer of
    [payExpense].  Whoever calls and whatever the lock, [payExpense]
    succeeds only on APPROVED or ERROR, and it leaves every other status as
    it is: there is no way to PAID but from APPROVED or ERROR. *)
Theorem payExpense_status_guard (req : Request) (args : PayExpenseArgs)
    (db : DB Others) (e : Expense) :
  expenses db !! args_id args = Some e ->
  id e = args_id args ->
  (status e = PAID ->
   payExpense_locked req args db
   = (db, Err (Unauthorized "Expense has already been paid")))
  /\ (status e = PROCESSING ->
      exists msg, payExpense_locked req args db = (db, Err (Unauthorized msg)))
  /\ (status e <> APPROVED -> status e <> ERROR ->
      exists msg, payExpense_locked req args db = (db, Err (Unauthorized msg)))
  /\ (forall u,
        remoteUser req = Some u -> canUseFeature (Some u) USE_EXPENSES = true ->
        data_isLocked e = false ->
        status e <> APPROVED -> status e <> ERROR ->
        snd (payExpense req args db) = snd (payExpense_locked req args db))
  /\ (isOk (snd (payExpense req args db)) = true ->
      status e = APPROVED \/ status e = ERROR)
  /\ (status e <> APPROVED -> status e <> ERROR ->
      status <$> (expenses (fst (payExpense req args db)) !! args_id args)
      = Some (status e)).
Proof.
  intros Hrow Hid.
  assert (Hmsg : forall st, exists msg, refusal st = Unauthorized msg)
    by (intros []; eexists; reflexivity).
  repeat split.
  - intros Hp. rewrite (payExpense_locked_refuses req args db e Hrow) by congruence.
    rewrite Hp. reflexivity.
  - intros Hp. destruct (Hmsg (status e)) as [msg Hm]. exists msg.
    rewrite (payExpense_locked_refuses req args db e Hrow) by congruence.
    now rewrite Hm.
  - intros Ha He. destruct (Hmsg (status e)) as [msg Hm]. exists msg.
    rewrite (payExpense_locked_refuses req args db e Hrow Ha He). now rewrite Hm.
  - intros u Hu Hf Hl Ha He.
    destruct (payExpense_refuses req args db e Hrow Hid Ha He) as (db' & x & E & _ & Hx).
    rewrite E, (payExpense_locked_refuses req args db e Hrow Ha He). simpl.
    now rewrite (Hx u Hu Hf Hl).
  - intros Hok.
    destruct (decide (status e = APPROVED)) as [|Ha]; [now left|].
    destruct (decide (status e = ERROR)) as [|He]; [now right|].
    destruct (payExpense_refuses req args db e Hrow Hid Ha He) as (db' & x & E & _).
    rewrite E in Hok. discriminate.
  - intros Ha He.
    destruct (payExpense_refuses req args db e Hrow Hid Ha He) as (db' & x & E & Hs & _).
    now rewrite E.
Qed.

End PayExpenseProps.

Lemma payExpense_status_guard_witness :
  snd (@payExpense unit demoImports demoRequest (demoPayArgs 5)
         (demoDB [demoExpense 5 PAID]))
  = Err (Unauthorized "Expense has already been paid").
Proof.
  pose proof (@payExpense_status_guard unit demoImports demoRequest (demoPayArgs 5)
                (demoDB [demoExpense 5 PAID]) (demoExpense 5 PAID)
                eq_refl eq_refl) as (Hpaid & _ & _ & Hsame & _).
  rewrite (Hsame demoAdmin eq_refl eq_refl eq_refl); [|discriminate|discriminate].
  rewrite (Hpaid eq_refl). reflexivity.
Defined.

(** An approved expense is paid, and its row says so. *)
Example payExpense_approved :
  let out := @payExpense unit demoImports demoRequest (demoPayArgs 5)
               (demoDB [demoExpense 5 APPROVED]) in
  isOk (snd out) = true /\ status <$> (expenses (fst out) !! 5) = Some PAID.
Proof. vm_compute. split; reflexivity. Qed.

Example payExpense_locked_expense :
  snd (@payExpense unit demoImports demoRequest (demoPayArgs 5)
         (demoDB [set_data (with_isLocked true None) (demoExpense 5 PAID)]))
  = Err (JsError "This expense is already been processed, please try again later").
Proof. vm_compute. reflexivity. Qed.

(** *** The status actions *)

Section ActionsProps.
Context {Others : Type} {imports : Imports Others}.

Ltac run_action a :=
  destruct a; cbn [runAction targetStatus evaluatorOf] in *;
  unfold approveExpense, unapproveExpense, rejectExpense, markExpenseAsSpam.

(** C5: each of [approveExpense], [unapproveExpense], [rejectExpense] and
    [markExpenseAsSpam] returns the expense as it is, without a write or an
    activity, when it already has the target status; otherwise it asks its
    permission evaluator first: when the evaluator denies, the action throws
    [Forbidden] and the database is unchanged, and when the evaluator throws,
    so does the action, the database unchanged.  A database that changed
    means the evaluator had granted the request. *)
Theorem status_actions_check_permission_first (a : StatusAction) (req : Request)
    (expense : Expense) (db : DB Others) :
  (status expense = targetStatus a ->
   runAction a req expense db = (db, Ok expense))
  /\ (status expense <> targetStatus a ->
      forall expense',
        evaluatorOf a req expense false = Ok (expense', false) ->
        runAction a req expense db = (db, Err (Forbidden "")))
  /\ (status expense <> targetStatus a ->
      forall x,
        evaluatorOf a req expense false = Err x ->
        runAction a req expense db = (db, Err x))
  /\ (fst (runAction a req expense db) <> db ->
      status expense <> targetStatus a
      /\ exists expense', evaluatorOf a req expense false = Ok (expense', true)).
Proof.
  split; [|split; [|split]].
  - intros Hs. run_action a; rewrite bool_decide_eq_true_2 by exact Hs; reflexivity.
  - intros Hs expense' Hev.
    run_action a; rewrite bool_decide_eq_false_2 by exact Hs;
      unfold bind, lift; rewrite Hev; reflexivity.
  - intros Hs x Hev.
    run_action a; rewrite bool_decide_eq_false_2 by exact Hs;
      unfold bind, lift; rewrite Hev; reflexivity.
  - intros Hch.
    destruct (decide (status expense = targetStatus a)) as [Hs|Hs].
    { exfalso. apply Hch.
      run_action a; rewrite bool_decide_eq_true_2 by exact Hs; reflexivity. }
    split; [exact Hs|].
    destruct (evaluatorOf a req expense false) as [[expense' [|]]|x] eqn:Hev.
    + eauto.
    + exfalso. apply Hch.
      run_action a; rewrite bool_decide_eq_false_2 by exact Hs;
        unfold bind, lift; rewrite Hev; reflexivity.
    + exfalso. apply Hch.
      run_action a; rewrite bool_decide_eq_false_2 by exact Hs;
        unfold bind, lift; rewrite Hev; reflexivity.
Qed.

End ActionsProps.

(** A request without a user is denied by [canApprove], so [approveExpense]
    throws [Forbidden] and writes nothing. *)
Lemma status_actions_check_permission_first_witness :
  @runAction unit demoImports Approve
    {| remoteUser := None; Collective_byId_load := Collective_byId_load demoRequest |}
    (demoExpense 5 PENDING) (demoDB [demoExpense 5 PENDING])
  = (demoDB [demoExpense 5 PENDING], Err (Forbidden "")).
Proof.
  apply (proj1 (proj2 (@status_actions_check_permission_first unit demoImports Approve
                         {| remoteUser := None;
                            Collective_byId_load := Collective_byId_load demoRequest |}
                         (demoExpense 5 PENDING) (demoDB [demoExpense 5 PENDING])))
           ltac:(discriminate)
           (set_collective (Some demoCollective) (demoExpense 5 PENDING))).
  reflexivity.
Defined.

(** The admin of the host approves a pending expense: the row is updated
    and one activity is recorded. *)
Example approveExpense_granted :
  let out := @approveExpense unit demoImports demoRequest
               (demoExpense 5 PENDING) (demoDB [demoExpense 5 PENDING]) in
  (status <$> snd_ok (snd out)) = Some APPROVED
  /\ status <$> (expenses (fst out) !! 5) = Some APPROVED
  /\ lastEditedById <$> (expenses (fst out) !! 5) = Some (Some 7)
  /\ activities (fst out)
     = [{| act_type := COLLECTIVE_EXPENSE_APPROVED; act_ExpenseId := 5; act_UserId := 7 |}].
Proof. vm_compute. repeat split; reflexivity. Qed.


(** *** Creating an expense *)

Section CreateExpenseProps.
Context {Others : Type} {imports : Imports Others}.

(** Inside a transaction a failure undoes every write. *)
Lemma sequelize_transaction_rollback {S A} (body : M S A) (s : S) (x : error) :
  snd (sequelize_transaction body s) = Err x -> fst (sequelize_transaction body s) = s.
Proof.
  unfold sequelize_transaction. destruct (body s) as [s' [a|e]]; simpl; [discriminate|].
  reflexivity.
Qed.

Lemma sequelize_transaction_commit {S A} (body : M S A) (s s' : S) (a : A) :
  sequelize_transaction body s = (s', Ok a) -> body s = (s', Ok a).
Proof.
  unfold sequelize_transaction. destruct (body s) as [s1 [a1|e]]; congruence.
Qed.

Lemma createItems_tables (itemsData : list ExpenseItemData) (u : User) (e : Expense) :
  forall (db db' : DB Others) r,
    createItems itemsData u e db = (db', r) ->
    expenses db' = expenses db
    /\ expenseAttachedFiles db' = expenseAttachedFiles db
    /\ activities db' = activities db
    /\ others db' = others db
    /\ (forall created, r = Ok created ->
          expenseItems db' = (expenseItems db ++ created)%list).
Proof.
  induction itemsData as [|d rest IH]; intros db db' r; simpl.
  - intros [= <- <-]. repeat split. intros created [= <-]. now rewrite app_nil_r.
  - unfold bind, lift, modify.
    destruct (ExpenseItem_createFromData d u e) as [item|x].
    + destruct (createItems rest u e (add_expenseItem item db)) as [db1 [l|x]] eqn:E;
        intros [= <- <-]; destruct (IH _ _ _ E) as (H1 & H2 & H3 & H4 & H5).
      * repeat split; try assumption.
        intros created [= <-]. rewrite (H5 l eq_refl). simpl.
        now rewrite <- app_assoc.
      * repeat split; try assumption. intros ? [=].
    + intros [= <- <-]. repeat split. intros ? [=].
Qed.

Lemma createFiles_tables (urls : list (option string)) (u : User) (e : Expense) :
  forall (db db' : DB Others) r,
    createFiles urls u e db = (db', r) ->
    expenses db' = expenses db
    /\ expenseItems db' = expenseItems db
    /\ activities db' = activities db
    /\ others db' = others db
    /\ (forall created, r = Ok created ->
          expenseAttachedFiles db' = (expenseAttachedFiles db ++ created)%list).
Proof.
  induction urls as [|url rest IH]; intros db db' r; simpl.
  - intros [= <- <-]. repeat split. intros created [= <-]. now rewrite app_nil_r.
  - unfold bind, lift, modify.
    destruct (ExpenseAttachedFile_createFromData url u e) as [file|x].
    + destruct (createFiles rest u e (add_expenseAttachedFile file db)) as [db1 [l|x]] eqn:E;
        intros [= <- <-]; destruct (IH _ _ _ E) as (H1 & H2 & H3 & H4 & H5).
      * repeat split; try assumption.
        intros created [= <-]. rewrite (H5 l eq_refl). simpl.
        now rewrite <- app_assoc.
      * repeat split; try assumption. intros ? [=].
    + intros [= <- <-]. repeat split. intros ? [=].
Qed.

Lemma createAttachedFiles_tables (e : Expense) (data_ : option (list (option string)))
    (u : User) :
  forall (db db' : DB Others) r,
    createAttachedFiles e data_ u db = (db', r) ->
    expenses db' = expenses db
    /\ expenseItems db' = expenseItems db
    /\ activities db' = activities db
    /\ others db' = others db
    /\ (forall created, r = Ok created ->
          expenseAttachedFiles db' = (expenseAttachedFiles db ++ created)%list).
Proof.
  intros db db' r. unfold createAttachedFiles.
  destruct (0 <? size_ data_).
  - apply createFiles_tables.
  - intros [= <- <-]. repeat split. intros created [= <-]. now rewrite app_nil_r.
Qed.

(** What was created was made from the data, one by one and in order. *)
Lemma createItems_made (itemsData : list ExpenseItemData) (u : User) (e : Expense) :
  forall (db db' : DB Others) created,
    createItems itemsData u e db = (db', Ok created) ->
    Forall2 (fun d item => ExpenseItem_createFromData d u e = Ok item) itemsData created.
Proof.
  induction itemsData as [|d rest IH]; intros db db' created; simpl.
  - intros [= <- <-]. constructor.
  - unfold bind, lift, modify.
    destruct (ExpenseItem_createFromData d u e) as [item|x] eqn:Hd; [|discriminate].
    destruct (createItems rest u e (add_expenseItem item db)) as [db1 [l|x]] eqn:E;
      intros [= <- <-].
    constructor; [exact Hd|exact (IH _ _ _ E)].
Qed.

Lemma createFiles_made (urls : list (option string)) (u : User) (e : Expense) :
  forall (db db' : DB Others) created,
    createFiles urls u e db = (db', Ok created) ->
    Forall2 (fun url file => ExpenseAttachedFile_createFromData url u e = Ok file)
      urls created.
Proof.
  induction urls as [|url rest IH]; intros db db' created; simpl.
  - intros [= <- <-]. constructor.
  - unfold bind, lift, modify.
    destruct (ExpenseAttachedFile_createFromData url u e) as [file|x] eqn:Hd;
      [|discriminate].
    destruct (createFiles rest u e (add_expenseAttachedFile file db)) as [db1 [l|x]] eqn:E;
      intros [= <- <-].
    constructor; [exact Hd|exact (IH _ _ _ E)].
Qed.

Lemma createAttachedFiles_made (e : Expense) (data_ : option (list (option string)))
    (u : User) (db db' : DB Others) (created : list ExpenseAttachedFile) :
  createAttachedFiles e data_ u db = (db', Ok created) ->
  Forall2 (fun url file => ExpenseAttachedFile_createFromData url u e = Ok file)
    (default [] data_) created.
Proof.
  unfold createAttachedFiles. destruct (Z.ltb_spec 0 (size_ data_)) as [H|H].
  - apply createFiles_made.
  - intros [= <- <-]. destruct data_ as [[|url l]|]; simpl in *; [constructor|lia|constructor].
Qed.


Lemma createExpense_transaction_ok (u : User) (expenseData : ExpenseData)
    (c : Collective) (currency_ : string) (payee : ResolvedPayee)
    (itemsData : list ExpenseItemData) (taxes_ : list TaxDefinition)
    (db db' : DB Others) (e : Expense) :
  createExpense_transaction u expenseData c currency_ payee itemsData taxes_ db
  = (db', Ok e) ->
  status e = PENDING
  /\ amount e = computeTotalAmountForExpense itemsData taxes_
  /\ (exists row,
        expenses db' = <[id e := row]> (expenses db)
        /\ id row = id e /\ status row = PENDING /\ amount row = amount e
        /\ Forall2 (fun d item => ExpenseItem_createFromData d u row = Ok item)
             itemsData (items e)
        /\ Forall2 (fun url file =>
                      ExpenseAttachedFile_createFromData url u (set_items (items e) row)
                      = Ok file)
             (default [] (ed_attachedFiles expenseData)) (attachedFiles e))
  /\ expenseItems db' = (expenseItems db ++ items e)%list
  /\ expenseAttachedFiles db' = (expenseAttachedFiles db ++ attachedFiles e)%list
  /\ activities db' = activities db
  /\ others db' = others db.
Proof.
  unfold createExpense_transaction, Expense_create, bind at 1, bind at 1, lift.
  destruct (Expense_validate _) as [[]|x]; [|discriminate].
  match goal with
  | |- context [upd_expenses (insert ?k ?row) db] => set (created := row); set (key := k)
  end.
  unfold bind.
  destruct (createItems itemsData u created _) as [db1 [its|x]] eqn:Ei; [|discriminate].
  destruct (createAttachedFiles _ _ u db1) as [db2 [fs|x]] eqn:Ef; [|discriminate].
  intros [= <- <-].
  destruct (createItems_tables _ _ _ _ _ _ Ei) as (I1 & I2 & I3 & I4 & I5).
  destruct (createAttachedFiles_tables _ _ _ _ _ _ Ef) as (F1 & F2 & F3 & F4 & F5).
  pose proof (createItems_made _ _ _ _ _ _ Ei) as Mi.
  pose proof (createAttachedFiles_made _ _ _ _ _ _ Ef) as Mf.
  simpl in I1, I2, I3, I4, I5.
  repeat split; simpl.
  - exists created. rewrite F1, I1. repeat split; assumption.
  - rewrite F2, (I5 its eq_refl). reflexivity.
  - rewrite (F5 fs eq_refl), I2. reflexivity.
  - rewrite F3, I3. reflexivity.
  - rewrite F4, I4. reflexivity.
Qed.

Lemma set_others_others (db : DB Others) : set_others (others db) db = db.
Proof. now destruct db. Qed.

(** [createExpense] either fails before its transaction has committed, and
    then the database is what it was but for what the payee's resolution
    wrote, or it has run its transaction to the end; the activity comes
    after the commit. *)
Lemma createExpense_cases (remoteUser : option User) (expenseData : ExpenseData)
    (db : DB Others) :
  let out := createExpense remoteUser expenseData db in
  (exists x o, out = (set_others o db, Err x))
  \/ (exists u c currency_ payee o db' e,
        remoteUser = Some u
        /\ checkExpenseItems (ed_type expenseData) (ed_items expenseData)
             (default [] (ed_tax expenseData)) = Ok tt
        /\ createExpense_transaction u expenseData c currency_ payee
             (default [] (ed_items expenseData)) (default [] (ed_tax expenseData))
             (set_others o db) = (db', Ok e)
        /\ out
           = match Expense_activityData (set_collective (Some c) (set_user (Some u) e))
                     COLLECTIVE_EXPENSE_CREATED u with
             | Ok _ =>
                 (add_activity {| act_type := COLLECTIVE_EXPENSE_CREATED;
                                  act_ExpenseId := id e; act_UserId := u_id u |} db',
                  Ok (set_collective (Some c) (set_user (Some u) e)))
             | Err x => (db', Err x)
             end).
Proof.
  cbv zeta. unfold createExpense.
  pose proof (set_others_others db) as Hdb.
  assert (F : forall x, exists (y : error) o,
                (db, Err x : result Expense) = (set_others o db, Err y))
    by (intros x; exists x, (others db); now rewrite Hdb).
  destruct remoteUser as [u|]; [|left; apply F].
  destruct (negb (canUseFeature (Some u) USE_EXPENSES)); [left; apply F|].
  destruct (collectiveIdOf expenseData) as [[ref cid]|]; [|left; apply F].
  destruct (Collective_findByPk cid) as [c|]; [|left; apply F].
  match goal with
  | |- context [if ?b then throw (JsError _) else _] =>
      destruct b; [left; apply F|]
  end.
  unfold bind, lift, onOthers, sequelize_transaction, createActivity, ret, throw.
  destruct (checkTaxes _ _ _ _) as [[]|x]; cbv beta iota; [|left; apply F].
  destruct (checkExpenseItems _ _ _) as [[]|x] eqn:Hitems; cbv beta iota;
    [|left; apply F].
  destruct (15 <? size_ _); cbv beta iota; [left; apply F|].
  match goal with
  | |- context [if negb ?a && negb ?b then _ else _] =>
      destruct (negb a && negb b); cbv beta iota; [left; apply F|]
  end.
  destruct (expenseCurrency expenseData c) as [cur|x]; cbv beta iota; [|left; apply F].
  destruct (resolvePayee u expenseData c (others db)) as [o [payee|x]]; cbv beta iota;
    [|left; now exists x, o].
  destruct (createExpense_transaction u expenseData c cur payee _ _ (set_others o db))
    as [db' [e|x]] eqn:Htx; cbv beta iota; [|left; now exists x, o].
  right. exists u, c, cur, payee, o, db', e.
  split; [reflexivity|]. split; [reflexivity|]. split; [exact Htx|].
  unfold bind, lift.
  now destruct (Expense_activityData _ _ _) as [[]|x].
Qed.

(** A call that fails one of the checks on the items or on the number of
    files is refused before anything is written. *)
Lemma createExpense_rejected (remoteUser : option User) (expenseData : ExpenseData)
    (db : DB Others) :
  (exists x, checkExpenseItems (ed_type expenseData) (ed_items expenseData)
               (default [] (ed_tax expenseData)) = Err x)
  \/ 15 < size_ (ed_attachedFiles expenseData) ->
  exists y, createExpense remoteUser expenseData db = (db, Err y).
Proof.
  intros Hbad. unfold createExpense.
  destruct remoteUser as [u|]; [|eexists; reflexivity].
  destruct (negb (canUseFeature (Some u) USE_EXPENSES)); [eexists; reflexivity|].
  destruct (collectiveIdOf expenseData) as [[ref cid]|]; [|eexists; reflexivity].
  destruct (Collective_findByPk cid) as [c|]; [|eexists; reflexivity].
  match goal with
  | |- context [if ?b then throw (JsError _) else _] =>
      destruct b; [eexists; reflexivity|]
  end.
  unfold bind, lift, throw.
  destruct (checkTaxes _ _ _ _) as [[]|x]; cbv beta iota; [|eexists; reflexivity].
  destruct (checkExpenseItems _ _ _) as [[]|x] eqn:Hitems; cbv beta iota;
    [|eexists; reflexivity].
  destruct Hbad as [[x [=]]|Hfiles].
  apply Z.ltb_lt in Hfiles. rewrite Hfiles. eexists; reflexivity.
Qed.

(** C6: [createExpense] throws [Unauthorized] when no user is logged in.
    The check of the items answers [ValidationFailed] with "Your expense
    needs to have at least one item" to a missing or empty list, with
    "Expenses cannot have more than 300 items" to a longer list and with
    "The sum of all items must be above 0" to a rounded total of 0; a call
    whose items fail the check, or with more than 15 attached files, never
    succeeds and writes nothing, and for a user allowed to use expenses, on
    an existing collective that takes the submission and whose taxes pass,
    its error is the [ValidationFailed] of the check.  The expense of a
    successful call is PENDING and its amount is the rounded sum of the
    items with their taxes. *)
Theorem createExpense_validation (remoteUser : option User) (expenseData : ExpenseData)
    (db : DB Others) :
  let out := createExpense remoteUser expenseData db in
  let type_ := ed_type expenseData in
  let items_ := ed_items expenseData in
  let taxes_ := default [] (ed_tax expenseData) in
  (remoteUser = None ->
   out = (db, Err (Unauthorized "You need to be logged in to create an expense")))
  /\ (items_ = None \/ items_ = Some [] ->
      checkExpenseItems type_ items_ taxes_
      = Err (ValidationFailed "Your expense needs to have at least one item"))
  /\ (forall l, items_ = Some l -> (300 < length l)%nat ->
      checkExpenseItems type_ items_ taxes_
      = Err (ValidationFailed "Expenses cannot have more than 300 items"))
  /\ (forall l, items_ = Some l -> l <> [] -> (length l <= 300)%nat ->
      computeTotalAmountForExpense l taxes_ = 0 ->
      checkExpenseItems type_ items_ taxes_
      = Err (ValidationFailed "The sum of all items must be above 0"))
  /\ ((exists x, checkExpenseItems type_ items_ taxes_ = Err x)
       \/ 15 < size_ (ed_attachedFiles expenseData) ->
      isOk (snd out) = false /\ fst out = db)
  /\ (forall u ref cid c,
        remoteUser = Some u ->
        canUseFeature (Some u) USE_EXPENSES = true ->
        collectiveIdOf expenseData = Some (ref, cid) ->
        Collective_findByPk cid = Some c ->
        disablePublicExpenseSubmission ref
          && negb (rolesByCollectiveId u (c_id c))
          && negb (isAdminOfCollectiveOrHost u c) && negb (isRoot u) = false ->
        checkTaxes c (c_host c) type_ taxes_ = Ok tt ->
        (forall x, checkExpenseItems type_ items_ taxes_ = Err x -> out = (db, Err x))
        /\ (checkExpenseItems type_ items_ taxes_ = Ok tt ->
            15 < size_ (ed_attachedFiles expenseData) ->
            out = (db, Err (ValidationFailed
                     "The number of files that you can attach to an expense is limited to 15"))))
  /\ (forall e, snd out = Ok e ->
      status e = PENDING
      /\ amount e = computeTotalAmountForExpense (default [] items_) taxes_).
Proof.
  cbv zeta. split; [|split; [|split; [|split; [|split; [|split]]]]].
  - intros ->. reflexivity.
  - intros [->| ->]; reflexivity.
  - intros l -> Hlen. unfold checkExpenseItems.
    destruct l as [|i l]; [simpl in Hlen; lia|].
    assert (E : (300 <? Z.of_nat (length (i :: l))) = true) by (apply Z.ltb_lt; lia).
    now rewrite E.
  - intros l -> Hne Hlen Hsum. unfold checkExpenseItems.
    destruct l as [|i l]; [contradiction|].
    assert (E : (300 <? Z.of_nat (length (i :: l))) = false) by (apply Z.ltb_ge; lia).
    rewrite E, Hsum. reflexivity.
  - intros Hbad.
    destruct (createExpense_rejected remoteUser expenseData db Hbad) as [y E].
    rewrite E. split; reflexivity.
  - intros u ref cid c -> Hf Hc Hfind Hmember Htaxes. unfold createExpense.
    rewrite Hf, Hc, Hfind, Hmember. cbn [negb].
    unfold bind, lift, throw. rewrite Htaxes. cbv beta iota. split.
    + intros x ->. reflexivity.
    + intros -> Hfiles. apply Z.ltb_lt in Hfiles. now rewrite Hfiles.
  - intros e He.
    destruct (createExpense_cases remoteUser expenseData db)
      as [(x & o & Hx)|(u & c & cur & payee & o & db' & e0 & _ & _ & Htx & Hout)].
    + rewrite Hx in He. discriminate.
    + rewrite Hout in He.
      destruct (Expense_activityData _ _ _); [|discriminate].
      simpl in He. injection He as <-.
      destruct (createExpense_transaction_ok _ _ _ _ _ _ _ _ _ _ Htx) as (Hs & Ha & _).
      split; assumption.
Qed.


End CreateExpenseProps.


Lemma createExpense_validation_witness :
  (exists e,
     snd (@createExpense unit demoImports (Some demoAdmin)
            (demoExpenseData (Some [demoItem 1000; demoItem 2500]) None) (demoDB []))
     = Ok e
     /\ status e = PENDING /\ amount e = 3500)
  /\ exists e,
       snd (@createExpense unit demoImports (Some demoAdmin)
              (demoTaxedExpenseData [demoItem 339; demoItem 11]) (demoDB []))
       = Ok e
       /\ status e = PENDING /\ amount e = 416.
Proof.
  split.
  - pose proof (@createExpense_validation unit demoImports (Some demoAdmin)
                  (demoExpenseData (Some [demoItem 1000; demoItem 2500]) None)
                  (demoDB [])) as H.
    cbv zeta in H. destruct H as (_ & _ & _ & _ & _ & _ & Hok).
    destruct (snd (@createExpense unit demoImports (Some demoAdmin)
                     (demoExpenseData (Some [demoItem 1000; demoItem 2500]) None)
                     (demoDB []))) as [e|x] eqn:E.
    + exists e. split; [reflexivity|].
      destruct (Hok e eq_refl) as [Hs Ha]. split; [exact Hs|].
      rewrite Ha. vm_compute. reflexivity.
    + exfalso. vm_compute in E. discriminate E.
  - pose proof (@createExpense_validation unit demoImports (Some demoAdmin)
                  (demoTaxedExpenseData [demoItem 339; demoItem 11]) (demoDB [])) as H.
    cbv zeta in H. destruct H as (_ & _ & _ & _ & _ & _ & Hok).
    destruct (snd (@createExpense unit demoImports (Some demoAdmin)
                     (demoTaxedExpenseData [demoItem 339; demoItem 11]) (demoDB [])))
      as [e|x] eqn:E.
    + exists e. split; [reflexivity|].
      destruct (Hok e eq_refl) as [Hs Ha]. split; [exact Hs|].
      rewrite Ha. vm_compute. reflexivity.
    + exfalso. vm_compute in E. discriminate E.
Defined.

Example createExpense_no_items :
  @createExpense unit demoImports (Some demoAdmin) (demoExpenseData None None) (demoDB [])
  = (demoDB [], Err (ValidationFailed "Your expense needs to have at least one item")).
Proof. vm_compute. reflexivity. Qed.

Example createExpense_too_many_files :
  snd (@createExpense unit demoImports (Some demoAdmin)
         (demoExpenseData (Some [demoItem 1000]) (Some (repeat (Some "f") 16)))
         (demoDB []))
  = Err (ValidationFailed
           "The number of files that you can attach to an expense is limited to 15").
Proof. vm_compute. reflexivity. Qed.

Example createExpense_zero_total :
  snd (@createExpense unit demoImports (Some demoAdmin)
         (demoExpenseData (Some [demoItem 1000; demoItem (-1000)]) None) (demoDB []))
  = Err (ValidationFailed "The sum of all items must be above 0").
Proof. vm_compute. reflexivity. Qed.


(** When the activity cannot be created, the call fails after the commit:
    the expense and its item are in the database. *)
Example createExpense_fails_after_commit :
  let out := @createExpense unit (demoImportsWith (Err (JsError "No activity")))
               (Some demoAdmin) (demoExpenseData (Some [demoItem 1000]) None)
               (demoDB [demoExpense 5 PAID]) in
  snd out = Err (JsError "No activity")
  /\ status <$> (expenses (fst out) !! 6) = Some PENDING
  /\ length (expenseItems (fst out)) = 1%nat
  /\ activities (fst out) = [].
Proof. vm_compute. repeat split; reflexivity. Qed.

(** Without the transaction around it, the same body leaves the expense
    row and the first item behind. *)
Example createExpense_transaction_partial_writes :
  let db := demoDB [demoExpense 5 PAID] in
  let out := @createExpense_transaction unit demoImports demoAdmin
               (demoExpenseData (Some [demoItem 1000; demoItem (-400)]) None)
               demoCollective "USD"
               {| rp_payeeLocation := None; rp_fromCollective := demoCollective;
                  rp_payoutMethod := None; rp_recipient := None |}
               [demoItem 1000; demoItem (-400)] [] db in
  snd out = Err (ValidationFailed "Validation error")
  /\ status <$> (expenses (fst out) !! 6) = Some PENDING
  /\ length (expenseItems (fst out)) = 1%nat.
Proof. vm_compute. repeat split; reflexivity. Qed.


(** *** Account holder name against legal name *)

Section NameMatchProps.
Context {collator : Collator}.
Local Open Scope list_scope.

(** The collator's "equal" is an equivalence: it compares collation keys. *)
Hypothesis localeCompare_sym : forall a b, collates a b -> collates b a.
Hypothesis localeCompare_trans : forall a b c, collates a b -> collates b c -> collates a c.





















Lemma localeCompare_zero (a b : JsString) :
  truthyZ (localeCompare a b) = false <-> collates a b.
Proof.
  unfold truthyZ, collates. rewrite negb_false_iff. apply Z.eqb_eq.
Qed.

(** The result in terms of the two comparisons. *)
Lemma match_iff (accountHolderName legalName : JsString) :
  isAccountHolderNameAndLegalNameMatch accountHolderName legalName = true
  <-> collates (remove501c3 accountHolderName) (remove501c3 legalName)
      \/ collates (remove501c3 accountHolderName)
           (toString
              match split_space (trim (remove501c3 legalName)) with
              | [firstName; lastName] => Some (lastName ++ (space :: firstName))
              | _ => None
              end).
Proof.
  unfold isAccountHolderNameAndLegalNameMatch.
  rewrite negb_true_iff, andb_false_iff, !localeCompare_zero. reflexivity.
Qed.




(** Where the collator finds the two names equal, they match: the second
    case of the comment above the function. *)
Example match_ignores_accents :
  collates (lit "Fran" ++ [231%N] ++ lit "ois") (lit "Francois") ->
  isAccountHolderNameAndLegalNameMatch (lit "Fran" ++ [231%N] ++ lit "ois") (lit "Francois")
  = true.
Proof. intros H. apply match_iff. left. exact H. Qed.
End NameMatchProps.



Section AsciiNames.
#[local] Existing Instance asciiCollator.
Local Open Scope list_scope.





(** The first case of the comment above the function. *)
Example match_ignores_punctuation :
  isAccountHolderNameAndLegalNameMatch (lit "Evil Corp, Inc") (lit "Evil Corp, Inc.") = true.
Proof. vm_compute. reflexivity. Qed.

Example match_three_words_not_reversed :
  isAccountHolderNameAndLegalNameMatch (lit "Smith John") (lit "John - Smith") = false
  /\ isAccountHolderNameAndLegalNameMatch (lit "Smith John") (lit "John Smith") = true.
Proof. vm_compute. split; reflexivity. Qed.

(** For a legal name that is not two parts there is no reversed name, and
    the second comparison is made against the text "undefined". *)
Example match_against_undefined :
  isAccountHolderNameAndLegalNameMatch (lit "undefined") (lit "John") = true
  /\ ~ collates (lit "undefined") (lit "John").
Proof. vm_compute. split; [reflexivity|discriminate]. Qed.

(** A "501(c)(3)" put into a name that has one already may leave one
    behind: the text is removed in one pass. *)
Example match_501c3_inside_501c3 :
  isAccountHolderNameAndLegalNameMatch (lit "501(c)(3)") (lit "") = true
  /\ remove501c3 (lit "501(c)(501(c)(3)3)") = lit "501(c)(3)"
  /\ isAccountHolderNameAndLegalNameMatch (lit "501(c)(501(c)(3)3)") (lit "") = false.
Proof. vm_compute. repeat split; reflexivity. Qed.
End AsciiNames.


Section EvaluatorsProps.
Context {Others : Type} {imports : Imports Others}.

Lemma loadedFrom_refl (req : Request) (e : Expense) : loadedFrom req e e.
Proof. exists (collective e), (fromCollective e). destruct e; simpl; auto. Qed.

Lemma theCollective_loaded (req : Request) (e e' : Expense) :
  loadedFrom req e e' -> theCollective req e' = theCollective req e.
Proof.
  intros (c' & f' & -> & [->| ->] & _); unfold theCollective; simpl; [reflexivity|].
  destruct (collective e); [reflexivity|].
  now destruct (Collective_byId_load req (CollectiveId e)).
Qed.

Lemma thePayee_loaded (req : Request) (e e' : Expense) :
  loadedFrom req e e' -> thePayee req e' = thePayee req e.
Proof.
  intros (c' & f' & -> & _ & [->| ->]); unfold thePayee; simpl; [reflexivity|].
  destruct (fromCollective e); [reflexivity|].
  now destruct (Collective_byId_load req (FromCollectiveId e)).
Qed.

Lemma loadedFrom_columns (req : Request) (e e' : Expense) :
  loadedFrom req e e' ->
  id e' = id e /\ status e' = status e /\ type e' = type e /\ UserId e' = UserId e
  /\ CollectiveId e' = CollectiveId e /\ FromCollectiveId e' = FromCollectiveId e.
Proof. intros (c' & f' & -> & _). simpl. tauto. Qed.

Lemma loadedFrom_trans (req : Request) (e1 e2 e3 : Expense) :
  loadedFrom req e1 e2 -> loadedFrom req e2 e3 -> loadedFrom req e1 e3.
Proof.
  intros H12 H23.
  pose proof (theCollective_loaded _ _ _ H12) as Hc.
  pose proof (thePayee_loaded _ _ _ H12) as Hf.
  destruct H12 as (c2 & f2 & -> & Hc2 & Hf2).
  destruct H23 as (c3 & f3 & -> & Hc3 & Hf3).
  exists c3, f3. split; [reflexivity|]. simpl in Hc3, Hf3.
  rewrite Hc in Hc3. rewrite Hf in Hf3.
  split.
  - destruct Hc3 as [->|Hc3]; [exact Hc2|now right].
  - destruct Hf3 as [->|Hf3]; [exact Hf2|now right].
Qed.

Lemma loadCollective_loaded (req : Request) (e : Expense) :
  loadedFrom req e (loadCollective req e)
  /\ collective (loadCollective req e) = theCollective req e.
Proof.
  unfold loadCollective, theCollective.
  destruct (collective e) eqn:E.
  - split; [apply loadedFrom_refl|exact E].
  - split; [|reflexivity].
    exists (Collective_byId_load req (CollectiveId e)), (fromCollective e).
    split; [destruct e; reflexivity|]. split; [right|left; reflexivity].
    unfold theCollective. now rewrite E.
Qed.

(** The roles do not depend on what has been loaded. *)
Lemma owns_loaded (u : User) (req : Request) (e e' : Expense) :
  loadedFrom req e e' -> owns u req e' = owns u req e.
Proof.
  intros H. unfold owns. rewrite (thePayee_loaded _ _ _ H).
  now destruct (loadedFrom_columns _ _ _ H) as (_ & _ & _ & -> & _).
Qed.

Lemma adminsCollective_loaded (u : User) (req : Request) (e e' : Expense) :
  loadedFrom req e e' -> adminsCollective u req e' = adminsCollective u req e.
Proof. intros H. unfold adminsCollective. now rewrite (theCollective_loaded _ _ _ H). Qed.

Lemma adminsHost_loaded (u : User) (req : Request) (e e' : Expense) :
  loadedFrom req e e' -> adminsHost u req e' = adminsHost u req e.
Proof. intros H. unfold adminsHost. now rewrite (theCollective_loaded _ _ _ H). Qed.

Lemma keepsAccounts_loaded (u : User) (req : Request) (e e' : Expense) :
  loadedFrom req e e' -> keepsAccounts u req e' = keepsAccounts u req e.
Proof.
  intros H. unfold keepsAccounts.
  now destruct (loadedFrom_columns _ _ _ H) as (_ & _ & _ & _ & -> & _).
Qed.

(** Each condition computes its role. *)
Lemma isOwner_role (req : Request) (u : User) (e : Expense) :
  remoteUser req = Some u ->
  exists e', isOwner req e = Ok (e', owns u req e) /\ loadedFrom req e e'.
Proof.
  intros Hu. unfold isOwner, owns, thePayee. rewrite Hu.
  destruct (u_id u =? UserId e).
  - exists e. split; [reflexivity|apply loadedFrom_refl].
  - simpl. destruct (fromCollective e) eqn:E.
    + exists e. split; [reflexivity|apply loadedFrom_refl].
    + simpl.
      assert (L : loadedFrom req e
                    (set_fromCollective (Collective_byId_load req (FromCollectiveId e)) e)).
      { exists (collective e), (Collective_byId_load req (FromCollectiveId e)).
        split; [destruct e; reflexivity|]. split; [now left|right].
        unfold thePayee. now rewrite E. }
      destruct (Collective_byId_load req (FromCollectiveId e)) eqn:El;
        eexists; (split; [reflexivity|exact L]).
Qed.

Lemma isCollectiveAdmin_role (req : Request) (u : User) (e : Expense) :
  remoteUser req = Some u ->
  exists e', isCollectiveAdmin req e = Ok (e', adminsCollective u req e)
             /\ loadedFrom req e e'.
Proof.
  intros Hu. unfold isCollectiveAdmin, adminsCollective. rewrite Hu.
  destruct (loadCollective_loaded req e) as [L E].
  exists (loadCollective req e). cbv zeta. rewrite E. split; [reflexivity|exact L].
Qed.

Lemma isHostAdmin_role (req : Request) (u : User) (e : Expense) :
  remoteUser req = Some u ->
  exists e', isHostAdmin req e = Ok (e', adminsHost u req e) /\ loadedFrom req e e'.
Proof.
  intros Hu. unfold isHostAdmin, adminsHost. rewrite Hu.
  destruct (loadCollective_loaded req e) as [L E].
  exists (loadCollective req e). cbv zeta. rewrite E.
  destruct (theCollective req e); (split; [reflexivity|exact L]).
Qed.

Lemma isCollectiveAccountant_role (req : Request) (u : User) (e : Expense) :
  remoteUser req = Some u ->
  exists e', isCollectiveAccountant req e = Ok (e', keepsAccounts u req e)
             /\ loadedFrom req e e'.
Proof.
  intros Hu. unfold isCollectiveAccountant, keepsAccounts. rewrite Hu.
  exists e. split; [|apply loadedFrom_refl].
  destruct (hasRole u ACCOUNTANT (Some (CollectiveId e))); [reflexivity|]. simpl.
  destruct (Collective_byId_load req (CollectiveId e)) as [c|]; [|reflexivity].
  destruct (hasRole u ACCOUNTANT (HostCollectiveId c)); [reflexivity|]. simpl.
  destruct (ParentCollectiveId c) as [p|]; [|reflexivity].
  now destruct (truthyZ p).
Qed.

(** The loop stops at the first role that the user holds. *)
Lemma firstConditionMet_roles (req : Request) (u : User)
    (conditions : list Condition) (roles_ : list (User -> Request -> Expense -> bool)) :
  Forall2 (fun condition role =>
             (forall e, exists e', condition req e = Ok (e', role u req e)
                                   /\ loadedFrom req e e')
             /\ (forall e e', loadedFrom req e e' -> role u req e' = role u req e))
          conditions roles_ ->
  forall e0 e, loadedFrom req e0 e ->
  exists e',
    firstConditionMet req conditions e
    = Ok (e', existsb (fun role => role u req e0) roles_)
    /\ loadedFrom req e0 e'.
Proof.
  induction 1 as [|condition role conditions roles_ [Hc Hs] _ IH]; intros e0 e L; simpl.
  - exists e. split; [reflexivity|exact L].
  - destruct (Hc e) as (e1 & -> & L1). rewrite (Hs e0 e L).
    pose proof (loadedFrom_trans _ _ _ _ L L1) as L01.
    destruct (role u req e0) eqn:R.
    + exists e1. split; [reflexivity|exact L01].
    + destruct (IH e0 e1 L01) as (e2 & -> & L2). exists e2.
      split; [reflexivity|exact L2].
Qed.

(** The verdict of [remoteUserMeetsOneCondition] on conditions that compute
    roles: the user holds one of them. *)
Lemma remoteUserMeetsOneCondition_roles (req : Request)
    (conditions : list Condition) (roles_ : list (User -> Request -> Expense -> bool)) :
  (forall u, remoteUser req = Some u ->
     Forall2 (fun condition role =>
                (forall e, exists e', condition req e = Ok (e', role u req e)
                                      /\ loadedFrom req e e')
                /\ (forall e e', loadedFrom req e e' -> role u req e' = role u req e))
             conditions roles_) ->
  forall e0 e throw_, loadedFrom req e0 e ->
  exists e',
    loadedFrom req e0 e'
    /\ remoteUserMeetsOneCondition req e conditions throw_
       = if holdsOneOf roles_ req e0 then Ok (e', true)
         else if throw_
              then Err (Unauthorized
                          (match remoteUser req with
                           | None => "User is required"
                           | Some _ => "User does not meet minimal condition"
                           end))
              else Ok (e', false).
Proof.
  intros H e0 e throw_ L. unfold remoteUserMeetsOneCondition, holdsOneOf.
  destruct (remoteUser req) as [u|].
  - destruct (firstConditionMet_roles req u _ _ (H u eq_refl) e0 e L) as (e' & -> & L').
    exists e'. split; [exact L'|].
    now destruct (existsb _ roles_); destruct throw_.
  - exists e. split; [exact L|]. now destruct throw_.
Qed.

(** The lists of conditions that the evaluators use. *)
Ltac roles_of_conditions :=
  intros ? ?;
  repeat (constructor;
          [split;
           [intros ?; first [now apply isOwner_role | now apply isCollectiveAdmin_role
                            | now apply isHostAdmin_role
                            | now apply isCollectiveAccountant_role]
           |first [apply owns_loaded | apply adminsCollective_loaded
                  | apply adminsHost_loaded | apply keepsAccounts_loaded]]|]);
  constructor.


(** A granted request holds one of the roles of the conditions. *)
Lemma remoteUserMeetsOneCondition_granted (req : Request)
    (conditions : list Condition) (roles_ : list (User -> Request -> Expense -> bool))
    (e0 e e' : Expense) (throw_ : bool) :
  (forall u, remoteUser req = Some u ->
     Forall2 (fun condition role =>
                (forall e, exists e', condition req e = Ok (e', role u req e)
                                      /\ loadedFrom req e e')
                /\ (forall e e', loadedFrom req e e' -> role u req e' = role u req e))
             conditions roles_) ->
  loadedFrom req e0 e ->
  remoteUserMeetsOneCondition req e conditions throw_ = Ok (e', true) ->
  holdsOneOf roles_ req e0 = true.
Proof.
  intros H L E.
  destruct (remoteUserMeetsOneCondition_roles req _ _ H e0 e throw_ L) as (e1 & _ & E1).
  rewrite E in E1. destruct (holdsOneOf roles_ req e0); [reflexivity|].
  destruct throw_; discriminate E1.
Qed.

Lemma holdsOneOf_incl (roles1 roles2 : list (User -> Request -> Expense -> bool))
    (req : Request) (e : Expense) :
  incl roles1 roles2 ->
  holdsOneOf roles1 req e = true -> holdsOneOf roles2 req e = true.
Proof.
  unfold holdsOneOf. intros I. destruct (remoteUser req) as [u|]; [|discriminate].
  rewrite !existsb_exists. intros (role & Hin & Hr). exists role. split; [|exact Hr].
  now apply I.
Qed.

Lemma viewers_verdict (req : Request) (e : Expense) (throw_ : bool) :
  exists e',
    loadedFrom req e e'
    /\ remoteUserMeetsOneCondition req e
         [isOwner; isCollectiveAdmin; isCollectiveAccountant; isHostAdmin] throw_
       = if holdsOneOf [owns; adminsCollective; keepsAccounts; adminsHost] req e
         then Ok (e', true)
         else if throw_
              then Err (Unauthorized
                          (match remoteUser req with
                           | None => "User is required"
                           | Some _ => "User does not meet minimal condition"
                           end))
              else Ok (e', false).
Proof.
  exact (remoteUserMeetsOneCondition_roles req
           [isOwner; isCollectiveAdmin; isCollectiveAccountant; isHostAdmin]
           [owns; adminsCollective; keepsAccounts; adminsHost]
           ltac:(roles_of_conditions) e e throw_ (loadedFrom_refl req e)).
Qed.

(** X2: The five evaluators that guard what a user sees of an expense try the
    same four conditions, one of them in another order, and only load
    associations on the instance.  Four of them take no options: whatever
    [throw] they are called with, they do not throw and they grant exactly
    the requests of a user who owns the expense, administers or keeps the
    accounts of its collective, or administers its host.
    [canSeeExpenseInvoiceInfo] passes its options on: it grants the same
    requests, and a request that it does not grant is answered with false
    without [throw] and with [Unauthorized] with it. *)
Theorem viewers_agree (req : Request) (e : Expense) (throw_ : bool) :
  let granted := holdsOneOf [owns; adminsCollective; keepsAccounts; adminsHost] req e in
  Forall (fun ev : ExpensePermissionEvaluator =>
            exists e', loadedFrom req e e' /\ ev req e throw_ = Ok (e', granted))
    [canSeeExpenseAttachments; canSeeExpensePayoutMethod;
     canSeeExpensePayeeLocation; canViewRequiredLegalDocuments]
  /\ exists e',
       loadedFrom req e e'
       /\ canSeeExpenseInvoiceInfo req e throw_
          = if granted then Ok (e', true)
            else if throw_
                 then Err (Unauthorized
                             (match remoteUser req with
                              | None => "User is required"
                              | Some _ => "User does not meet minimal condition"
                              end))
                 else Ok (e', false).
Proof.
  intros granted. subst granted. split; [|exact (viewers_verdict req e throw_)].
  assert (V : exists e',
            loadedFrom req e e'
            /\ remoteUserMeetsOneCondition req e
                 [isOwner; isCollectiveAdmin; isCollectiveAccountant; isHostAdmin] false
               = Ok (e', holdsOneOf [owns; adminsCollective; keepsAccounts; adminsHost]
                           req e)).
  { destruct (viewers_verdict req e false) as (e' & L & E).
    exists e'. split; [exact L|]. rewrite E. now destruct (holdsOneOf _ req e). }
  repeat (apply List.Forall_cons; [exact V|]).
  apply List.Forall_cons; [|apply List.Forall_nil].
  destruct (remoteUserMeetsOneCondition_roles req
              [isHostAdmin; isCollectiveAdmin; isCollectiveAccountant; isOwner]
              [adminsHost; adminsCollective; keepsAccounts; owns]
              ltac:(roles_of_conditions) e e false (loadedFrom_refl req e))
    as (e' & L & E).
  exists e'. split; [exact L|]. unfold canViewRequiredLegalDocuments. rewrite E.
  unfold holdsOneOf. destruct (remoteUser req) as [u|]; [|reflexivity]. simpl.
  now destruct (adminsHost u req e), (adminsCollective u req e),
    (keepsAccounts u req e), (owns u req e).
Qed.

(** X1: No evaluator grants anything to a request without a user, whatever the
    expense and whether it is asked to throw or not; the helper they share
    answers false, or [Unauthorized] when asked to throw. *)
Theorem unauthenticated_is_never_granted (req : Request) (e : Expense) (throw_ : bool) :
  remoteUser req = None ->
  Forall (fun ev : ExpensePermissionEvaluator => forall e', ev req e throw_ <> Ok (e', true))
    evaluators
  /\ forall conditions,
       remoteUserMeetsOneCondition req e conditions false = Ok (e, false)
       /\ remoteUserMeetsOneCondition req e conditions true
          = Err (Unauthorized "User is required").
Proof.
  intros Hu. split.
  - unfold evaluators.
    repeat (apply List.Forall_cons;
            [intros e';
             unfold canSeeExpenseAttachments, canSeeExpensePayoutMethod,
               canSeeExpenseInvoiceInfo, canSeeExpensePayeeLocation,
               canVerifyDraftExpense, canUpdateExpenseStatus, canEditExpense,
               canEditExpenseTags, canDeleteExpense, canPayExpense, canApprove,
               canReject, canMarkAsSpam, canUnapprove, canMarkAsUnpaid, canComment,
               canViewRequiredLegalDocuments, canUnschedulePayment,
               remoteUserMeetsOneCondition, deny, hasAdminRole;
             rewrite ?Hu, ?andb_false_r; cbv zeta;
             repeat case_match; congruence|]).
    apply List.Forall_nil.
  - intros conditions. unfold remoteUserMeetsOneCondition. now rewrite Hu.
Qed.

(** The verdict of the evaluators that the actions below consult. *)
Ltac by_roles req e roles_ :=
  let e' := fresh "e'" in
  let L := fresh "L" in
  let E := fresh "E" in
  destruct (remoteUserMeetsOneCondition_roles req _ roles_
              ltac:(roles_of_conditions) e e false (loadedFrom_refl req e))
    as (e' & L & E);
  exists e'; split; [exact L|]; rewrite E;
  now destruct (holdsOneOf roles_ req e).

Lemma canDeleteExpense_verdict (req : Request) (e : Expense) :
  exists e',
    loadedFrom req e e'
    /\ canDeleteExpense req e false
       = Ok (e', includes [REJECTED; DRAFT; SPAM; CANCELED] (status e)
                 && canUseFeature (remoteUser req) USE_EXPENSES
                 && holdsOneOf [owns; adminsCollective; adminsHost] req e).
Proof.
  unfold canDeleteExpense, deny.
  destruct (includes _ (status e)); simpl;
    [|exists e; split; [apply loadedFrom_refl|reflexivity]].
  destruct (canUseFeature (remoteUser req) USE_EXPENSES); simpl;
    [|exists e; split; [apply loadedFrom_refl|reflexivity]].
  by_roles req e [owns; adminsCollective; adminsHost].
Qed.

Lemma canPayExpense_verdict (req : Request) (e : Expense) :
  exists e',
    loadedFrom req e e'
    /\ canPayExpense req e false
       = Ok (e', includes [APPROVED; ERROR] (status e)
                 && canUseFeature (remoteUser req) USE_EXPENSES
                 && holdsOneOf [adminsHost] req e).
Proof.
  unfold canPayExpense, deny.
  destruct (includes _ (status e)); simpl;
    [|exists e; split; [apply loadedFrom_refl|reflexivity]].
  destruct (canUseFeature (remoteUser req) USE_EXPENSES); simpl;
    [|exists e; split; [apply loadedFrom_refl|reflexivity]].
  by_roles req e [adminsHost].
Qed.

Lemma canMarkAsUnpaid_verdict (req : Request) (e : Expense) :
  exists e',
    loadedFrom req e e'
    /\ canMarkAsUnpaid req e false
       = Ok (e', bool_decide (status e = PAID)
                 && canUseFeature (remoteUser req) USE_EXPENSES
                 && holdsOneOf [adminsHost] req e).
Proof.
  unfold canMarkAsUnpaid, deny.
  destruct (bool_decide (status e = PAID)); simpl;
    [|exists e; split; [apply loadedFrom_refl|reflexivity]].
  destruct (canUseFeature (remoteUser req) USE_EXPENSES); simpl;
    [|exists e; split; [apply loadedFrom_refl|reflexivity]].
  by_roles req e [adminsHost].
Qed.

Lemma canUnschedulePayment_verdict (req : Request) (e : Expense) :
  exists e',
    loadedFrom req e e'
    /\ canUnschedulePayment req e false
       = Ok (e', bool_decide (status e = SCHEDULED_FOR_PAYMENT)
                 && holdsOneOf [adminsHost] req e).
Proof.
  unfold canUnschedulePayment, deny.
  destruct (bool_decide (status e = SCHEDULED_FOR_PAYMENT)); simpl;
    [|exists e; split; [apply loadedFrom_refl|reflexivity]].
  by_roles req e [adminsHost].
Qed.

Lemma canEditExpenseTags_verdict (req : Request) (e : Expense) :
  exists e',
    loadedFrom req e e'
    /\ canEditExpenseTags req e false
       = Ok (e', canUseFeature (remoteUser req) USE_EXPENSES
                 && if bool_decide (status e = PAID)
                    then holdsOneOf [adminsHost; adminsCollective] req e
                    else holdsOneOf [owns; adminsHost; adminsCollective] req e).
Proof.
  unfold canEditExpenseTags, deny.
  destruct (canUseFeature (remoteUser req) USE_EXPENSES); simpl;
    [|exists e; split; [apply loadedFrom_refl|reflexivity]].
  destruct (bool_decide (status e = PAID)).
  - by_roles req e [adminsHost; adminsCollective].
  - by_roles req e [owns; adminsHost; adminsCollective].
Qed.

(** X3: [canEditExpense] by status.  An expense that is PROCESSING, DRAFT,
    SCHEDULED_FOR_PAYMENT or CANCELED is edited by nobody; a PAID one only
    when it is a card charge and the user has the ADMIN role on its
    collective; in every other status (SPAM included) the user must be
    allowed to use expenses and own the expense, administer its host or
    administer its collective. *)
Theorem canEditExpense_by_status (req : Request) (e : Expense) :
  (status e ∈ [PROCESSING; DRAFT; SCHEDULED_FOR_PAYMENT; CANCELED] ->
   canEditExpense req e false = Ok (e, false)
   /\ canEditExpense req e true
      = Err (Forbidden "Can not edit expense in current status"))
  /\ (status e = PAID ->
      canEditExpense req e false
      = Ok (e, bool_decide (type e = Some CHARGE) && hasAdminRole req e)
      /\ canEditExpense req e true
         = if bool_decide (type e = Some CHARGE) && hasAdminRole req e
           then Ok (e, true)
           else Err (Forbidden "Can not edit expense in current status"))
  /\ (status e ∉ [PAID; PROCESSING; DRAFT; SCHEDULED_FOR_PAYMENT; CANCELED] ->
      exists e',
        loadedFrom req e e'
        /\ canEditExpense req e false
           = Ok (e', canUseFeature (remoteUser req) USE_EXPENSES
                     && holdsOneOf [owns; adminsHost; adminsCollective] req e)).
Proof.
  split; [|split].
  - intros Hs. unfold canEditExpense, deny. cbv zeta.
    assert (Hp : bool_decide (status e = PAID) = false).
    { apply bool_decide_eq_false. intros E. rewrite E in Hs.
      rewrite !elem_of_cons, elem_of_nil in Hs. intuition discriminate. }
    assert (Hi : includes [PAID; PROCESSING; DRAFT; SCHEDULED_FOR_PAYMENT; CANCELED]
                   (status e) = true).
    { apply bool_decide_eq_true. rewrite elem_of_cons. now right. }
    rewrite Hp, andb_false_r, Hi. simpl. split; reflexivity.
  - intros Hs. unfold canEditExpense, deny. cbv zeta.
    rewrite Hs. rewrite (bool_decide_eq_true_2 (PAID = PAID) eq_refl), andb_true_r.
    destruct (bool_decide (type e = Some CHARGE) && hasAdminRole req e);
      split; reflexivity.
  - intros Hs. unfold canEditExpense, deny. cbv zeta.
    assert (Hp : bool_decide (status e = PAID) = false).
    { apply bool_decide_eq_false. intros E. apply Hs. rewrite E.
      apply elem_of_cons. now left. }
    rewrite Hp, andb_false_r. simpl.
    unfold includes. rewrite (bool_decide_eq_false_2 _ Hs).
    destruct (canUseFeature (remoteUser req) USE_EXPENSES); simpl;
      [|exists e; split; [apply loadedFrom_refl|reflexivity]].
    by_roles req e [owns; adminsHost; adminsCollective].
Qed.

(** A user who holds one of the roles of an evaluator can see the
    attachments. *)
Lemma roles_can_see (roles_ : list (User -> Request -> Expense -> bool))
    (req : Request) (e : Expense) :
  incl roles_ [owns; adminsCollective; keepsAccounts; adminsHost] ->
  holdsOneOf roles_ req e = true ->
  exists e', canSeeExpenseAttachments req e false = Ok (e', true).
Proof.
  intros I H. destruct (viewers_verdict req e false) as (e' & _ & E).
  exists e'. unfold canSeeExpenseAttachments. rewrite E.
  now rewrite (holdsOneOf_incl _ _ req e I H).
Qed.

(** From a grant to the role behind it. *)
Ltac role_of_grant G :=
  unfold deny in G;
  repeat match type of G with
         | (if ?b then _ else _) = _ => destruct b; try discriminate G
         end;
  eapply remoteUserMeetsOneCondition_granted in G;
  [|roles_of_conditions|first [apply loadCollective_loaded|apply loadedFrom_refl]].

(** X5: No permission without visibility: a request that an evaluator grants,
    whether to pay, approve, reject, delete, comment or anything else, is
    also allowed to see the attachments of the expense.  The two exceptions
    are the evaluators that go by the ADMIN role alone: the deprecated
    [canUpdateExpenseStatus], and [canEditExpense] on a PAID card charge. *)
Theorem granted_can_see (req : Request) (e : Expense) (throw_ : bool) :
  Forall (fun ev : ExpensePermissionEvaluator =>
            forall e', ev req e throw_ = Ok (e', true) ->
            exists e'', canSeeExpenseAttachments req e false = Ok (e'', true))
    [canSeeExpensePayoutMethod; canSeeExpenseInvoiceInfo; canSeeExpensePayeeLocation;
     canVerifyDraftExpense; canEditExpenseTags; canDeleteExpense; canPayExpense;
     canApprove; canReject; canMarkAsSpam; canUnapprove; canMarkAsUnpaid; canComment;
     canViewRequiredLegalDocuments; canUnschedulePayment]
  /\ (status e <> PAID ->
      forall e', canEditExpense req e throw_ = Ok (e', true) ->
      exists e'', canSeeExpenseAttachments req e false = Ok (e'', true)).
Proof.
  split.
  - repeat (apply List.Forall_cons;
            [intros e' G;
             unfold canSeeExpensePayoutMethod, canSeeExpenseInvoiceInfo,
               canSeeExpensePayeeLocation, canVerifyDraftExpense, canEditExpenseTags,
               canDeleteExpense, canPayExpense, canApprove, canReject, canMarkAsSpam,
               canUnapprove, canMarkAsUnpaid, canComment,
               canViewRequiredLegalDocuments, canUnschedulePayment in G;
             cbv zeta in G;
             repeat match type of G with
                    | match ?x with _ => _ end = _ =>
                        lazymatch x with
                        | remoteUserMeetsOneCondition _ _ _ _ => fail
                        | _ => destruct x eqn:?; try discriminate G
                        end
                    end;
             unfold deny in G; try (destruct throw_; discriminate G);
             (eapply remoteUserMeetsOneCondition_granted in G;
              [|roles_of_conditions
               |first [apply loadCollective_loaded|apply loadedFrom_refl]]);
             (apply (roles_can_see _ req e) in G; [exact G|]);
             unfold incl; simpl; intuition|]).
    apply List.Forall_nil.
  - intros Hs e' G. unfold canEditExpense in G. cbv zeta in G.
    rewrite (bool_decide_eq_false_2 _ Hs), andb_false_r in G. simpl in G.
    role_of_grant G.
    apply (roles_can_see _ req e) in G; [exact G|]. unfold incl; simpl; intuition.
Qed.

(** X4: [canApprove] and the EXPENSE_AUTHOR_CANNOT_APPROVE policy.  On a
    collective with the policy the author of an expense is never allowed to
    approve it, admin or not, and is told so when the evaluator throws;
    anyone else, and the author where there is no such policy, is judged on
    status, feature and role (admin of the collective or of its host).  An
    expense whose collective cannot be loaded makes the evaluator fail on a
    property read instead of denying. *)
Theorem canApprove_author_policy (req : Request) (e : Expense) :
  (forall u c,
     remoteUser req = Some u -> theCollective req e = Some c ->
     hasPolicy c EXPENSE_AUTHOR_CANNOT_APPROVE = true -> u_id u = UserId e ->
     (forall throw_ e', canApprove req e throw_ <> Ok (e', true))
     /\ (includes [PENDING; REJECTED] (status e) = true ->
         canUseFeature (Some u) USE_EXPENSES = true ->
         canApprove req e true
         = Err (Forbidden "User cannot approve their own expenses")))
  /\ (forall u c,
        remoteUser req = Some u -> theCollective req e = Some c ->
        hasPolicy c EXPENSE_AUTHOR_CANNOT_APPROVE = false \/ u_id u <> UserId e ->
        exists e',
          loadedFrom req e e'
          /\ canApprove req e false
             = Ok (e', includes [PENDING; REJECTED] (status e)
                       && canUseFeature (Some u) USE_EXPENSES
                       && holdsOneOf [adminsCollective; adminsHost] req e))
  /\ (theCollective req e = None ->
      includes [PENDING; REJECTED] (status e) = true ->
      canUseFeature (remoteUser req) USE_EXPENSES = true ->
      forall throw_, canApprove req e throw_ = Err TypeError).
Proof.
  destruct (loadCollective_loaded req e) as [L C].
  destruct (loadedFrom_columns _ _ _ L) as (_ & _ & _ & HU & _).
  split; [|split].
  - intros u c Hu Hc Hp Ha. split.
    + intros throw_ e'. unfold canApprove, deny. cbv zeta.
      rewrite C, Hc, Hp, Hu, HU, Ha, Z.eqb_refl.
      repeat case_match; congruence.
    + intros Hs Hf. unfold canApprove, deny. cbv zeta.
      rewrite C, Hc, Hp, Hu, HU, Ha, Z.eqb_refl, Hs, Hf. reflexivity.
  - intros u c Hu Hc Hp. unfold canApprove, deny. cbv zeta. rewrite C, Hc, Hu, HU.
    destruct (includes [PENDING; REJECTED] (status e)); simpl;
      [|exists e; split; [apply loadedFrom_refl|reflexivity]].
    destruct (canUseFeature (Some u) USE_EXPENSES); simpl;
      [|exists e; split; [apply loadedFrom_refl|reflexivity]].
    destruct (remoteUserMeetsOneCondition_roles req _ [adminsCollective; adminsHost]
                ltac:(roles_of_conditions) e (loadCollective req e) false L)
      as (e' & L' & E).
    assert (G : remoteUserMeetsOneCondition req (loadCollective req e)
                  [isCollectiveAdmin; isHostAdmin] false
                = Ok (e', holdsOneOf [adminsCollective; adminsHost] req e)).
    { rewrite E. now destruct (holdsOneOf _ req e). }
    exists e'. split; [exact L'|].
    destruct Hp as [-> |Hn]; [exact G|].
    apply Z.eqb_neq in Hn. rewrite Hn.
    now destruct (hasPolicy c EXPENSE_AUTHOR_CANNOT_APPROVE).
  - intros Hc Hs Hf throw_. unfold canApprove. cbv zeta.
    now rewrite Hs, Hf, C, Hc.
Qed.
End EvaluatorsProps.

Lemma canApprove_author_policy_witness :
  @canApprove unit demoImports demoStrictRequest (demoExpense 1 PENDING) true
  = Err (Forbidden "User cannot approve their own expenses")
  /\ (exists e', @canApprove unit demoImports demoRequest (demoExpense 1 PENDING) false
                 = Ok (e', true))
  /\ @canApprove unit demoImports demoRequest demoOrphanExpense false = Err TypeError.
Proof.
  split; [|split].
  - apply (proj1 (@canApprove_author_policy unit demoImports demoStrictRequest
                    (demoExpense 1 PENDING)) demoAdmin demoStrictCollective);
      reflexivity.
  - destruct (proj1 (proj2 (@canApprove_author_policy unit demoImports demoRequest
                              (demoExpense 1 PENDING)))
                demoAdmin demoCollective eq_refl eq_refl (or_introl eq_refl))
      as (e' & _ & E).
    exists e'. rewrite E. reflexivity.
  - apply (proj2 (proj2 (@canApprove_author_policy unit demoImports demoRequest
                           demoOrphanExpense))); reflexivity.
Defined.

Lemma unauthenticated_is_never_granted_witness :
  Forall (fun ev : ExpensePermissionEvaluator =>
            forall e', ev demoAnonymousRequest (demoExpense 1 APPROVED) true
                       <> Ok (e', true))
    (@evaluators unit demoImports)
  /\ remoteUserMeetsOneCondition demoAnonymousRequest (demoExpense 1 APPROVED)
       [isHostAdmin] true
     = Err (Unauthorized "User is required").
Proof.
  destruct (@unauthenticated_is_never_granted unit demoImports demoAnonymousRequest
              (demoExpense 1 APPROVED) true eq_refl) as [H1 H2].
  split; [exact H1|]. apply H2.
Defined.

Lemma granted_can_see_witness :
  exists e'',
    canSeeExpenseAttachments demoRequest (demoExpense 1 APPROVED) false
    = Ok (e'', true).
Proof.
  destruct (@granted_can_see unit demoImports demoRequest (demoExpense 1 APPROVED) false)
    as [H _].
  rewrite List.Forall_forall in H.
  apply (H (@canPayExpense unit demoImports) ltac:(do 6 right; left; reflexivity)
           (set_collective (Some demoCollective) (demoExpense 1 APPROVED))).
  reflexivity.
Defined.

Lemma canEditExpense_by_status_witness :
  @canEditExpense unit demoImports demoRequest (demoExpense 1 DRAFT) false
  = Ok (demoExpense 1 DRAFT, false)
  /\ @canEditExpense unit demoImports demoRequest (demoExpense 1 PAID) true
     = Err (Forbidden "Can not edit expense in current status")
  /\ exists e',
       @canEditExpense unit demoImports demoRequest (demoExpense 1 SPAM) false
       = Ok (e', true).
Proof.
  pose proof (@canEditExpense_by_status unit demoImports demoRequest) as H.
  split; [|split].
  - apply (proj1 (H (demoExpense 1 DRAFT))). simpl. rewrite !elem_of_cons. auto.
  - destruct (proj1 (proj2 (H (demoExpense 1 PAID))) eq_refl) as [_ E].
    rewrite E. reflexivity.
  - destruct (proj2 (proj2 (H (demoExpense 1 SPAM)))) as (e' & _ & E).
    + simpl. rewrite !elem_of_cons, elem_of_nil. intuition discriminate.
    + exists e'. rewrite E. reflexivity.
Defined.


Section LockProps.
Context {Others : Type} {imports : Imports Others}.

Lemma with_isLocked_twice (a b : bool) (d : option ExpenseJsonData) :
  with_isLocked a (with_isLocked b d) = with_isLocked a d.
Proof. now destruct d. Qed.

Lemma data_isLocked_set_data (b : bool) (d : option ExpenseJsonData) (e : Expense) :
  data_isLocked (set_data (with_isLocked b d) e) = b.
Proof. now destruct d. Qed.

(** What [lockExpense] does on a row that is there and not locked: the
    callback runs on the database where the row carries the flag, and the
    flag is then taken off the row that the callback left. *)
Lemma lockExpense_run {A} (id_ : Z) (callback : M (DB Others) A)
    (db : DB Others) (e : Expense) :
  expenses db !! id_ = Some e -> id e = id_ -> data_isLocked e = false ->
  lockExpense id_ callback db
  = match callback (upd_expenses (alter (set_data (with_isLocked true (data e))) id_) db)
    with
    | (db2, r) =>
        match expenses db2 !! id_ with
        | Some e2 =>
            (upd_expenses (alter (set_data (with_isLocked false (data e2))) (id e2)) db2, r)
        | None => (db2, Err TypeError)
        end
    end.
Proof.
  intros Hrow Hid Hl.
  unfold lockExpense, bind at 1, sequelize_transaction, bind at 1.
  unfold Expense_findByPk at 1, gets. rewrite Hrow, Hl. unfold update_data at 1.
  rewrite Hid. unfold try_finally.
  destruct (callback _) as [db2 r].
  unfold bind, Expense_findByPk, gets.
  destruct (expenses db2 !! id_) as [e2|]; [|reflexivity].
  unfold update_data, ret. reflexivity.
Qed.

Lemma lockExpense_refused {A} (id_ : Z) (callback : M (DB Others) A) (db : DB Others) :
  (expenses db !! id_ = None ->
   lockExpense id_ callback db = (db, Err (Unauthorized "Expense not found")))
  /\ (forall e, expenses db !! id_ = Some e -> data_isLocked e = true ->
      lockExpense id_ callback db
      = (db, Err (JsError
                    "This expense is already been processed, please try again later"))).
Proof.
  split.
  - intros Hrow. unfold lockExpense, bind at 1, sequelize_transaction, bind at 1.
    unfold Expense_findByPk at 1, gets. now rewrite Hrow.
  - intros e Hrow Hl. unfold lockExpense, bind at 1, sequelize_transaction, bind at 1.
    unfold Expense_findByPk at 1, gets. now rewrite Hrow, Hl.
Qed.

Lemma alter_lookup_insert (f : Expense -> Expense) (k : Z) (m : gmap Z Expense)
    (e : Expense) :
  m !! k = Some e -> alter f k m = <[k := f e]> m.
Proof.
  intros H. apply map_eq. intros i. destruct (decide (i = k)) as [->|N].
  - now rewrite lookup_alter_eq, lookup_insert_eq, H.
  - now rewrite lookup_alter_ne, lookup_insert_ne by congruence.
Qed.

(** X6: The lock is exclusive.  [lockExpense] refuses an expense that is not
    there or that is already locked, and runs nothing then; and while it
    holds the lock a second call on the same expense, here nested in the
    callback, is refused as well: its callback never runs, and the only
    trace of the two calls is the flag, back to false. *)
Theorem lockExpense_is_exclusive {A} (id_ : Z) (callback : M (DB Others) A)
    (db : DB Others) :
  (expenses db !! id_ = None ->
   lockExpense id_ callback db = (db, Err (Unauthorized "Expense not found")))
  /\ (forall e, expenses db !! id_ = Some e -> data_isLocked e = true ->
      lockExpense id_ callback db
      = (db, Err (JsError
                    "This expense is already been processed, please try again later")))
  /\ (forall e, expenses db !! id_ = Some e -> id e = id_ -> data_isLocked e = false ->
      lockExpense id_ (lockExpense id_ callback) db
      = (upd_expenses (insert id_ (set_data (with_isLocked false (data e)) e)) db,
         Err (JsError
                "This expense is already been processed, please try again later"))).
Proof.
  destruct (lockExpense_refused id_ callback db) as [H1 H2].
  split; [exact H1|]. split; [exact H2|].
  intros e Hrow Hid Hl.
  rewrite (lockExpense_run id_ _ db e Hrow Hid Hl).
  set (e1 := set_data (with_isLocked true (data e)) e).
  set (db1 := upd_expenses (alter (set_data (with_isLocked true (data e))) id_) db).
  assert (Hrow1 : expenses db1 !! id_ = Some e1).
  { subst db1. simpl. now rewrite lookup_alter_eq, Hrow. }
  rewrite (proj2 (lockExpense_refused id_ callback db1) e1 Hrow1
             (data_isLocked_set_data true _ _)).
  rewrite Hrow1. f_equal.
  change (id e1) with (id e). rewrite Hid.
  subst db1. unfold upd_expenses. simpl. f_equal.
  rewrite (alter_lookup_insert _ id_ (expenses db) e Hrow).
  rewrite (alter_lookup_insert _ id_ _ e1) by now rewrite lookup_insert_eq.
  rewrite insert_insert_eq. subst e1. simpl. rewrite with_isLocked_twice.
  reflexivity.
Qed.

(** X7: The lock is released.  Whatever the callback does and whether it returns
    or throws, if it leaves the row in place the outcome of [lockExpense] is
    the outcome of the callback and the flag of the row is false afterwards,
    nothing else being touched.  If the callback removes the row, releasing
    fails on a property read and that error replaces the outcome. *)
Theorem lockExpense_releases {A} (id_ : Z) (callback : M (DB Others) A)
    (db : DB Others) (e : Expense) :
  expenses db !! id_ = Some e -> id e = id_ -> data_isLocked e = false ->
  let locked := upd_expenses (insert id_ (set_data (with_isLocked true (data e)) e)) db in
  let out := lockExpense id_ callback db in
  (forall e2, expenses (fst (callback locked)) !! id_ = Some e2 -> id e2 = id_ ->
     out = (upd_expenses (insert id_ (set_data (with_isLocked false (data e2)) e2))
              (fst (callback locked)),
            snd (callback locked))
     /\ data_isLocked <$> expenses (fst out) !! id_ = Some false)
  /\ (expenses (fst (callback locked)) !! id_ = None ->
      out = (fst (callback locked), Err TypeError)).
Proof.
  intros Hrow Hid Hl locked out. subst out.
  rewrite (lockExpense_run id_ callback db e Hrow Hid Hl).
  assert (E : upd_expenses (alter (set_data (with_isLocked true (data e))) id_) db = locked).
  { subst locked. unfold upd_expenses. f_equal. now apply alter_lookup_insert. }
  rewrite E. destruct (callback locked) as [db2 r]. simpl. split.
  - intros e2 Hrow2 Hid2. rewrite Hrow2, Hid2.
    assert (E2 : upd_expenses (alter (set_data (with_isLocked false (data e2))) id_) db2
                 = upd_expenses (insert id_ (set_data (with_isLocked false (data e2)) e2))
                     db2).
    { unfold upd_expenses. f_equal. now apply alter_lookup_insert. }
    rewrite E2. split; [reflexivity|]. simpl. rewrite lookup_insert_eq. simpl.
    now rewrite data_isLocked_set_data.
  - intros Hrow2. now rewrite Hrow2.
Qed.
End LockProps.

Lemma lockExpense_is_exclusive_witness :
  lockExpense 1 (lockExpense 1 (ret tt)) (demoDB [demoExpense 1 APPROVED])
  = (upd_expenses
       (insert 1 (set_data (with_isLocked false None) (demoExpense 1 APPROVED)))
       (demoDB [demoExpense 1 APPROVED]),
     Err (JsError "This expense is already been processed, please try again later")).
Proof.
  apply (proj2 (proj2 (lockExpense_is_exclusive 1 (ret tt)
                         (demoDB [demoExpense 1 APPROVED])))
           (demoExpense 1 APPROVED)); reflexivity.
Defined.

Lemma lockExpense_releases_witness :
  data_isLocked
    <$> expenses (fst (lockExpense 1 (throw (A:=unit) (JsError "Boom"))
                         (demoDB [demoExpense 1 APPROVED]))) !! 1
  = Some false.
Proof.
  apply (proj1 (lockExpense_releases 1 (throw (JsError "Boom"))
                  (demoDB [demoExpense 1 APPROVED]) (demoExpense 1 APPROVED)
                  eq_refl eq_refl eq_refl)
           (set_data (with_isLocked true None) (demoExpense 1 APPROVED)));
    reflexivity.
Defined.

Section PayoutsProps.
Context {Others : Type} {imports : Imports Others} {payouts : PayoutImports Others}.

(** X8: [deleteExpense].  A call that fails leaves the database as it was; an
    unknown id is answered [NotFound] to a user who may use expenses; and
    an expense that is there is deleted exactly when its status is REJECTED,
    DRAFT, SPAM or CANCELED and the request comes from a user who may use
    expenses and owns it or administers its collective or its host.  The
    row is then gone and nothing else has changed. *)
Theorem deleteExpense_spec (req : Request) (expenseId : Z) (db : DB Others) :
  let out := deleteExpense req expenseId db in
  (forall x, snd out = Err x -> fst out = db)
  /\ (forall u,
        remoteUser req = Some u -> canUseFeature (Some u) USE_EXPENSES = true ->
        expenses db !! expenseId = None ->
        out = (db, Err (NotFound "Expense not found")))
  /\ (forall e,
        expenses db !! expenseId = Some e -> id e = expenseId ->
        let found := set_collective (Collective_findByPk (CollectiveId e)) e in
        isOk (snd out)
        = includes [REJECTED; DRAFT; SPAM; CANCELED] (status e)
          && canUseFeature (remoteUser req) USE_EXPENSES
          && holdsOneOf [owns; adminsCollective; adminsHost] req found
        /\ (isOk (snd out) = true ->
            fst out = upd_expenses (delete expenseId) db
            /\ expenses (fst out) !! expenseId = None
            /\ exists e', snd out = Ok e' /\ loadedFrom req found e')).
Proof.
  cbv zeta. unfold deleteExpense.
  destruct (remoteUser req) as [u|] eqn:Hu.
  2:{ split; [reflexivity|]. split; [discriminate|]. intros e Hrow Hid. simpl.
      unfold holdsOneOf. rewrite Hu, andb_false_r. split; [reflexivity|discriminate]. }
  destruct (canUseFeature (Some u) USE_EXPENSES) eqn:Hf; simpl.
  2:{ split; [reflexivity|]. split; [intros u0 [= <-]; congruence|].
      intros e Hrow Hid. simpl.
      rewrite andb_false_r. split; [reflexivity|discriminate]. }
  unfold bind, Expense_findByPk_withCollective, gets, lift, throw.
  destruct (expenses db !! expenseId) as [e|] eqn:Hrow; simpl.
  2:{ split; [reflexivity|]. split; [reflexivity|]. discriminate. }
  destruct (canDeleteExpense_verdict req
              (set_collective (Collective_findByPk (CollectiveId e)) e))
    as (e' & L & V).
  rewrite V. simpl. rewrite Hu, Hf, andb_true_r.
  destruct (includes _ (status e) && holdsOneOf _ req _) eqn:G; simpl.
  - split; [discriminate|]. split; [discriminate|].
    intros e0 [= <-] Hid. rewrite andb_true_r, G. split; [reflexivity|]. intros _.
    destruct (loadedFrom_columns _ _ _ L) as (Hid' & _). simpl in Hid'.
    rewrite Hid', Hid. split; [reflexivity|]. split.
    + simpl. apply lookup_delete_eq.
    + exists e'. split; [reflexivity|exact L].
  - split; [reflexivity|]. split; [discriminate|].
    intros e0 [= <-] Hid. rewrite andb_true_r, G. split; [reflexivity|discriminate].
Qed.

(** X9: [unscheduleExpensePayment].  Anything but a SCHEDULED_FOR_PAYMENT
    expense and an admin of its host is answered [BadRequest], nothing being
    written; a call that succeeds comes from such an admin and returns the
    expense APPROVED, marked as last edited by him; and an expense without a
    payout method cannot be unscheduled: the call stops on a property read
    before it writes anything. *)
Theorem unscheduleExpensePayment_spec (req : Request) (e : Expense) (db : DB Others) :
  let out := unscheduleExpensePayment req e db in
  (status e <> SCHEDULED_FOR_PAYMENT \/ holdsOneOf [adminsHost] req e = false ->
   out = (db, Err (BadRequest
     "Expense is not scheduled for payment or you don't have authorization to unschedule it"
     [])))
  /\ (forall e', snd out = Ok e' ->
      status e = SCHEDULED_FOR_PAYMENT /\ holdsOneOf [adminsHost] req e = true
      /\ status e' = APPROVED /\ id e' = id e
      /\ exists u, remoteUser req = Some u /\ lastEditedById e' = Some (u_id u))
  /\ ((forall e1, loadedFrom req e e1 -> getPayoutMethod e1 = None) ->
      status e = SCHEDULED_FOR_PAYMENT -> holdsOneOf [adminsHost] req e = true ->
      out = (db, Err TypeError)).
Proof.
  cbv zeta. unfold unscheduleExpensePayment, bind, lift.
  destruct (canUnschedulePayment_verdict req e) as (e1 & L & V). rewrite V.
  cbv beta iota.
  destruct (loadedFrom_columns _ _ _ L) as (Hid & _).
  destruct (bool_decide (status e = SCHEDULED_FOR_PAYMENT)) eqn:Hs; simpl.
  2:{ apply bool_decide_eq_false in Hs. split; [reflexivity|].
      split; [intros e' [=]|]. intros _ Hs'. contradiction. }
  apply bool_decide_eq_true in Hs.
  destruct (holdsOneOf [adminsHost] req e) eqn:Hh; simpl.
  2:{ split; [reflexivity|]. split; [intros e' [=]|]. intros _ _ [=]. }
  split; [intros [N|N]; [contradiction|discriminate]|].
  split.
  - intros e'. destruct (getPayoutMethod e1) as [pm|]; [|intros [=]].
    destruct ((if bool_decide (pm_type pm = BANK_ACCOUNT)
               then transferwise_unscheduleExpenseForPayment e1 else ret tt) db)
      as [db1 [[]|x]]; [|intros [=]].
    unfold remoteUser_.
    unfold holdsOneOf in Hh. destruct (remoteUser req) as [u|]; [|discriminate Hh].
    unfold ret, update_status. simpl. intros [= E']. subst e'. simpl.
    repeat split; try assumption. exists u. split; reflexivity.
  - intros Hn _ _. now rewrite (Hn e1 L).
Qed.

(** X10: [scheduleExpenseForPayment].  An expense that is already scheduled is
    answered [BadRequest], and a request that [canPayExpense] denies
    [Forbidden], nothing being written.  A call that succeeds was made on
    an APPROVED or ERROR expense by an admin of its host who may use
    expenses, after the balance check passed on an expense that has a payout
    method, and it returns the expense SCHEDULED_FOR_PAYMENT.  An expense
    without a payout method is never scheduled, but the call fails late: when
    the checks pass and another fees payer was asked for, the new fees payer
    is written before the call stops on a property read. *)
Theorem scheduleExpenseForPayment_spec (req : Request) (e : Expense)
    (feesPayer_ : option string) (db : DB Others) :
  let out := scheduleExpenseForPayment req e feesPayer_ db in
  let noFees := {| paymentProcessorFeeInCollectiveCurrency := None;
                   hostFeeInCollectiveCurrency := None;
                   platformFeeInCollectiveCurrency := None |} in
  (status e = SCHEDULED_FOR_PAYMENT ->
   out = (db, Err (BadRequest "Expense is already scheduled for payment" [])))
  /\ (status e <> SCHEDULED_FOR_PAYMENT ->
      includes [APPROVED; ERROR] (status e)
      && canUseFeature (remoteUser req) USE_EXPENSES
      && holdsOneOf [adminsHost] req e = false ->
      out = (db, Err (Forbidden
               "You're authenticated but you can't schedule this expense for payment")))
  /\ (forall e', snd out = Ok e' ->
      (status e = APPROVED \/ status e = ERROR)
      /\ canUseFeature (remoteUser req) USE_EXPENSES = true
      /\ holdsOneOf [adminsHost] req e = true
      /\ status e' = SCHEDULED_FOR_PAYMENT /\ id e' = id e
      /\ exists e1 c pm check,
           loadedFrom req e e1 /\ collective e1 = Some c
           /\ getPayoutMethod e1 = Some pm
           /\ (currency e = c_currency c \/ hasMultiCurrency c (getHostCollective c) = true)
           /\ checkHasBalanceToPayExpense (others db) (getHostCollective c) e1 (Some pm)
                false noFees false = Ok check)
  /\ (forall e1 c check p,
        canPayExpense req e false = Ok (e1, true) -> status e <> SCHEDULED_FOR_PAYMENT ->
        collective e1 = Some c ->
        currency e = c_currency c \/ hasMultiCurrency c (getHostCollective c) = true ->
        getPayoutMethod e1 = None ->
        checkHasBalanceToPayExpense (others db) (getHostCollective c) e1 None
          false noFees false = Ok check ->
        feesPayer_ = Some p -> p <> EmptyString -> p <> feesPayer e ->
        out = (upd_expenses (alter (set_feesPayer p) (id e)) db, Err TypeError)).
Proof.
  cbv zeta. unfold scheduleExpenseForPayment.
  destruct (bool_decide (status e = SCHEDULED_FOR_PAYMENT)) eqn:Hs.
  { apply bool_decide_eq_true in Hs. split; [reflexivity|].
    split; [intros N; contradiction|]. split; [intros e' [=]|].
    intros e1 c check p _ N. contradiction. }
  apply bool_decide_eq_false in Hs. split; [intros E; contradiction|].
  unfold bind, lift.
  destruct (canPayExpense_verdict req e) as (e1 & L & V). rewrite V. cbv beta iota.
  destruct (loadedFrom_columns _ _ _ L) as (Hid & Hst & _).
  assert (Hcur : currency e1 = currency e).
  { destruct L as (c' & f' & -> & _). reflexivity. }
  assert (Hfp : feesPayer e1 = feesPayer e).
  { destruct L as (c' & f' & -> & _). reflexivity. }
  destruct (includes [APPROVED; ERROR] (status e)
            && canUseFeature (remoteUser req) USE_EXPENSES
            && holdsOneOf [adminsHost] req e) eqn:G; simpl.
  2:{ split; [reflexivity|]. split; [intros e' [=]|].
      intros e2 c check p [=]. }
  split; [intros _ [=]|].
  apply andb_true_iff in G as [G Hh]. apply andb_true_iff in G as [Hi Hf].
  assert (Hst' : status e = APPROVED \/ status e = ERROR).
  { apply bool_decide_eq_true in Hi. rewrite !elem_of_cons, elem_of_nil in Hi. tauto. }
  split.
  - intros e'. destruct (collective e1) as [c|] eqn:Hc; [|intros [=]].
    rewrite Hcur.
    destruct (negb (bool_decide (currency e = c_currency c))
              && negb (hasMultiCurrency c (getHostCollective c))) eqn:Hm;
      [intros [=]|].
    destruct (checkHasBalanceToPayExpense _ _ _ _ _ _ _) as [check|x] eqn:Hb;
      [|intros [=]].
    cbv beta iota.
    destruct ((if truthyOS feesPayer_
                  && negb (bool_decide (feesPayer_ = Some (feesPayer e1)))
               then update_feesPayer e1 (default EmptyString feesPayer_)
               else ret e1) db) as [db1 [e2|x]] eqn:Hup; [|intros [=]].
    assert (He2 : id e2 = id e1).
    { destruct (truthyOS feesPayer_ && _); unfold update_feesPayer, ret in Hup;
        injection Hup as _ <-; reflexivity. }
    destruct (getPayoutMethod e1) as [pm|] eqn:Hpm; [|intros [=]].
    destruct ((if bool_decide (pm_type pm = BANK_ACCOUNT)
               then transferwise_scheduleExpenseForPayment e2
               else if bool_decide (pm_type pm = PAYPAL)
                    then fun s => (s, getAccountForPaymentProvider (getHostCollective c)
                                        "paypal")
                    else ret tt) db1) as [db2 [[]|x]]; [|intros [=]].
    unfold remoteUser_. pose proof Hh as Hh'. unfold holdsOneOf in Hh.
    destruct (remoteUser req) as [u|]; [|discriminate Hh].
    unfold ret, update_status, createActivityOfType, onOthers. simpl.
    destruct (Activity_create _ _ _ _) as [o [[]|x]]; [|intros [=]].
    intros [= E']. subst e'. simpl.
    split; [exact Hst'|]. split; [exact Hf|]. split; [exact Hh'|].
    split; [reflexivity|]. split; [congruence|].
    exists e1, c, pm, check. split; [exact L|]. split; [exact Hc|].
    split; [exact Hpm|]. split; [|exact Hb].
    apply andb_false_iff in Hm as [Hm|Hm].
    + left. apply negb_false_iff, bool_decide_eq_true in Hm. exact Hm.
    + right. now apply negb_false_iff in Hm.
  - intros e2 c check p [= <-] _ Hc Hm Hpm Hb -> Hp1 Hp2.
    rewrite Hc, Hcur.
    assert (Hm' : negb (bool_decide (currency e = c_currency c))
                  && negb (hasMultiCurrency c (getHostCollective c)) = false).
    { destruct Hm as [Hm|Hm].
      - now rewrite (bool_decide_eq_true_2 _ Hm).
      - rewrite Hm. apply andb_false_r. }
    rewrite Hm', Hpm, Hb. cbv beta iota.
    assert (Ht : truthyOS (Some p) = true) by (destruct p; [contradiction|reflexivity]).
    rewrite Ht, Hfp.
    rewrite (bool_decide_eq_false_2 (Some p = Some (feesPayer e))) by congruence.
    simpl. unfold update_feesPayer. now rewrite Hid.
Qed.

(** The callback of [markExpenseAsUnpaid] on a database that holds the row:
    it refuses without writing, or fails in the ledger, or refunds and puts
    the expense back to APPROVED. *)
Lemma markExpenseAsUnpaid_locked_cases (req : Request) (expenseId : Z) (refund : bool)
    (db : DB Others) (e : Expense) :
  expenses db !! expenseId = Some e -> id e = expenseId ->
  let found := set_collective (Collective_findByPk (CollectiveId e)) e in
  let out := markExpenseAsUnpaid_locked req expenseId refund db in
  (exists x, out = (db, Err x)
             /\ (remoteUser req = None ->
                 x = Unauthorized "You need to be logged in to unpay an expense")
             /\ (forall u, remoteUser req = Some u ->
                   canUseFeature (Some u) USE_EXPENSES = true -> status e <> PAID ->
                   x = Unauthorized
                         "You don't have permission to mark this expense as unpaid"))
  \/ (exists u, remoteUser req = Some u
        /\ canUseFeature (Some u) USE_EXPENSES = true /\ status e = PAID
        /\ holdsOneOf [adminsHost] req found = true
        /\ exists o,
             (exists x, out = (set_others o db, Err x))
             \/ exists e2,
                  loadedFrom req found e2
                  /\ out = (upd_expenses
                              (alter (set_status_lastEditedById APPROVED (u_id u)) expenseId)
                              (set_others o db),
                            Ok (set_status_lastEditedById APPROVED (u_id u) e2))).
Proof.
  intros Hrow Hid. cbv zeta. unfold markExpenseAsUnpaid_locked.
  destruct (remoteUser req) as [u|] eqn:Hu.
  2:{ left. eexists. split; [reflexivity|]. split; [reflexivity|discriminate]. }
  destruct (canUseFeature (Some u) USE_EXPENSES) eqn:Hf; simpl.
  2:{ left. eexists. split; [reflexivity|]. split; [discriminate|].
      intros u0 [= <-]. congruence. }
  unfold bind, Expense_findByPk_withCollective, gets, lift. rewrite Hrow. simpl.
  destruct (canMarkAsUnpaid_verdict req
              (set_collective (Collective_findByPk (CollectiveId e)) e))
    as (e2 & L & V).
  cbn [status set_collective] in V.
  rewrite V. cbv beta iota. rewrite Hu, Hf, andb_true_r.
  destruct (loadedFrom_columns _ _ _ L) as (Hid2 & Hst2 & _). simpl in Hid2, Hst2.
  destruct (bool_decide (status e = PAID)) eqn:Hs; simpl.
  2:{ left. eexists. split; [reflexivity|]. split; [discriminate|]. reflexivity. }
  apply bool_decide_eq_true in Hs.
  destruct (holdsOneOf [adminsHost] req _) eqn:Hh; simpl.
  2:{ left. eexists. split; [reflexivity|]. split; [discriminate|].
      intros u0 _ _ N. contradiction. }
  rewrite Hst2, (bool_decide_eq_true_2 _ Hs). simpl.
  assert (R : forall fee,
             exists o,
               (exists x,
                  (let (s', r) := onOthers (createRefundTransaction
                                              (Transaction_findOne (others db) expenseId) fee
                                              (User_findByPk (UserId e2))) db in
                   match r with
                   | Ok _ => update_status e2 APPROVED (u_id u) s'
                   | Err x => (s', Err x)
                   end) = (set_others o db, Err x))
               \/ (let (s', r) := onOthers (createRefundTransaction
                                              (Transaction_findOne (others db) expenseId) fee
                                              (User_findByPk (UserId e2))) db in
                   match r with
                   | Ok _ => update_status e2 APPROVED (u_id u) s'
                   | Err x => (s', Err x)
                   end)
                  = (upd_expenses
                       (alter (set_status_lastEditedById APPROVED (u_id u)) expenseId)
                       (set_others o db),
                     Ok (set_status_lastEditedById APPROVED (u_id u) e2))).
  { intros fee. unfold onOthers.
    destruct (createRefundTransaction _ _ _ _) as [o [[]|x]]; exists o.
    - right. unfold update_status. now rewrite Hid2, Hid.
    - left. now exists x. }
  destruct refund.
  - destruct (Transaction_findOne (others db) expenseId) as [t|] eqn:Ht.
    + right. exists u. repeat (split; [assumption || reflexivity|]).
      destruct (R (t_paymentProcessorFeeInHostCurrency t)) as (o & [[x E]|E]);
        exists o; [left; exists x|right; exists e2; split; [exact L|]];
        unfold ret; cbv beta iota; exact E.
    + left. eexists. split; [reflexivity|]. split; [discriminate|].
      intros u0 _ _ N. contradiction.
  - right. exists u. repeat (split; [assumption || reflexivity|]).
    destruct (R 0) as (o & [[x E]|E]);
      exists o; [left; exists x|right; exists e2; split; [exact L|]];
      unfold ret; cbv beta iota; exact E.
Qed.

Lemma release_locked (db : DB Others) (id_ : Z) (e : Expense) :
  expenses db !! id_ = Some e -> id e = id_ ->
  upd_expenses
    (alter (set_data (with_isLocked false (data (set_data (with_isLocked true (data e)) e))))
       id_)
    (upd_expenses (alter (set_data (with_isLocked true (data e))) id_) db)
  = upd_expenses (insert id_ (set_data (with_isLocked false (data e)) e)) db.
Proof.
  intros Hrow Hid. unfold upd_expenses. simpl. f_equal.
  rewrite (alter_lookup_insert _ id_ (expenses db) e Hrow).
  rewrite (alter_lookup_insert _ id_ _ (set_data (with_isLocked true (data e)) e))
    by now rewrite lookup_insert_eq.
  rewrite insert_insert_eq. simpl. now rewrite with_isLocked_twice.
Qed.

(** X11: [markExpenseAsUnpaid] on an expense that is there and not locked.  The
    lock is taken before the request is looked at, so a refused call is not
    without a trace: the row is written twice and ends with its flag set to
    false (and with a [data] object if it had none).  A request without a
    user is answered [Unauthorized]; so is, by the permission check, any
    request of a user who may use expenses on an expense that is not PAID:
    the later check of the status, with its own message, is never reached.
    A call that succeeds was made on a PAID expense by an admin of its host
    who may use expenses, and it leaves the expense APPROVED and unlocked. *)
Theorem markExpenseAsUnpaid_spec (req : Request) (expenseId : Z) (refund : bool)
    (db : DB Others) (e : Expense) :
  expenses db !! expenseId = Some e -> id e = expenseId -> data_isLocked e = false ->
  let out := markExpenseAsUnpaid req expenseId refund db in
  let released :=
    upd_expenses (insert expenseId (set_data (with_isLocked false (data e)) e)) db in
  (remoteUser req = None ->
   out = (released, Err (Unauthorized "You need to be logged in to unpay an expense")))
  /\ (forall u,
        remoteUser req = Some u -> canUseFeature (Some u) USE_EXPENSES = true ->
        status e <> PAID ->
        out = (released,
               Err (Unauthorized
                      "You don't have permission to mark this expense as unpaid")))
  /\ (forall e', snd out = Ok e' ->
      status e = PAID
      /\ canUseFeature (remoteUser req) USE_EXPENSES = true
      /\ holdsOneOf [adminsHost] req
           (set_collective (Collective_findByPk (CollectiveId e)) e) = true
      /\ status e' = APPROVED
      /\ exists row,
           expenses (fst out) !! expenseId = Some row
           /\ status row = APPROVED /\ data_isLocked row = false).
Proof.
  intros Hrow Hid Hl. cbv zeta.
  remember (markExpenseAsUnpaid req expenseId refund db) as out eqn:E.
  unfold markExpenseAsUnpaid, bind at 1 in E.
  rewrite (lockExpense_run expenseId _ db e Hrow Hid Hl) in E.
  assert (Hrow1 : expenses
                    (upd_expenses (alter (set_data (with_isLocked true (data e))) expenseId)
                       db) !! expenseId
                  = Some (set_data (with_isLocked true (data e)) e)).
  { simpl. now rewrite lookup_alter_eq, Hrow. }
  pose proof Hrow1 as Hrow1'. simpl in Hrow1'.
  destruct (markExpenseAsUnpaid_locked_cases req expenseId refund _ _ Hrow1 Hid)
    as [(x & Hc & Hx1 & Hx2)|(u & Hu & Hf & Hs & Hh & o & [(x & Hc)|(e2 & L & Hc)])];
    rewrite Hc in E; clear Hc.
  - rewrite Hrow1 in E. cbn [id set_data] in E. rewrite Hid in E.
    rewrite (release_locked db expenseId e Hrow Hid) in E. subst out.
    split; [intros Hn; now rewrite (Hx1 Hn)|].
    split; [intros u Hu Hf Hs; now rewrite (Hx2 u Hu Hf Hs)|].
    intros e' [=].
  - simpl expenses in E. rewrite Hrow1' in E. subst out.
    split; [intros Hn; congruence|].
    split; [intros u0 _ _ N; contradiction|]. intros e' [=].
  - split; [intros Hn; congruence|].
    split; [intros u0 _ _ N; contradiction|].
    intros e'. simpl expenses in E. rewrite lookup_alter_eq, Hrow1' in E. simpl in E.
    unfold bind, remoteUser_ in E. rewrite Hu in E.
    unfold ret, createActivityOfType, onOthers in E.
    cbv beta iota in E.
    destruct (Activity_create _ _ _ _) as [o' [[]|x]]; subst out; simpl; [|intros [=]].
    intros [= <-]. split; [exact Hs|]. split; [now rewrite Hu|]. split; [exact Hh|].
    split; [reflexivity|].
    rewrite Hid, lookup_alter_eq, lookup_alter_eq, Hrow1'. simpl.
    eexists. split; [reflexivity|]. split; [reflexivity|].
    apply data_isLocked_set_data.
Qed.

(** [getExpenseFees] always gives the payment processor fee in the
    currency of the expense a value. *)
Lemma getExpenseFees_fee_defined (e : Expense) (host : Host) (fees : FeesArgs)
    (pm : option PayoutMethod) (forceManual useExistingWiseData : bool) (f : ExpenseFees) :
  getExpenseFees e host fees pm forceManual useExistingWiseData = Ok f ->
  exists fee, paymentProcessorFee (feesInExpenseCurrency f) = Some fee.
Proof.
  unfold getExpenseFees. cbv zeta.
  destruct (collective (withCollective e)) as [c|]; [|discriminate].
  destruct (getFxRate (c_currency c) (h_currency host)) as [rate_|x]; [|discriminate].
  cbn [rbind].
  destruct (estimatePaymentProcessorFee _ _ _ _ _ _ _ _) as [r|x]; [|discriminate].
  cbn [rbind].
  destruct (bool_decide (currency (withCollective e) = c_currency c)); cbn [rbind].
  - intros [= <-]. cbn [feesInExpenseCurrency paymentProcessorFee].
    destruct (paymentProcessorFeeInCollectiveCurrency r) as [q|] eqn:Hq; simpl.
    + destruct (negb (truthyQ q)); simpl; [now exists 0%Q|]. rewrite Hq. now exists q.
    + now exists 0%Q.
  - destruct (getFxRate (c_currency c) (currency (withCollective e))) as [rate'|x];
      [|discriminate].
    cbn [rbind]. intros [= <-]. eexists. reflexivity.
Qed.

Lemma ltOQ_false (a : Z) (b : Q) : ltOQ a (Some b) = false -> (b <= inQ a)%Q.
Proof.
  unfold ltOQ, Qltb. intros H. apply negb_false_iff in H. now apply Qle_bool_iff.
Qed.

(** X12: [checkHasBalanceToPayExpense] lets an expense through only when the
    collective can afford it.  When it returns, the balance of the
    collective in the currency of the expense covers the amount of the
    expense and the total to pay, which is the amount plus the payment
    processor fee when the collective pays the fees, and the amount alone
    when the payee does; for an expense in another currency than the
    collective's it covers both with a margin of 20%.  Fees on the payee
    are accepted only for a payout method type that supports them and an
    expense in the currency of the collective, and no other fees payer is
    accepted. *)
Theorem checkHasBalanceToPayExpense_sound (o : Others) (host : option Host)
    (e : Expense) (pm : option PayoutMethod) (forceManual : bool)
    (manualFees : FeesArgs) (useExistingWiseData : bool) (check : BalanceCheck) :
  checkHasBalanceToPayExpense o host e pm forceManual manualFees useExistingWiseData
  = Ok check ->
  exists c balance fee,
    collective e = Some c
    /\ getBalanceWithBlockedFunds o c (currency e) = Ok balance
    /\ paymentProcessorFee (feesInExpenseCurrency (bc_fees check)) = Some fee
    /\ (feesPayer e = "COLLECTIVE"
        /\ totalAmountToPay check = Some (inQ (amount e) + fee)%Q
        \/ feesPayer e = "PAYEE"
           /\ totalAmountToPay check = Some (inQ (amount e))
           /\ currency e = c_currency c
           /\ typeSupportsFeesPayer
                (match pm with
                 | Some pm => pm_type pm
                 | None => getPayoutMethodTypeFromLegacy e
                 end) = true)
    /\ forall total, totalAmountToPay check = Some total ->
         if bool_decide (currency e = c_currency c)
         then amount e <= balance /\ (total <= inQ balance)%Q
         else js_round (inQ (amount e) * (12 # 10)) <= balance
              /\ js_round (total * (12 # 10)) <= balance.
Proof.
  unfold checkHasBalanceToPayExpense. cbv zeta.
  destruct (collective e) as [c|] eqn:Hc; [|discriminate].
  destruct (getBalanceWithBlockedFunds o c (currency e)) as [balance|x] eqn:Hb;
    [|discriminate].
  simpl.
  assert (T : forall total,
             ltOQ balance
               (getMinExpectedBalance (bool_decide (currency e = c_currency c))
                  (Some total)) = false ->
             ltOQ balance
               (getMinExpectedBalance (bool_decide (currency e = c_currency c))
                  (Some (inQ (amount e)))) = false ->
             if bool_decide (currency e = c_currency c)
             then amount e <= balance /\ (total <= inQ balance)%Q
             else js_round (inQ (amount e) * (12 # 10)) <= balance
                  /\ js_round (total * (12 # 10)) <= balance).
  { intros total Ht Ha. unfold getMinExpectedBalance in Ht, Ha.
    destruct (bool_decide (currency e = c_currency c)); simpl in Ht, Ha;
      apply ltOQ_false in Ht; apply ltOQ_false in Ha.
    - split; [rewrite Zle_Qle; exact Ha|exact Ht].
    - split; rewrite Zle_Qle; assumption. }
  destruct (ltOQ balance
              (getMinExpectedBalance (bool_decide (currency e = c_currency c))
                 (Some (inQ (amount e))))) eqn:H1; [discriminate|].
  destruct host as [host|]; [|discriminate].
  destruct (getExpenseFees _ _ _ _ _ _) as [fees|x] eqn:Hfees; [|discriminate].
  simpl.
  destruct (getExpenseFees_fee_defined _ _ _ _ _ _ _ Hfees) as (fee & Hfee).
  rewrite Hfee.
  destruct (bool_decide (feesPayer e = "COLLECTIVE")) eqn:Hp1; simpl.
  - apply bool_decide_eq_true in Hp1.
    destruct (ltOQ balance
                (getMinExpectedBalance (bool_decide (currency e = c_currency c))
                   (Some (inQ (amount e) + fee)%Q))) eqn:H2; [discriminate|].
    intros [= E]. subst check. simpl. exists c, balance, fee.
    split; [reflexivity|]. split; [exact Hb|]. split; [exact Hfee|].
    split; [left; split; [exact Hp1|reflexivity]|].
    intros total [= <-]. now apply T.
  - destruct (bool_decide (feesPayer e = "PAYEE")) eqn:Hp2; simpl; [|discriminate].
    apply bool_decide_eq_true in Hp2.
    destruct (typeSupportsFeesPayer _) eqn:Hts; simpl; [|discriminate].
    destruct (bool_decide (currency e = c_currency c)) eqn:Hcur; [|discriminate].
    cbn [negb rbind]. rewrite H1.
    intros [= E]. subst check. simpl. exists c, balance, fee.
    split; [reflexivity|]. split; [exact Hb|]. split; [exact Hfee|].
    split.
    + right. split; [exact Hp2|]. split; [reflexivity|].
      split; [now apply bool_decide_eq_true in Hcur|reflexivity].
    + intros total [= <-]. rewrite Hcur. apply T; [exact H1|reflexivity].
Qed.
End PayoutsProps.

Lemma deleteExpense_spec_witness :
  fst (@deleteExpense unit demoImports demoRequest 1 (demoDB [demoExpense 1 REJECTED]))
  = upd_expenses (delete 1) (demoDB [demoExpense 1 REJECTED])
  /\ fst (@deleteExpense unit demoImports demoRequest 1 (demoDB [demoExpense 1 PAID]))
     = demoDB [demoExpense 1 PAID]
  /\ @deleteExpense unit demoImports demoRequest 2 (demoDB [demoExpense 1 PAID])
     = (demoDB [demoExpense 1 PAID], Err (NotFound "Expense not found")).
Proof.
  split; [|split].
  - apply (proj2 (proj2 (@deleteExpense_spec unit demoImports demoRequest 1
                           (demoDB [demoExpense 1 REJECTED])))
             (demoExpense 1 REJECTED) eq_refl eq_refl).
    reflexivity.
  - apply (proj1 (@deleteExpense_spec unit demoImports demoRequest 1
                    (demoDB [demoExpense 1 PAID]))
             (Unauthorized
                "You don't have permission to delete this expense or it needs to be rejected before being deleted")).
    reflexivity.
  - apply (proj1 (proj2 (@deleteExpense_spec unit demoImports demoRequest 2
                           (demoDB [demoExpense 1 PAID]))) demoAdmin); reflexivity.
Defined.

Lemma unscheduleExpensePayment_spec_witness :
  (exists e',
     snd (@unscheduleExpensePayment unit demoPayouts demoRequest
            (demoExpense 1 SCHEDULED_FOR_PAYMENT)
            (demoDB [demoExpense 1 SCHEDULED_FOR_PAYMENT])) = Ok e'
     /\ status e' = APPROVED)
  /\ snd (@unscheduleExpensePayment unit demoPayouts demoRequest (demoExpense 1 APPROVED)
            (demoDB [demoExpense 1 APPROVED]))
     = Err (BadRequest
              "Expense is not scheduled for payment or you don't have authorization to unschedule it"
              [])
  /\ snd (@unscheduleExpensePayment unit demoPayouts demoRequest
            (demoExpense 3 SCHEDULED_FOR_PAYMENT)
            (demoDB [demoExpense 3 SCHEDULED_FOR_PAYMENT]))
     = Err TypeError.
Proof.
  split; [|split].
  - eexists. split; [reflexivity|].
    apply (proj1 (proj2 (@unscheduleExpensePayment_spec unit demoPayouts demoRequest
                           (demoExpense 1 SCHEDULED_FOR_PAYMENT)
                           (demoDB [demoExpense 1 SCHEDULED_FOR_PAYMENT]))) _ eq_refl).
  - rewrite (proj1 (@unscheduleExpensePayment_spec unit demoPayouts demoRequest
                      (demoExpense 1 APPROVED) (demoDB [demoExpense 1 APPROVED])));
      [reflexivity|left; discriminate].
  - rewrite (proj2 (proj2 (@unscheduleExpensePayment_spec unit demoPayouts demoRequest
                             (demoExpense 3 SCHEDULED_FOR_PAYMENT)
                             (demoDB [demoExpense 3 SCHEDULED_FOR_PAYMENT]))));
      [reflexivity| |reflexivity|reflexivity].
    intros e1 (c' & f' & -> & _). reflexivity.
Defined.

Lemma scheduleExpenseForPayment_spec_witness :
  (exists e',
     snd (@scheduleExpenseForPayment unit demoImports demoPayouts demoRequest
            (demoExpense 1 APPROVED) None (demoDB [demoExpense 1 APPROVED])) = Ok e'
     /\ status e' = SCHEDULED_FOR_PAYMENT)
  /\ @scheduleExpenseForPayment unit demoImports demoPayouts demoRequest
       (demoExpense 1 SCHEDULED_FOR_PAYMENT) None
       (demoDB [demoExpense 1 SCHEDULED_FOR_PAYMENT])
     = (demoDB [demoExpense 1 SCHEDULED_FOR_PAYMENT],
        Err (BadRequest "Expense is already scheduled for payment" []))
  /\ @scheduleExpenseForPayment unit demoImports demoPayouts demoRequest
       (demoExpense 3 APPROVED) (Some "PAYEE") (demoDB [demoExpense 3 APPROVED])
     = (upd_expenses (alter (set_feesPayer "PAYEE") 3) (demoDB [demoExpense 3 APPROVED]),
        Err TypeError).
Proof.
  split; [|split].
  - eexists. split; [reflexivity|].
    apply (proj1 (proj2 (proj2 (@scheduleExpenseForPayment_spec unit demoImports
                                  demoPayouts demoRequest (demoExpense 1 APPROVED) None
                                  (demoDB [demoExpense 1 APPROVED])))) _ eq_refl).
  - apply (proj1 (@scheduleExpenseForPayment_spec unit demoImports demoPayouts
                    demoRequest (demoExpense 1 SCHEDULED_FOR_PAYMENT) None
                    (demoDB [demoExpense 1 SCHEDULED_FOR_PAYMENT]))).
    reflexivity.
  - refine (proj2 (proj2 (proj2 (@scheduleExpenseForPayment_spec unit demoImports
                                   demoPayouts demoRequest (demoExpense 3 APPROVED)
                                   (Some "PAYEE") (demoDB [demoExpense 3 APPROVED]))))
              _ demoCollective _ "PAYEE" eq_refl _ eq_refl (or_introl eq_refl) eq_refl
              eq_refl eq_refl _ _); discriminate.
Defined.

Lemma markExpenseAsUnpaid_spec_witness :
  @markExpenseAsUnpaid unit demoImports demoPayouts demoAnonymousRequest 1 true
    (demoDB [demoExpense 1 PAID])
  = (upd_expenses
       (insert 1 (set_data (with_isLocked false None) (demoExpense 1 PAID)))
       (demoDB [demoExpense 1 PAID]),
     Err (Unauthorized "You need to be logged in to unpay an expense"))
  /\ snd (@markExpenseAsUnpaid unit demoImports demoPayouts demoRequest 1 true
            (demoDB [demoExpense 1 APPROVED]))
     = Err (Unauthorized "You don't have permission to mark this expense as unpaid")
  /\ exists row,
       expenses (fst (@markExpenseAsUnpaid unit demoImports demoPayouts demoRequest 1 true
                        (demoDB [demoExpense 1 PAID]))) !! 1 = Some row
       /\ status row = APPROVED /\ data_isLocked row = false.
Proof.
  split; [|split].
  - apply (proj1 (@markExpenseAsUnpaid_spec unit demoImports demoPayouts
                    demoAnonymousRequest 1 true (demoDB [demoExpense 1 PAID])
                    (demoExpense 1 PAID) eq_refl eq_refl eq_refl)).
    reflexivity.
  - rewrite (proj1 (proj2 (@markExpenseAsUnpaid_spec unit demoImports demoPayouts
                             demoRequest 1 true (demoDB [demoExpense 1 APPROVED])
                             (demoExpense 1 APPROVED) eq_refl eq_refl eq_refl))
               demoAdmin eq_refl eq_refl); [reflexivity|discriminate].
  - destruct (proj2 (proj2 (@markExpenseAsUnpaid_spec unit demoImports demoPayouts
                              demoRequest 1 true (demoDB [demoExpense 1 PAID])
                              (demoExpense 1 PAID) eq_refl eq_refl eq_refl))
                _ eq_refl) as (_ & _ & _ & _ & H).
    exact H.
Defined.

Lemma checkHasBalanceToPayExpense_sound_witness :
  let e := set_collective (Some demoCollective) (demoExpense 1 APPROVED) in
  let noFees := {| paymentProcessorFeeInCollectiveCurrency := None;
                   hostFeeInCollectiveCurrency := None;
                   platformFeeInCollectiveCurrency := None |} in
  exists check,
    @checkHasBalanceToPayExpense unit demoImports demoPayouts tt (Some demoHost) e None
      true noFees false = Ok check
    /\ exists fee,
         totalAmountToPay check = Some (inQ (amount e) + fee)%Q
         /\ (inQ (amount e) + fee <= inQ 10000)%Q.
Proof.
  intros e noFees. eexists. split; [reflexivity|].
  destruct (@checkHasBalanceToPayExpense_sound unit demoImports demoPayouts tt
              (Some demoHost) e None true noFees false _ eq_refl)
    as (c & balance & fee & Hc & Hb & Hfee & [[_ Ht]|[Hp _]] & Hle);
    [|discriminate Hp].
  exists fee. split; [exact Ht|].
  injection Hb as <-. injection Hc as <-.
  exact (proj2 (Hle _ Ht)).
Defined.


Section ValidationProps.
Context {Others : Type} {imports : Imports Others}.

(** The sum of the amounts, and of their absolute values. *)
Lemma sum_of_cents (items : list ExpenseItemData) (acc : Z) :
  Z.abs acc + foldr (fun item n => Z.abs (itd_amount item) + n) 0 items <= 2 ^ 53 ->
  fold_left (fun result item => fadd result (fadd (inQ (itd_amount item)) 0)) items (inQ acc)
  = inQ (acc + foldr (fun item n => itd_amount item + n) 0 items).
Proof.
  revert acc. induction items as [|item items IH]; intros acc H; cbn [fold_left foldr] in *.
  - now rewrite Z.add_0_r.
  - assert (Hn : 0 <= foldr (fun item n => Z.abs (itd_amount item) + n) 0 items).
    { clear. induction items as [|i l IH]; cbn [foldr]; lia. }
    change 0%Q with (inQ 0).
    rewrite (fadd_integer (itd_amount item) 0) by lia.
    rewrite Z.add_0_r, fadd_integer by lia.
    rewrite IH by lia. f_equal. lia.
Qed.

(** X13: The total of an expense without taxes is the sum of the amounts of
    its items, exactly, as long as the amounts are not so large that the
    doubles in which they are added lose a cent: their absolute values add
    up to [2 ^ 53] at most. *)
Theorem computeTotalAmountForExpense_spec (items : list ExpenseItemData) :
  foldr (fun item n => Z.abs (itd_amount item) + n) 0 items <= 2 ^ 53 ->
  computeTotalAmountForExpense items []
  = foldr (fun item n => itd_amount item + n) 0 items.
Proof.
  intros H. unfold computeTotalAmountForExpense, sumBy.
  destruct items as [|item items]; [reflexivity|]. cbn [foldr] in *.
  assert (Hn : 0 <= foldr (fun item n => Z.abs (itd_amount item) + n) 0 items).
  { clear. induction items as [|i l IH]; cbn [foldr]; lia. }
  change 0%Q with (inQ 0).
  rewrite (fadd_integer (itd_amount item) 0) by lia.
  rewrite Z.add_0_r. unfold inQ at 1. rewrite toDouble_integer by lia.
  fold (inQ (itd_amount item)). change (inQ 0) with 0%Q.
  rewrite sum_of_cents by lia. apply js_round_inject_Z.
Qed.

(** X14: What [checkExpenseItems] accepts: between 1 and 300 items whose total,
    taxes included, is not 0, each with a file if the expense is a receipt.
    The total is only compared with 0: a negative one is accepted. *)
Theorem checkExpenseItems_accepts (expenseType : option ExpenseType)
    (items : option (list ExpenseItemData)) (taxes : list TaxDefinition) :
  checkExpenseItems expenseType items taxes = Ok tt
  <-> exists l,
        items = Some l /\ (1 <= length l <= 300)%nat
        /\ computeTotalAmountForExpense l taxes <> 0
        /\ (expenseType = Some RECEIPT ->
            Forall (fun a => truthyOS (itd_url a) = true) l).
Proof.
  unfold checkExpenseItems. destruct items as [[|i l]|].
  - split; [discriminate|]. intros (l & [= <-] & [H _] & _). simpl in H. lia.
  - remember (i :: l) as l' eqn:El.
    assert (Hlen : (1 <= length l')%nat) by (subst l'; simpl; lia).
    destruct (300 <? Z.of_nat (length l')) eqn:H300.
    { split; [discriminate|]. intros (l0 & [= <-] & [_ H] & _).
      apply Z.ltb_lt in H300. lia. }
    apply Z.ltb_ge in H300.
    unfold truthyZ. destruct (computeTotalAmountForExpense l' taxes =? 0) eqn:Hsum; simpl.
    { split; [discriminate|]. intros (l0 & [= <-] & _ & H & _).
      apply Z.eqb_eq in Hsum. contradiction. }
    apply Z.eqb_neq in Hsum.
    destruct (bool_decide (expenseType = Some RECEIPT)) eqn:Hr; simpl.
    + apply bool_decide_eq_true in Hr.
      destruct (existsb (fun a => negb (truthyOS (itd_url a))) l') eqn:Hex.
      * split; [discriminate|]. intros (l0 & [= <-] & _ & _ & H).
        apply existsb_exists in Hex as (a & Hin & Ha).
        specialize (H Hr). rewrite List.Forall_forall in H.
        rewrite (H a Hin) in Ha. discriminate.
      * split; [|reflexivity]. intros _. exists l'. split; [reflexivity|].
        split; [lia|]. split; [assumption|]. intros _.
        apply List.Forall_forall. intros a Hin.
        destruct (truthyOS (itd_url a)) eqn:Ha; [reflexivity|].
        assert (existsb (fun a => negb (truthyOS (itd_url a))) l' = true).
        { apply existsb_exists. exists a. now rewrite Ha. }
        congruence.
    + apply bool_decide_eq_false in Hr. split; [|reflexivity]. intros _.
      exists l'. split; [reflexivity|]. split; [lia|]. split; [assumption|].
      intros N. contradiction.
  - split; [discriminate|]. intros (l & [=] & _).
Qed.

(** X15: What [checkTaxes] accepts: no tax at all, or exactly one tax on an
    invoice, with a rate from 0 to 1, VAT only for an account that has VAT
    and GST only under a host that has GST. *)
Theorem checkTaxes_accepts (account : Collective) (host : option Host)
    (expenseType : option ExpenseType) (taxes : list TaxDefinition) :
  checkTaxes account host expenseType taxes = Ok tt
  <-> taxes = []
      \/ exists tax,
           taxes = [tax] /\ expenseType = Some INVOICE
           /\ (0 <= tax_rate tax <= 1)%Q
           /\ (tax_type tax = "VAT" -> accountHasVAT account = true)
           /\ (tax_type tax = "GST" -> accountHasGST host = true).
Proof.
  unfold checkTaxes. destruct taxes as [|tax [|tax2 rest]].
  - split; [now left|reflexivity].
  - destruct (bool_decide (expenseType = Some INVOICE)) eqn:Ht; simpl.
    2:{ apply bool_decide_eq_false in Ht. split; [discriminate|].
        intros [[=]|(t & _ & E & _)]. contradiction. }
    apply bool_decide_eq_true in Ht. unfold checkTax, Qltb.
    destruct (Qle_bool 0 (tax_rate tax)) eqn:H0; simpl.
    2:{ split; [discriminate|]. intros [[=]|(t & [= <-] & _ & [H _] & _)].
        apply Qle_bool_iff in H. congruence. }
    destruct (Qle_bool (tax_rate tax) 1) eqn:H1; simpl.
    2:{ split; [discriminate|]. intros [[=]|(t & [= <-] & _ & [_ H] & _)].
        apply Qle_bool_iff in H. congruence. }
    apply Qle_bool_iff in H0, H1.
    destruct (bool_decide (tax_type tax = "VAT")) eqn:Hv; simpl.
    + apply bool_decide_eq_true in Hv.
      destruct (accountHasVAT account) eqn:Ha; simpl.
      * rewrite (bool_decide_eq_false_2 (tax_type tax = "GST")) by (rewrite Hv; discriminate).
        simpl. split; [|reflexivity]. intros _. right. exists tax.
        repeat split; try assumption. rewrite Hv. discriminate.
      * split; [discriminate|]. intros [[=]|(t & [= <-] & _ & _ & H & _)].
        specialize (H Hv). discriminate.
    + apply bool_decide_eq_false in Hv.
      destruct (bool_decide (tax_type tax = "GST")) eqn:Hg; simpl.
      * apply bool_decide_eq_true in Hg.
        destruct (accountHasGST host) eqn:Ha; simpl.
        -- split; [|reflexivity]. intros _. right. exists tax.
           repeat split; try assumption. intros N. contradiction.
        -- split; [discriminate|]. intros [[=]|(t & [= <-] & _ & _ & _ & H)].
           specialize (H Hg). discriminate.
      * apply bool_decide_eq_false in Hg. split; [|reflexivity]. intros _.
        right. exists tax. repeat split; try assumption; intros N; contradiction.
  - split; [discriminate|]. intros [[=]|(t & [=] & _)].
Qed.
End ValidationProps.

Lemma computeTotalAmountForExpense_spec_witness :
  computeTotalAmountForExpense [demoItem 339; demoItem (-11)] [] = 328.
Proof.
  apply (computeTotalAmountForExpense_spec [demoItem 339; demoItem (-11)]).
  vm_compute. discriminate.
Defined.

(** With taxes the doubles show: 339 and 11 at 19% are 416.49999999999994,
    not 416.5. *)
Example computeTotalAmountForExpense_with_tax :
  computeTotalAmountForExpense [demoItem 339; demoItem 11]
    [{| tax_type := "VAT"; tax_rate := (19 # 100)%Q; idNumber := "EU000011111" |}]
  = 416.
Proof. vm_compute. reflexivity. Qed.

Lemma checkExpenseItems_accepts_witness :
  checkExpenseItems (Some INVOICE) (Some [demoItem (-100)]) [] = Ok tt
  /\ exists l, Some [demoItem 100] = Some l /\ computeTotalAmountForExpense l [] <> 0.
Proof.
  split.
  - apply checkExpenseItems_accepts. exists [demoItem (-100)].
    split; [reflexivity|]. split; [simpl; lia|].
    split; [vm_compute; discriminate|discriminate].
  - destruct (proj1 (checkExpenseItems_accepts (Some INVOICE) (Some [demoItem 100]) [])
                ltac:(vm_compute; reflexivity)) as (l & E & _ & H & _).
    exists l. split; [exact E|exact H].
Defined.

Lemma checkTaxes_accepts_witness :
  @checkTaxes unit demoImports demoCollective (Some demoHost) (Some INVOICE)
    [{| tax_type := "VAT"; tax_rate := (2 # 10)%Q; idNumber := "EU000011111" |}] = Ok tt.
Proof.
  apply (@checkTaxes_accepts unit demoImports). right. eexists.
  split; [reflexivity|]. split; [reflexivity|].
  split; [split; discriminate|]. split; [reflexivity|discriminate].
Defined.

Section EditingProps.
Context {Others : Type} {imports : Imports Others} {editing : EditImports Others}.

(** X16: The payout method of a new expense.  Without payout method in the data
    there is none.  With the id of a payout method, nothing is written, an
    id that is not in the database is an error, and the payout method that
    is returned is the one stored under that id and is either a bank
    account or a PayPal account of the host of the payee, or a payout
    method of the payee itself used by one of its admins: nobody attaches
    the payout method of a third party to an expense. *)
Theorem getPayoutMethodFromExpenseData_spec (expenseData : ExpenseData)
    (remoteUser : User) (fromCollective_ : Collective) (o : Others) :
  let out := getPayoutMethodFromExpenseData expenseData remoteUser fromCollective_ o in
  (ed_payoutMethod expenseData = None -> out = (o, Ok None))
  /\ (forall input,
        ed_payoutMethod expenseData = Some input -> pm_id input <> 0 ->
        fst out = o
        /\ (PayoutMethod_findByPk o (pm_id input) = None ->
            snd out = Err (JsError "This payout method does not exist."))
        /\ forall r, snd out = Ok r ->
             exists pm,
               r = Some pm /\ PayoutMethod_findByPk o (pm_id input) = Some pm
               /\ (Some (pm_CollectiveId pm) = HostCollectiveId fromCollective_
                   /\ (pm_type pm = BANK_ACCOUNT \/ pm_type pm = PAYPAL)
                   \/ isAdmin remoteUser (Some (pm_CollectiveId pm)) = true
                      /\ pm_CollectiveId pm = c_id fromCollective_)).
Proof.
  cbv zeta. unfold getPayoutMethodFromExpenseData. split.
  - now intros ->.
  - intros input -> Hid. unfold truthyZ.
    rewrite (proj2 (Z.eqb_neq _ _) Hid). simpl. unfold bind, gets.
    destruct (PayoutMethod_findByPk o (pm_id input)) as [pm|] eqn:Hpm.
    2:{ split; [reflexivity|]. split; [reflexivity|]. intros r [=]. }
    destruct (bool_decide (Some (pm_CollectiveId pm) = HostCollectiveId fromCollective_)
              && bool_decide (pm_type pm ∈ [BANK_ACCOUNT; PAYPAL])) eqn:Hh.
    { split; [reflexivity|]. split; [discriminate|]. intros r [= <-].
      exists pm. split; [reflexivity|]. split; [reflexivity|]. left.
      apply andb_true_iff in Hh as [H1 H2].
      apply bool_decide_eq_true in H1, H2.
      rewrite !elem_of_cons, elem_of_nil in H2. split; [exact H1|tauto]. }
    destruct (isAdmin remoteUser (Some (pm_CollectiveId pm))) eqn:Ha; simpl.
    2:{ split; [reflexivity|]. split; [discriminate|]. intros r [=]. }
    destruct (bool_decide (pm_CollectiveId pm = c_id fromCollective_)) eqn:Hc; simpl.
    2:{ split; [reflexivity|]. split; [discriminate|]. intros r [=]. }
    split; [reflexivity|]. split; [discriminate|]. intros r [= <-].
    exists pm. split; [reflexivity|]. split; [reflexivity|]. right.
    split; [exact Ha|]. now apply bool_decide_eq_true in Hc.
Qed.

End EditingProps.

Section EditExpenseProps.
Context {Others : Type} {imports : Imports Others} {editing : EditImports Others}.

Lemma onlyTags_no_items (d : ExpenseData) :
  onlyTags d = true -> ed_items d = None /\ ed_type d = None /\ ed_tax d = None.
Proof.
  unfold onlyTags. rewrite !andb_true_iff, !bool_decide_eq_true. tauto.
Qed.

Lemma canEditExpense_frozen (req : Request) (e : Expense) :
  status e ∈ [PROCESSING; DRAFT; SCHEDULED_FOR_PAYMENT; CANCELED] ->
  canEditExpense req e false = Ok (e, false).
Proof.
  intros Hs. unfold canEditExpense, deny. cbv zeta.
  assert (Hp : bool_decide (status e = PAID) = false).
  { apply bool_decide_eq_false. intros E. rewrite E in Hs.
    rewrite !elem_of_cons, elem_of_nil in Hs. intuition discriminate. }
  rewrite Hp, andb_false_r. simpl.
  rewrite !elem_of_cons, elem_of_nil in Hs.
  unfold includes.
  destruct Hs as [->|[->|[->|[->|[]]]]]; reflexivity.
Qed.

(** X18: An edit that carries nothing but tags.  The option that skips the
    permission check has no effect on it.  When it succeeds, the user is
    allowed to use expenses and is the author of the expense or an admin of
    its host or of its collective, the author not being enough once the
    expense is paid; the status of the expense is otherwise not looked at;
    the only change to the database is the tags of that expense. *)
Theorem editExpense_tags_only (req : Request) (expenseId : Z) (d : ExpenseData)
    (overrideRemoteUser : option User) (skipPermissionCheck : bool) (db : DB Others) :
  onlyTags d = true ->
  editExpense req expenseId d overrideRemoteUser skipPermissionCheck db
  = editExpense req expenseId d overrideRemoteUser false db
  /\ forall db' e',
       editExpense req expenseId d overrideRemoteUser skipPermissionCheck db
       = (db', Ok e') ->
       exists row,
         expenses db !! expenseId = Some row
         /\ db' = upd_expenses (alter (set_tags (ed_tags d)) (id row)) db
         /\ tags e' = ed_tags d /\ id e' = id row /\ status e' = status row
         /\ canUseFeature (remoteUser req) USE_EXPENSES = true
         /\ holdsOneOf [owns; adminsHost; adminsCollective] req (rowForEdit db row) = true
         /\ (status row = PAID ->
             holdsOneOf [adminsHost; adminsCollective] req (rowForEdit db row) = true).
Proof.
  intros Ht. destruct (onlyTags_no_items d Ht) as (Hi & Hty & Htx).
  unfold editExpense. rewrite Ht, Hi.
  split; [reflexivity|].
  intros db' e'.
  destruct (match overrideRemoteUser with Some u => Some u | None => remoteUser req end)
    as [u|]; [|intros [=]].
  destruct (negb (canUseFeature (Some u) USE_EXPENSES)); [intros [=]|].
  unfold bind, Expense_findByPk_forEdit, gets, lift.
  destruct (expenses db !! expenseId) as [row|] eqn:Hrow; simpl; [|intros [=]].
  destruct (Collective_findByPk (CollectiveId row)) as [c|]; [|intros [=]].
  destruct (checkTaxes _ _ _ _); [|intros [=]].
  destruct (canEditExpenseTags_verdict req (rowForEdit db row)) as (e1 & L & V).
  rewrite V. cbv beta iota.
  change (status (rowForEdit db row)) with (status row).
  unfold loadedFrom in L. destruct L as (c' & f' & -> & _ & _).
  destruct (canUseFeature (remoteUser req) USE_EXPENSES); cbn [andb negb];
    [|intros [=]].
  destruct (bool_decide (status row = PAID)) eqn:Hp.
  - destruct (holdsOneOf [adminsHost; adminsCollective] req (rowForEdit db row)) eqn:Hh;
      cbn [negb]; [|intros [=]].
    unfold update_tags. intros [= <- <-]. exists row.
    split; [reflexivity|]. split; [reflexivity|]. split; [reflexivity|].
    split; [reflexivity|]. split; [reflexivity|]. split; [reflexivity|].
    split; [|intros _; exact Hh].
    unfold holdsOneOf in *. destruct (remoteUser req); [|discriminate].
    cbn [existsb] in *. rewrite orb_false_r in *.
    apply orb_true_iff. right. exact Hh.
  - destruct (holdsOneOf [owns; adminsHost; adminsCollective] req (rowForEdit db row))
      eqn:Hh; cbn [negb]; [|intros [=]].
    unfold update_tags. intros [= <- <-]. exists row.
    split; [reflexivity|]. split; [reflexivity|]. split; [reflexivity|].
    split; [reflexivity|]. split; [reflexivity|]. split; [reflexivity|].
    split; [exact Hh|].
    intros Hs. apply bool_decide_eq_false in Hp. now elim Hp.
Qed.

(** X19: What [editExpense] refuses.  Without a user it answers Unauthorized.
    For an id that is not in the database it fails, with a TypeError when
    the user passed the first two checks, and never with NotFound.  With the
    permission check on, an edit of more than the tags of an expense that is
    processing, a draft, scheduled for payment or canceled fails.  In the
    three cases the database is left as it was. *)
Theorem editExpense_refuses (req : Request) (expenseId : Z) (d : ExpenseData)
    (overrideRemoteUser : option User) (skipPermissionCheck : bool) (db : DB Others) :
  let out := editExpense req expenseId d overrideRemoteUser skipPermissionCheck db in
  (overrideRemoteUser = None -> remoteUser req = None ->
   out = (db, Err (Unauthorized "You need to be logged in to edit an expense")))
  /\ (expenses db !! expenseId = None ->
      fst out = db
      /\ snd out <> Err (NotFound "Expense not found")
      /\ forall u,
           (overrideRemoteUser = Some u
            \/ overrideRemoteUser = None /\ remoteUser req = Some u) ->
           canUseFeature (Some u) USE_EXPENSES = true ->
           snd out = Err TypeError)
  /\ (forall row,
        expenses db !! expenseId = Some row ->
        status row ∈ [PROCESSING; DRAFT; SCHEDULED_FOR_PAYMENT; CANCELED] ->
        onlyTags d = false -> skipPermissionCheck = false ->
        fst out = db /\ exists err, snd out = Err err).
Proof.
  cbv zeta. unfold editExpense. split; [|split].
  - now intros -> ->.
  - intros Hrow.
    destruct (match overrideRemoteUser with Some u => Some u | None => remoteUser req end)
      as [u|] eqn:Hu.
    + destruct (canUseFeature (Some u) USE_EXPENSES) eqn:Hf; simpl.
      * unfold bind, Expense_findByPk_forEdit, gets. rewrite Hrow. simpl.
        split; [reflexivity|]. split; [discriminate|]. intros _ _ _. reflexivity.
      * split; [reflexivity|]. split; [discriminate|].
        intros u' Hu' Hf'. exfalso.
        assert (u' = u) as ->; [|congruence].
        destruct Hu' as [->|[-> H]]; congruence.
    + split; [reflexivity|]. split; [discriminate|].
      intros u' Hu' _. exfalso. destruct Hu' as [->|[-> H]]; congruence.
  - intros row Hrow Hs Ht ->. rewrite Ht.
    destruct (match overrideRemoteUser with Some u => Some u | None => remoteUser req end)
      as [u|]; [|split; [reflexivity|eexists; reflexivity]].
    destruct (negb (canUseFeature (Some u) USE_EXPENSES));
      [split; [reflexivity|eexists; reflexivity]|].
    unfold bind, Expense_findByPk_forEdit, gets, lift. rewrite Hrow. simpl.
      destruct (match ed_items d with Some _ => _ | None => _ end);
      [|split; [reflexivity|eexists; reflexivity]].
    destruct (Collective_findByPk (CollectiveId row));
      [|split; [reflexivity|eexists; reflexivity]].
    destruct (checkTaxes _ _ _ _); [|split; [reflexivity|eexists; reflexivity]].
    rewrite (canEditExpense_frozen req (rowForEdit db row) Hs). simpl.
    split; [reflexivity|eexists; reflexivity].
Qed.
End EditExpenseProps.

Lemma getPayoutMethodFromExpenseData_spec_witness :
  snd (getPayoutMethodFromExpenseData (editing := demoEditing)
         (demoPayoutData 7) demoStranger demoCollective tt)
  = Err (JsError "This payout method does not exist.")
  /\ (getPayoutMethodFromExpenseData (editing := demoEditing)
        demoTagsOnly demoStranger demoCollective tt = (tt, Ok None))
  /\ exists pm,
       PayoutMethod_findByPk (EditImports := demoEditing) tt 6 = Some pm
       /\ (Some (pm_CollectiveId pm) = HostCollectiveId demoCollective
           /\ (pm_type pm = BANK_ACCOUNT \/ pm_type pm = PAYPAL)
           \/ isAdmin demoStranger (Some (pm_CollectiveId pm)) = true
              /\ pm_CollectiveId pm = c_id demoCollective).
Proof.
  split; [|split].
  - apply (proj1 (proj2 (proj2 (getPayoutMethodFromExpenseData_spec
                                  (editing := demoEditing) (demoPayoutData 7)
                                  demoStranger demoCollective tt)
                           _ eq_refl ltac:(discriminate)))).
    reflexivity.
  - apply (proj1 (getPayoutMethodFromExpenseData_spec
                    (editing := demoEditing) demoTagsOnly
                    demoStranger demoCollective tt)).
    reflexivity.
  - destruct (proj2 (proj2 (proj2 (getPayoutMethodFromExpenseData_spec
                                     (editing := demoEditing) (demoPayoutData 6)
                                     demoStranger demoCollective tt)
                              _ eq_refl ltac:(discriminate)))
                _ eq_refl) as (pm & _ & H).
    exists pm. exact H.
Defined.


(** The product is the one of doubles: 5000 times 0.0029 is
    14.499999999999998, which rounds to 14, where the product of the
    numbers written is 14.5. *)
Example buildAmount_rounds_the_double_product :
  am_value (buildAmount (editing := demoEditing) (demoExpense 1 APPROVED) "EUR"
              (29 # 10000) OPENCOLLECTIVE true None)
  = 14
  /\ js_round (inQ 5000 * (29 # 10000)) = 15.
Proof. vm_compute. split; reflexivity. Qed.

Lemma editExpense_tags_only_witness :
  editExpense (imports := demoImports) (editing := demoEditing)
    demoRequest 1 demoTagsOnly None true (demoDB [demoExpense 1 PAID])
  = editExpense (imports := demoImports) (editing := demoEditing)
      demoRequest 1 demoTagsOnly None false (demoDB [demoExpense 1 PAID])
  /\ exists row,
       expenses (demoDB [demoExpense 1 PAID]) !! 1 = Some row
       /\ upd_expenses (alter (set_tags (Some ["food"])) 1) (demoDB [demoExpense 1 PAID])
          = upd_expenses (alter (set_tags (ed_tags demoTagsOnly)) (id row))
              (demoDB [demoExpense 1 PAID]).
Proof.
  split.
  - apply (proj1 (editExpense_tags_only (imports := demoImports) (editing := demoEditing)
                    demoRequest 1 demoTagsOnly None true (demoDB [demoExpense 1 PAID])
                    eq_refl)).
  - destruct (proj2 (editExpense_tags_only (imports := demoImports)
                       (editing := demoEditing)
                       demoRequest 1 demoTagsOnly None true (demoDB [demoExpense 1 PAID])
                       eq_refl) _ _ eq_refl) as (row & H1 & H2 & _).
    exists row. split; [exact H1|exact H2].
Defined.

Lemma editExpense_refuses_witness :
  editExpense (imports := demoImports) (editing := demoEditing)
    demoAnonymousRequest 1 demoTagsOnly None false (demoDB [demoExpense 1 PENDING])
  = (demoDB [demoExpense 1 PENDING],
     Err (Unauthorized "You need to be logged in to edit an expense"))
  /\ snd (editExpense (imports := demoImports) (editing := demoEditing)
            demoRequest 2 demoTagsOnly None false (demoDB [demoExpense 1 PENDING]))
     = Err TypeError
  /\ fst (editExpense (imports := demoImports) (editing := demoEditing)
            demoRequest 1 (demoPayoutData 6) None false
            (demoDB [demoExpense 1 PROCESSING]))
     = demoDB [demoExpense 1 PROCESSING].
Proof.
  split; [|split].
  - apply (proj1 (editExpense_refuses (imports := demoImports) (editing := demoEditing)
                    demoAnonymousRequest 1 demoTagsOnly None false
                    (demoDB [demoExpense 1 PENDING])));
      reflexivity.
  - apply (proj2 (proj2 (proj1 (proj2 (editExpense_refuses (imports := demoImports)
                                  (editing := demoEditing)
                                  demoRequest 2 demoTagsOnly None false
                                  (demoDB [demoExpense 1 PENDING])))
                           eq_refl)) demoAdmin).
    + right. split; reflexivity.
    + reflexivity.
  - apply (proj2 (proj2 (editExpense_refuses (imports := demoImports)
                           (editing := demoEditing)
                           demoRequest 1 (demoPayoutData 6) None false
                           (demoDB [demoExpense 1 PROCESSING])))
             (demoExpense 1 PROCESSING) eq_refl).
    + apply elem_of_cons. now left.
    + reflexivity.
    + reflexivity.
Defined.

End ExpensesProps.

(* ------------------------------------------------------------------ *)
(** ** Virtual cards *)

Module VirtualCardProps.
Import VirtualCardMutations.

Section MutationsProps.
Context {External : Type} {imports : Imports External}.

(** The call failed and left the database as it was. *)
Ltac refused := split; [reflexivity|split; [reflexivity|]].

Lemma exceedsMaximum_above (v : Z) : 200000 < v -> exceedsMaximum (Some v) = true.
Proof. intros H. unfold exceedsMaximum, MAXIMUM_MONTHLY_LIMIT. now apply Z.ltb_lt. Qed.

(** C8: a [createVirtualCard] whose monthly limit in cents is above 200000
    creates no card: it fails with the database unchanged, and for a
    logged-in user, on an account that resolves and has a host, the error is
    [BadRequest].  [editVirtualCard] does the same for a card whose limit is
    MONTHLY and whose provider is STRIPE: nothing is updated, and for a
    logged-in admin of the card's host whose new assignee, if any,
    resolves to a user, the error is [BadRequest]. *)
Theorem monthly_limit_enforced (remoteUser : option User) (db : DB External) :
  (forall args v,
     valueInCents (cr_monthlyLimit args) = Some v -> 200000 < v ->
     let out := createVirtualCard remoteUser args db in
     fst out = db /\ isOk (snd out) = false
     /\ (forall u collective host,
           remoteUser = Some u ->
           fetchAccountWithReference (cr_account args) true = Ok (Some collective) ->
           getHostCollective collective = Some host ->
           snd out = Err (BadRequest (limitMessage (h_currency host))
                            [("monthlyLimit", limitMessage (h_currency host))])))
  /\ (forall args card limit v,
        virtualCards db !! ed_virtualCard args = Some card ->
        spendingLimitInterval card = MONTHLY -> provider card = STRIPE ->
        ed_monthlyLimit args = Some limit ->
        valueInCents limit = Some v -> 200000 < v ->
        let out := editVirtualCard remoteUser args db in
        fst out = db /\ isOk (snd out) = false
        /\ (forall u,
              remoteUser = Some u ->
              isAdmin u (HostCollectiveId card) = true ->
              (forall ref, ed_assignee args = Some ref ->
                 exists account user,
                   fetchAccountWithReference ref false = Ok (Some account)
                   /\ getUser account = Some user) ->
              snd out = Err (BadRequest (limitMessage (currency card))
                               [("monthlyLimit", limitMessage (currency card))]))).
Proof.
  split.
  - intros args v Hv Hgt. cbv zeta. unfold createVirtualCard.
    destruct remoteUser as [u|]; [|refused; intros ? ? ? [=]].
    unfold fetchAccount. unfold bind, lift, ret, throw.
    rewrite Hv, (exceedsMaximum_above v Hgt).
    destruct (fetchAccountWithReference (cr_account args) true) as [[a|]|x];
      cbv beta iota; [|refused; intros ? ? ? _ [=]|refused; intros ? ? ? _ [=]].
    destruct (getHostCollective a) as [h|] eqn:Hhost; cbv beta iota; refused.
    + intros u' c' h' _ [= <-] Hh. rewrite Hhost in Hh. injection Hh as <-. reflexivity.
    + intros u' c' h' _ [= <-] Hh. rewrite Hhost in Hh. discriminate Hh.
  - intros args card limit v Hcard Hm Hs Hl Hv Hgt. cbv zeta. unfold editVirtualCard.
    destruct remoteUser as [u|]; [|refused; intros ? [=]].
    unfold fetchAccount. unfold bind, gets, lift, ret, throw.
    rewrite Hcard. cbv beta iota.
    destruct (isAdmin u (HostCollectiveId card)) eqn:Hadm; cbn [negb]; cbv beta iota;
      [|refused; intros ? [= <-]; congruence].
    rewrite Hl, Hm, Hs, Hv, (exceedsMaximum_above v Hgt).
    rewrite !bool_decide_eq_true_2 by reflexivity. cbn [negb andb].
    destruct (ed_assignee args) as [ref|].
    + destruct (fetchAccountWithReference ref false) as [[a|]|x] eqn:Hfetch;
        cbv beta iota.
      * destruct (getUser a) as [usr|] eqn:Husr; cbv beta iota; refused.
        -- intros; reflexivity.
        -- intros u' _ _ Hres.
           destruct (Hres ref eq_refl) as (a' & usr' & Hf' & Hu').
           rewrite Hfetch in Hf'. injection Hf' as <-. congruence.
      * refused. intros u' _ _ Hres.
        destruct (Hres ref eq_refl) as (a' & usr' & Hf' & _).
        rewrite Hfetch in Hf'. discriminate Hf'.
      * refused. intros u' _ _ Hres.
        destruct (Hres ref eq_refl) as (a' & usr' & Hf' & _).
        rewrite Hfetch in Hf'. discriminate Hf'.
    + cbv beta iota. refused. intros; reflexivity.
Qed.

End MutationsProps.

Lemma monthly_limit_enforced_witness :
  @createVirtualCard unit cardImports (Some cardAdmin) (createArgs 200001) (cardDB [])
  = (cardDB [],
     Err (BadRequest "Monthly limit should not exceed 2000 USD"
            [("monthlyLimit", "Monthly limit should not exceed 2000 USD")])).
Proof.
  pose proof (proj1 (@monthly_limit_enforced unit cardImports (Some cardAdmin) (cardDB []))
                (createArgs 200001) 200001 eq_refl ltac:(lia)) as H.
  cbv zeta in H. destruct H as (Hdb & _ & Herr).
  specialize (Herr cardAdmin {| a_id := 1 |} cardHost eq_refl eq_refl eq_refl).
  rewrite (surjective_pairing (createVirtualCard _ _ _)), Hdb, Herr. reflexivity.
Defined.

(** The limit itself is accepted: 2000.00 creates the card. *)
Example createVirtualCard_at_the_limit :
  let out := @createVirtualCard unit cardImports (Some cardAdmin) (createArgs 200000)
               (cardDB []) in
  isOk (snd out) = true
  /\ spendingLimitAmount <$> (virtualCards (fst out) !! "card_1") = Some (Some 200000).
Proof. vm_compute. split; reflexivity. Qed.

Example editVirtualCard_above_the_limit :
  @editVirtualCard unit cardImports (Some cardAdmin) (editArgs 250000)
    (cardDB [stripeCard (Some 100000)])
  = (cardDB [stripeCard (Some 100000)],
     Err (BadRequest "Monthly limit should not exceed 2000 USD"
            [("monthlyLimit", "Monthly limit should not exceed 2000 USD")])).
Proof. vm_compute. reflexivity. Qed.

Example editVirtualCard_below_the_limit :
  let out := @editVirtualCard unit cardImports (Some cardAdmin) (editArgs 150000)
               (cardDB [stripeCard (Some 100000)]) in
  spendingLimitAmount <$> (virtualCards (fst out) !! "card_1") = Some (Some 150000).
Proof. vm_compute. reflexivity. Qed.


Section CardOperationsProps.
Context {External : Type} {imports : Imports External} {cards : CardImports External}.
Local Open Scope db_scope.

(** X20: Editing, pausing, resuming and deleting a card are for the admins of
    its host: for any other request (no user, a card that does not exist,
    a user who is not admin of the host of the card) each of the four
    mutations answers Unauthorized or NotFound and leaves the database as it
    was. *)
Theorem card_operations_require_host_admin (remoteUser : option User)
    (args : EditVirtualCardArgs) (db : DB External) :
  ~ byHostAdmin remoteUser (ed_virtualCard args) db ->
  refusedByGuard (editVirtualCard remoteUser args db) db
    "You need to be logged in to assign a virtual card"
    "You don't have permission to update this Virtual Card"
  /\ refusedByGuard (pauseVirtualCard remoteUser (ed_virtualCard args) db) db
       "You need to be logged in to assign a Virtual Card"
       "You don't have permission to edit this Virtual Card"
  /\ refusedByGuard (resumeVirtualCard remoteUser (ed_virtualCard args) db) db
       "You need to be logged in to assign a Virtual Card"
       "You don't have permission to edit this Virtual Card"
  /\ refusedByGuard (deleteVirtualCard remoteUser (ed_virtualCard args) db) db
       "You need to be logged in to assign a Virtual Card"
       "You don't have permission to edit this Virtual Card".
Proof.
  intros N. unfold refusedByGuard, editVirtualCard, pauseVirtualCard, resumeVirtualCard,
    deleteVirtualCard.
  destruct remoteUser as [u|]; [|repeat split; now left].
  unfold bind, gets.
  destruct (virtualCards db !! ed_virtualCard args) as [card|] eqn:Hc;
    [|repeat split; right; now left].
  destruct (isAdmin u (HostCollectiveId card)) eqn:Ha.
  - elim N. now exists u, card.
  - repeat split; right; now right.
Qed.

(** X21: The limit given to [editVirtualCard] for a card that is not a monthly
    Stripe card is ignored, whatever it is: the call does what it does
    without that argument.  When it succeeds, the limit of the card is what
    it was, and so are its host, its collective, its provider and its
    currency; the row of the card is the only thing written. *)
Theorem editVirtualCard_ignores_limit (remoteUser : option User)
    (args : EditVirtualCardArgs) (db : DB External) (card : VirtualCard) :
  virtualCards db !! ed_virtualCard args = Some card ->
  id card = ed_virtualCard args ->
  spendingLimitInterval card <> MONTHLY \/ provider card <> STRIPE ->
  editVirtualCard remoteUser args db
  = editVirtualCard remoteUser
      {| ed_virtualCard := ed_virtualCard args; ed_name := ed_name args;
         ed_assignee := ed_assignee args; ed_monthlyLimit := None |} db
  /\ forall db' card',
       editVirtualCard remoteUser args db = (db', Ok card') ->
       spendingLimitAmount card' = spendingLimitAmount card
       /\ HostCollectiveId card' = HostCollectiveId card
       /\ CollectiveId card' = CollectiveId card
       /\ provider card' = provider card /\ currency card' = currency card
       /\ virtualCards db' = <[ed_virtualCard args := card']> (virtualCards db)
       /\ activities db' = activities db /\ external db' = external db.
Proof.
  intros Hc Hid Hn.
  assert (Hb : bool_decide (spendingLimitInterval card = MONTHLY)
               && bool_decide (provider card = STRIPE) = false).
  { apply andb_false_iff. destruct Hn as [H|H]; [left|right];
      now apply bool_decide_eq_false. }
  unfold editVirtualCard.
  destruct remoteUser as [u|]; [|split; [reflexivity|intros ? ? [=]]].
  unfold bind, gets. cbn [ed_virtualCard ed_name ed_assignee ed_monthlyLimit].
  rewrite Hc. cbv beta iota.
  destruct (negb (isAdmin u (HostCollectiveId card)));
    [split; [reflexivity|intros ? ? [=]]|].
  rewrite Hb.
  assert (E : (match ed_monthlyLimit args with
               | Some _ => ret None
               | None => ret None
               end : M (DB External) (option (option Z))) = ret None)
    by now destruct (ed_monthlyLimit args).
  rewrite E. split; [reflexivity|].
  intros db' card'.
  assert (F : forall (userId : option Z),
            VirtualCard_update card
              {| upd_UserId := userId;
                 upd_name := match ed_name args with
                             | Some n => if truthyS n then Some n else None
                             | None => None
                             end;
                 upd_spendingLimitAmount := None |} db = (db', Ok card') ->
            spendingLimitAmount card' = spendingLimitAmount card
            /\ HostCollectiveId card' = HostCollectiveId card
            /\ CollectiveId card' = CollectiveId card
            /\ provider card' = provider card /\ currency card' = currency card
            /\ virtualCards db' = <[ed_virtualCard args := card']> (virtualCards db)
            /\ activities db' = activities db /\ external db' = external db).
  { intros userId. unfold VirtualCard_update. intros [= <- <-]. cbn.
    repeat split; try reflexivity.
    rewrite Hid. apply map_eq. intros k.
    destruct (decide (k = ed_virtualCard args)) as [->|Hk].
    - rewrite lookup_alter_eq, lookup_insert_eq, Hc. reflexivity.
    - rewrite lookup_alter_ne, lookup_insert_ne by congruence. reflexivity. }
  destruct (ed_assignee args) as [ref|]; [|apply F].
  unfold fetchAccount, bind, lift.
  destruct (fetchAccountWithReference ref false) as [[a|]|x]; cbn;
    [|intros [=]|intros [=]].
  destruct (getUser a); cbn; [apply F|intros [=]].
Qed.

Lemma guards_passed (remoteUser : option User) (cardId : string) (db : DB External)
    (u : User) (card : VirtualCard) :
  remoteUser = Some u -> virtualCards db !! cardId = Some card ->
  isAdmin u (HostCollectiveId card) = true ->
  pauseVirtualCard remoteUser cardId db
  = (card' <- VirtualCard_pause card ;;
     match card_host card with
     | None => throw TypeError
     | Some _ =>
         match card_collective card with
         | None => throw TypeError
         | Some collective =>
             _ <- Activity_create
                    {| ca_type := COLLECTIVE_VIRTUAL_CARD_SUSPENDED;
                       ca_UserId := None;
                       ca_CollectiveId := Some (a_id collective) |} ;;
             ret card'
         end
     end) db.
Proof.
  intros -> Hc Ha. unfold pauseVirtualCard. unfold bind at 1, gets.
  now rewrite Hc, Ha.
Qed.

(** X22: Pausing writes first and reports afterwards.  For a host admin, a card
    whose host or collective is gone is paused all the same, and the call
    then fails with a TypeError, the database being the one that pausing has
    left; when the call succeeds, the card is paused first and the activity
    of the collective of the card created after it, the answer being the
    card as [pause] returned it. *)
Theorem pauseVirtualCard_spec (remoteUser : option User) (cardId : string)
    (db : DB External) (u : User) (card : VirtualCard) :
  remoteUser = Some u -> virtualCards db !! cardId = Some card ->
  isAdmin u (HostCollectiveId card) = true ->
  let out := pauseVirtualCard remoteUser cardId db in
  (forall db1 paused,
     VirtualCard_pause card db = (db1, Ok paused) ->
     card_host card = None \/ card_collective card = None ->
     out = (db1, Err TypeError))
  /\ (forall db' paused,
        out = (db', Ok paused) ->
        exists db1 collective,
          VirtualCard_pause card db = (db1, Ok paused)
          /\ card_collective card = Some collective /\ is_Some (card_host card)
          /\ Activity_create {| ca_type := COLLECTIVE_VIRTUAL_CARD_SUSPENDED;
                                ca_UserId := None;
                                ca_CollectiveId := Some (a_id collective) |} db1
             = (db', Ok tt)).
Proof.
  intros Hu Hc Ha. cbv zeta. rewrite (guards_passed _ _ _ _ _ Hu Hc Ha).
  unfold bind. split.
  - intros db1 paused -> [H|H].
    + now rewrite H.
    + rewrite H. now destruct (card_host card).
  - intros db' paused.
    destruct (VirtualCard_pause card db) as [db1 [p|e]]; [|intros [=]].
    destruct (card_host card) as [h|]; [|intros [=]].
    destruct (card_collective card) as [c|]; [|intros [=]].
    destruct (Activity_create _ db1) as [db2 [[]|e]] eqn:Hact; [|intros [=]].
    intros [= <- <-]. exists db1, c. repeat split; [now exists h|exact Hact].
Qed.

(** X23: A card is requested by an admin of the collective, for a collective
    that has a host, by a user who has a profile: any other request fails
    before an activity is created, with the database as it was.  A missing
    host or profile is a TypeError, not an error of the API. *)
Theorem requestVirtualCard_spec (remoteUser : option User) (account : AccountReference)
    (db : DB External) :
  let out := requestVirtualCard remoteUser account db in
  (forall db' b,
     out = (db', Ok b) ->
     b = true
     /\ exists u collective,
          remoteUser = Some u
          /\ fetchAccountWithReference account true = Ok (Some collective)
          /\ isAdminOfAccount u collective = true
          /\ is_Some (getHostCollective collective) /\ is_Some (getCollective u)
          /\ Activity_create {| ca_type := VIRTUAL_CARD_REQUESTED;
                                ca_UserId := Some (u_id u);
                                ca_CollectiveId := None |} db = (db', Ok tt))
  /\ (forall u collective,
        remoteUser = Some u ->
        fetchAccountWithReference account true = Ok (Some collective) ->
        (isAdminOfAccount u collective = false ->
         out = (db, Err (Unauthorized
                           "You don't have permission to request a virtual card for this collective")))
        /\ (isAdminOfAccount u collective = true ->
            getHostCollective collective = None -> out = (db, Err TypeError))).
Proof.
  cbv zeta. unfold requestVirtualCard, fetchAccount, bind, lift. split.
  - intros db' b. destruct remoteUser as [u|]; [|intros [=]].
    destruct (fetchAccountWithReference account true) as [[c|]|x]; cbn;
      [|intros [=]|intros [=]].
    destruct (isAdminOfAccount u c) eqn:Ha; cbn; [|intros [=]].
    destruct (getHostCollective c) as [h|] eqn:Hh; [|intros [=]].
    destruct (getUrlPath c); [|intros [=]].
    destruct (getCollective u) as [uc|] eqn:Huc; [|intros [=]].
    destruct (Activity_create _ db) as [db2 [[]|e]] eqn:Hact; [|intros [=]].
    intros [= <- <-]. split; [reflexivity|]. exists u, c.
    repeat split; try reflexivity; try assumption;
      [rewrite Hh|rewrite Huc]; eexists; reflexivity.
  - intros u c -> ->. cbn. split.
    + intros ->. reflexivity.
    + intros -> ->. reflexivity.
Qed.
End CardOperationsProps.

Lemma card_operations_require_host_admin_witness :
  refusedByGuard
    (deleteVirtualCard (cards := cardOperations) (Some cardStranger) "card_1"
       (cardDB [stripeCard None]))
    (cardDB [stripeCard None])
    "You need to be logged in to assign a Virtual Card"
    "You don't have permission to edit this Virtual Card"
  /\ refusedByGuard
       (editVirtualCard (imports := cardImports) None (editArgs 100)
          (cardDB [stripeCard None]))
       (cardDB [stripeCard None])
       "You need to be logged in to assign a virtual card"
       "You don't have permission to update this Virtual Card".
Proof.
  assert (N : forall ru,
            (forall u, ru = Some u -> isAdmin u 10 = false) ->
            ~ byHostAdmin ru (ed_virtualCard (editArgs 100)) (cardDB [stripeCard None])).
  { intros ru H (u & card & Hu & Hc & Ha).
    vm_compute in Hc. injection Hc as <-. cbn in Ha. rewrite (H u Hu) in Ha.
    discriminate Ha. }
  split.
  - apply (proj2 (proj2 (proj2
             (card_operations_require_host_admin (imports := cardImports)
                (cards := cardOperations) (Some cardStranger) (editArgs 100)
                (cardDB [stripeCard None])
                (N (Some cardStranger) ltac:(intros u [= <-]; reflexivity)))))).
  - apply (proj1 (card_operations_require_host_admin (imports := cardImports)
                    (cards := cardOperations) None (editArgs 100)
                    (cardDB [stripeCard None])
                    (N None ltac:(intros u [=])))).
Defined.

Lemma editVirtualCard_ignores_limit_witness :
  editVirtualCard (imports := cardImports) (Some cardAdmin) (editArgs 250000)
    (cardDB [privacyCard (Some 100)])
  = (cardDB [privacyCard (Some 100)], Ok (privacyCard (Some 100)))
  /\ editVirtualCard (imports := cardImports) (Some cardAdmin) (editArgs 250000)
       (cardDB [privacyCard (Some 100)])
     = editVirtualCard (imports := cardImports) (Some cardAdmin)
         {| ed_virtualCard := ed_virtualCard (editArgs 250000);
            ed_name := ed_name (editArgs 250000);
            ed_assignee := ed_assignee (editArgs 250000);
            ed_monthlyLimit := None |} (cardDB [privacyCard (Some 100)]).
Proof.
  split; [vm_compute; reflexivity|].
  assert (Hcard : virtualCards (cardDB [privacyCard (Some 100)])
                  !! ed_virtualCard (editArgs 250000) = Some (privacyCard (Some 100)))
    by (vm_compute; reflexivity).
  assert (Hprovider : provider (privacyCard (Some 100)) <> STRIPE) by discriminate.
  pose proof (editVirtualCard_ignores_limit (imports := cardImports) (Some cardAdmin)
                (editArgs 250000) (cardDB [privacyCard (Some 100)])
                (privacyCard (Some 100)) Hcard) as H.
  specialize (H eq_refl (or_intror Hprovider)).
  destruct H as [H _]. exact H.
Defined.

Lemma pauseVirtualCard_spec_witness :
  pauseVirtualCard (cards := orphanCardOperations) (Some cardAdmin) "card_1" orphanCardDB
  = ({| virtualCards := virtualCards orphanCardDB; activities := [];
        external := ["card_1"] |}, Err TypeError).
Proof.
  apply (proj1 (pauseVirtualCard_spec (cards := orphanCardOperations) (Some cardAdmin)
                  "card_1" orphanCardDB cardAdmin (stripeCard None)
                  eq_refl eq_refl eq_refl) _ (stripeCard None)).
  - reflexivity.
  - right. reflexivity.
Defined.

Lemma requestVirtualCard_spec_witness :
  requestVirtualCard (imports := cardImports) (cards := cardOperations)
    (Some cardStranger) {| ref_id := 1 |} (cardDB [])
  = (cardDB [],
     Err (Unauthorized
            "You don't have permission to request a virtual card for this collective")).
Proof.
  apply (proj1 (proj2 (requestVirtualCard_spec (imports := cardImports)
                         (cards := cardOperations) (Some cardStranger) {| ref_id := 1 |}
                         (cardDB []))
                  cardStranger {| a_id := 1 |} eq_refl eq_refl)).
  reflexivity.
Defined.

End VirtualCardProps.

(* ================================================================== *)
(** ** Host applications *)

Module HostApplicationProps.
Import HostApplicationModel.

Lemma latest_None (l : list HostApplication) : latest l = None <-> l = [].
Proof.
  destruct l as [|r l]; [tauto|]. simpl.
  split; [|discriminate].
  destruct (latest l) as [r'|]; [destruct (createdAt r <? createdAt r')|]; discriminate.
Qed.

Lemma latest_In (l : list HostApplication) (r : HostApplication) :
  latest l = Some r -> In r l.
Proof.
  revert r. induction l as [|a l IH]; intros r; simpl; [discriminate|].
  destruct (latest l) as [r'|].
  - destruct (createdAt a <? createdAt r'); intros [= <-]; [right; now apply IH|now left].
  - intros [= <-]. now left.
Qed.

Lemma filter_map_le (p : HostApplication -> bool)
    (f : HostApplication -> HostApplication) (l : list HostApplication) :
  (forall r, p (f r) = true -> p r = true) ->
  (length (List.filter p (map f l)) <= length (List.filter p l))%nat.
Proof.
  intros H. induction l as [|a l IH]; simpl; [lia|].
  destruct (p (f a)) eqn:E.
  - rewrite (H a E). simpl. lia.
  - destruct (p a); simpl; lia.
Qed.

Lemma matches_pair (h c h' c' : Z) (st st' : HostApplicationStatus)
    (r : HostApplication) :
  matches h c st r = true -> matches h' c' st' r = true -> h = h' /\ c = c' /\ st = st'.
Proof.
  unfold matches. rewrite !andb_true_iff, !bool_decide_eq_true, !Z.eqb_eq.
  intros (((_ & <-) & <-) & <-) (((_ & <-) & <-) & <-). auto.
Qed.

Lemma pick_message (data : gmap string string) :
  pick data ["message"; "customData"] !! "message" = data !! "message".
Proof.
  unfold pick. simpl.
  destruct (data !! "message") as [m|] eqn:Hm; simpl.
  - destruct (data !! "customData"); simpl; now rewrite lookup_insert_eq.
  - destruct (data !! "customData"); simpl; [|reflexivity].
    rewrite lookup_insert_ne by discriminate. reflexivity.
Qed.

Lemma pick_customData (data : gmap string string) :
  pick data ["message"; "customData"] !! "customData" = data !! "customData".
Proof.
  unfold pick. simpl.
  destruct (data !! "message") as [m|] eqn:Hm; simpl.
  - rewrite lookup_insert_ne by discriminate.
    destruct (data !! "customData"); simpl; [now rewrite lookup_insert_eq|reflexivity].
  - destruct (data !! "customData"); simpl; [now rewrite lookup_insert_eq|reflexivity].
Qed.

Lemma recordApplication_cases (host collective : Collective) (data : gmap string string)
    (now : Z) (t : Table) :
  recordApplication host collective data now t
  = match latest (pendingOf (c_id host) (c_id collective) t) with
    | Some e => HostApplication_update_updatedAt e now t
    | None =>
        HostApplication_create (c_id host) (c_id collective) PENDING
          (pick data ["message"; "customData"]) now t
    end.
Proof.
  unfold recordApplication, bind, getByStatus, gets, pendingOf.
  now destruct (latest _).
Qed.

(** X24: An application is recorded once.  While a collective has a pending
    application to a host, applying again writes nothing: no row is added,
    no row is changed, not even in its date of update, and the message and
    the custom data of the new request are dropped; the call returns the
    pending application, as it is stored but for the date of update, of
    which nothing is said.  Otherwise a row is added, pending, with the
    next id and the message and custom data of the request and nothing else
    of it, unless the message is longer than 3000 characters, in which case
    the call fails and the table is as it was. *)
Theorem recordApplication_spec (host collective : Collective)
    (data : gmap string string) (now : Z) (t : Table) :
  let out := recordApplication host collective data now t in
  (forall e,
     latest (pendingOf (c_id host) (c_id collective) t) = Some e ->
     fst out = t
     /\ exists r, snd out = Ok r /\ set_updatedAt now r = set_updatedAt now e)
  /\ (pendingOf (c_id host) (c_id collective) t = [] ->
      if validMessage (data !! "message")
      then snd out
           = Ok {| id := nextId t; CollectiveId := c_id collective;
                   HostCollectiveId := c_id host; status := PENDING;
                   customData := data !! "customData"; message := data !! "message";
                   createdAt := now; updatedAt := now; deletedAt := None |}
           /\ (forall r, snd out = Ok r -> rows (fst out) = (rows t ++ [r])%list)
           /\ nextId (fst out) = nextId t + 1
      else fst out = t /\ isOk (snd out) = false).
Proof.
  cbv zeta. rewrite recordApplication_cases. split.
  - intros e ->. unfold HostApplication_update_updatedAt, ret. cbn [fst snd].
    split; [reflexivity|]. exists e. split; reflexivity.
  - intros ->. cbn [latest]. unfold HostApplication_create.
    rewrite pick_message, pick_customData.
    destruct (validMessage (data !! "message")); cbn.
    + split; [reflexivity|]. split; [|reflexivity]. now intros r [= <-].
    + split; reflexivity.
Qed.

(** X25: What [recordApplication] returns is the pending application of the
    collective to the host: [getByStatus] finds that row right after, the
    same in every column but, for an application that was there before, the
    date of update, of which nothing is said; an application that the call
    created is found as it was returned. *)
Theorem recordApplication_then_getByStatus (host collective : Collective)
    (data : gmap string string) (now : Z) (t t' : Table) (r : HostApplication) :
  recordApplication host collective data now t = (t', Ok r) ->
  exists r',
    getByStatus host collective PENDING t' = (t', Ok (Some r'))
    /\ set_updatedAt now r' = set_updatedAt now r
    /\ (pendingOf (c_id host) (c_id collective) t = [] -> r' = r)
    /\ (pendingOf (c_id host) (c_id collective) t <> [] -> t' = t).
Proof.
  rewrite recordApplication_cases. unfold getByStatus, gets.
  destruct (latest (pendingOf (c_id host) (c_id collective) t)) as [e|] eqn:He.
  - unfold HostApplication_update_updatedAt, ret. intros [= <- <-].
    exists e. fold (pendingOf (c_id host) (c_id collective) t). rewrite He.
    split; [reflexivity|]. split; [reflexivity|]. split; [|reflexivity].
    intros Hn. rewrite Hn in He. discriminate He.
  - apply latest_None in He. unfold HostApplication_create.
    destruct (negb (validMessage _)); [intros [=]|].
    intros [= <- <-]. eexists. split; [|split; [reflexivity|split; [reflexivity|]]].
    + cbn [rows]. rewrite List.filter_app.
      fold (pendingOf (c_id host) (c_id collective) t). rewrite He. cbn.
      unfold matches. cbn. rewrite !Z.eqb_refl. reflexivity.
    + intros Hn. contradiction.
Qed.

(** X26: No function of the model gives a collective a second pending
    application to the same host: a table where every collective has at
    most one pending application per host is still such a table after
    [recordApplication] and after [updatePendingApplications]. *)
Theorem onePendingPerPair_kept (t : Table) (host collective : Collective) (now : Z) :
  onePendingPerPair t ->
  (forall data, onePendingPerPair (fst (recordApplication host collective data now t)))
  /\ (forall status_,
        onePendingPerPair (fst (updatePendingApplications host collective status_ now t))).
Proof.
  intros Inv. split.
  - intros data. rewrite recordApplication_cases.
    destruct (latest (pendingOf (c_id host) (c_id collective) t)) as [e|] eqn:He.
    + exact Inv.
    + apply latest_None in He. unfold HostApplication_create.
      destruct (negb (validMessage _)); [exact Inv|].
      intros h c. unfold pendingOf. cbn [fst rows]. rewrite List.filter_app, length_app.
      unfold matches at 2. cbn.
      destruct (Z.eqb_spec (c_id host) h) as [<-|Hh];
        destruct (Z.eqb_spec (c_id collective) c) as [<-|Hc]; cbn.
      * fold (pendingOf (c_id host) (c_id collective) t). rewrite He. simpl. lia.
      * specialize (Inv (c_id host) c). unfold pendingOf in Inv. lia.
      * specialize (Inv h (c_id collective)). unfold pendingOf in Inv. lia.
      * specialize (Inv h c). unfold pendingOf in Inv. lia.
  - intros status_ h c. unfold pendingOf, updatePendingApplications, modify.
    cbn [fst rows].
    etransitivity; [|apply (Inv h c)]. apply filter_map_le.
    intros r. destruct (matches (c_id host) (c_id collective) PENDING r) eqn:Hm;
      [|tauto].
    intros Hm'. unfold matches in *. cbn in Hm'.
    rewrite !andb_true_iff, !bool_decide_eq_true, !Z.eqb_eq in *.
    destruct Hm as (((Hd & Hh) & Hc) & Hs), Hm' as (((_ & Hh') & Hc') & _).
    repeat split; congruence.
Qed.

(** X27: Closing the pending applications.  After
    [updatePendingApplications] with a status other than PENDING the
    collective has no pending application to the host, and an application
    that was pending is found under the new status; the applications of
    other collectives or to other hosts, the number of rows and the
    sequence of ids are what they were. *)
Theorem updatePendingApplications_spec (host collective : Collective)
    (status_ : HostApplicationStatus) (now : Z) (t : Table) :
  status_ <> PENDING ->
  let t' := fst (updatePendingApplications host collective status_ now t) in
  getByStatus host collective PENDING t' = (t', Ok None)
  /\ (pendingOf (c_id host) (c_id collective) t <> [] ->
      exists r, getByStatus host collective status_ t' = (t', Ok (Some r)))
  /\ (forall h c st,
        (h, c) <> (c_id host, c_id collective) ->
        List.filter (matches h c st) (rows t') = List.filter (matches h c st) (rows t))
  /\ length (rows t') = length (rows t) /\ nextId t' = nextId t
  /\ snd (updatePendingApplications host collective status_ now t) = Ok tt.
Proof.
  intros Hs. cbv zeta. unfold updatePendingApplications, modify, getByStatus, gets.
  cbn [fst snd rows nextId].
  set (f := fun r => if matches (c_id host) (c_id collective) PENDING r
                     then set_updatedAt now (set_status status_ r) else r).
  assert (Hf : forall r, matches (c_id host) (c_id collective) PENDING (f r) = false).
  { intros r. unfold f.
    destruct (matches (c_id host) (c_id collective) PENDING r) eqn:Hm; [|exact Hm].
    unfold matches. cbn. rewrite (bool_decide_eq_false_2 (status_ = PENDING) Hs).
    apply andb_false_r. }
  split; [|split; [|split; [|split; [|split]]]].
  - f_equal. f_equal. apply latest_None.
    induction (rows t) as [|a l IH]; [reflexivity|]. simpl. now rewrite Hf.
  - intros Hne.
    destruct (latest (List.filter (matches (c_id host) (c_id collective) status_)
                        (map f (rows t)))) as [r|] eqn:Hl; [now exists r|].
    exfalso. apply latest_None in Hl. apply Hne. unfold pendingOf.
    induction (rows t) as [|a l IH]; [reflexivity|]. simpl in *.
    destruct (matches (c_id host) (c_id collective) PENDING a) eqn:Hm.
    + exfalso. unfold f in Hl at 1. rewrite Hm in Hl.
      assert (E : matches (c_id host) (c_id collective) status_
                    (set_updatedAt now (set_status status_ a)) = true).
      { unfold matches in *. cbn.
        rewrite !andb_true_iff, !bool_decide_eq_true, !Z.eqb_eq in *.
        tauto. }
      rewrite E in Hl. discriminate Hl.
    + apply IH. destruct (matches _ _ status_ (f a)); [discriminate Hl|exact Hl].
  - intros h c st Hne. induction (rows t) as [|a l IH]; [reflexivity|]. simpl.
    rewrite IH.
    destruct (matches (c_id host) (c_id collective) PENDING a) eqn:Hm;
      [|replace (f a) with a by (unfold f; now rewrite Hm); reflexivity].
    replace (f a) with (set_updatedAt now (set_status status_ a))
      by (unfold f; now rewrite Hm).
    assert (E1 : matches h c st a = false).
    { destruct (matches h c st a) eqn:E; [|reflexivity].
      destruct (matches_pair _ _ _ _ _ _ _ Hm E) as (<- & <- & _). now elim Hne. }
    assert (E2 : matches h c st (set_updatedAt now (set_status status_ a)) = false).
    { unfold matches in *. cbn.
      rewrite !andb_true_iff, !bool_decide_eq_true, !Z.eqb_eq in Hm.
      destruct Hm as (((Hd & Hh) & Hc) & _).
      rewrite Hh, Hc.
      destruct (c_id host =? h) eqn:E; [apply Z.eqb_eq in E|
        now rewrite andb_false_r].
      destruct (c_id collective =? c) eqn:E'; [apply Z.eqb_eq in E'|
        now rewrite andb_false_r].
      elim Hne. congruence. }
    now rewrite E1, E2.
  - apply length_map.
  - reflexivity.
  - reflexivity.
Qed.

Lemma recordApplication_spec_witness :
  fst (recordApplication demoApplicationHost {| c_id := 2 |} demoData 300 demoTable)
  = demoTable
  /\ snd (recordApplication demoApplicationHost {| c_id := 1 |} demoData 300 demoTable)
     = Ok {| id := 3; CollectiveId := 1; HostCollectiveId := 10; status := PENDING;
             customData := None; message := Some "We would like to join";
             createdAt := 300; updatedAt := 300; deletedAt := None |}.
Proof.
  split.
  - apply (proj1 (recordApplication_spec demoApplicationHost {| c_id := 2 |} demoData 300
                    demoTable) (demoApplication 2 2 PENDING 200)).
    reflexivity.
  - pose proof (proj2 (recordApplication_spec demoApplicationHost {| c_id := 1 |} demoData
                         300 demoTable) eq_refl) as H.
    assert (Hm : demoData !! "message" = Some "We would like to join")
      by (vm_compute; reflexivity).
    assert (Hc : demoData !! "customData" = None) by (vm_compute; reflexivity).
    rewrite Hm, Hc in H. cbn [validMessage] in H.
    replace (String.length "We would like to join" <=? 3000)%nat with true in H
      by (vm_compute; reflexivity).
    exact (proj1 H).
Defined.

(** Applying again, and applying for the first time. *)
Lemma recordApplication_then_getByStatus_witness :
  (exists r',
     getByStatus demoApplicationHost {| c_id := 2 |} PENDING demoTable
     = (demoTable, Ok (Some r'))
     /\ set_updatedAt 300 r' = set_updatedAt 300 (demoApplication 2 2 PENDING 200))
  /\ (exists t' r,
        recordApplication demoApplicationHost {| c_id := 1 |} demoData 300 demoTable
        = (t', Ok r)
        /\ getByStatus demoApplicationHost {| c_id := 1 |} PENDING t' = (t', Ok (Some r))).
Proof.
  split.
  - destruct (recordApplication_then_getByStatus demoApplicationHost {| c_id := 2 |}
                demoData 300 demoTable demoTable (demoApplication 2 2 PENDING 200)
                eq_refl) as (r' & Hg & Hr & _).
    exists r'. split; [exact Hg|exact Hr].
  - destruct (recordApplication demoApplicationHost {| c_id := 1 |} demoData 300 demoTable)
      as [t' [r|x]] eqn:E; [|vm_compute in E; discriminate E].
    exists t', r. split; [reflexivity|].
    destruct (recordApplication_then_getByStatus demoApplicationHost {| c_id := 1 |}
                demoData 300 demoTable t' r E) as (r' & Hg & _ & Hr & _).
    rewrite Hg, (Hr eq_refl). reflexivity.
Defined.

Lemma onePendingPerPair_demoTable : onePendingPerPair demoTable.
Proof.
  intros h c. unfold pendingOf, demoTable, matches, demoApplication.
  cbn [rows List.filter HostCollectiveId CollectiveId deletedAt status].
  destruct (10 =? h), (1 =? c), (2 =? c); vm_compute; lia.
Defined.

Lemma onePendingPerPair_kept_witness :
  onePendingPerPair
    (fst (recordApplication demoApplicationHost {| c_id := 1 |} demoData 300 demoTable))
  /\ onePendingPerPair
       (fst (updatePendingApplications demoApplicationHost {| c_id := 2 |} APPROVED 300
               demoTable)).
Proof.
  split.
  - apply (proj1 (onePendingPerPair_kept demoTable demoApplicationHost {| c_id := 1 |} 300
                    onePendingPerPair_demoTable)).
  - apply (proj2 (onePendingPerPair_kept demoTable demoApplicationHost {| c_id := 2 |} 300
                    onePendingPerPair_demoTable)).
Defined.

Lemma updatePendingApplications_spec_witness :
  getByStatus demoApplicationHost {| c_id := 2 |} PENDING
    (fst (updatePendingApplications demoApplicationHost {| c_id := 2 |} REJECTED 300
            demoTable))
  = (fst (updatePendingApplications demoApplicationHost {| c_id := 2 |} REJECTED 300
            demoTable), Ok None).
Proof.
  apply (proj1 (updatePendingApplications_spec demoApplicationHost {| c_id := 2 |}
                  REJECTED 300 demoTable ltac:(discriminate))).
Defined.

End HostApplicationProps.

(* ================================================================== *)
(** ** Orders of an account *)

Module OrdersCollectionProps.
Import OrdersCollectionQuery.

Section ResolverProps.
Context {imports : Imports}.

Lemma resolver_inv (args : Args) (remoteUser : option User) (r : Collection) :
  OrdersCollectionResolver args remoteUser = Ok r ->
  exists options rows_ count,
    findOptions args remoteUser = Ok options
    /\ Order_findAndCountAll options = Ok (rows_, count)
    /\ r = {| nodes := rows_; totalCount := count;
              col_limit := checkedLimit args; col_offset := checkedOffset args |}.
Proof.
  unfold OrdersCollectionResolver.
  destruct (findOptions args remoteUser) as [options|e]; [|discriminate].
  cbn. destruct (Order_findAndCountAll options) as [[rows_ count]|e] eqn:Hq;
    [|discriminate].
  cbn. intros [= <-]. exists options, rows_, count. repeat split. exact Hq.
Qed.

Lemma findOptions_inv (args : Args) (remoteUser : option User) (options : FindOptions) :
  findOptions args remoteUser = Ok options ->
  gtThousand (checkedLimit args) && negb (userIsRoot remoteUser) = false
  /\ fo_limit options = checkedLimit args /\ fo_offset options = checkedOffset args
  /\ exists account_ conditions,
       accountConditions args remoteUser = Ok (account_, conditions)
       /\ tierFilter args account_ = Ok (w_TierId (fo_where options)).
Proof.
  unfold findOptions.
  destruct (gtThousand (checkedLimit args) && negb (userIsRoot remoteUser));
    [discriminate|].
  destruct (accountConditions args remoteUser) as [[account_ conditions]|e];
    [|discriminate].
  cbn. destruct (tierFilter args account_) as [tier|e] eqn:Ht; [|discriminate].
  cbn. intros [= <-]. cbn. repeat split. exists account_, conditions.
  split; [reflexivity|exact Ht].
Qed.

(** X28: Pagination.  The resolver answers with the limit and the offset that
    it gave to the database, which are never null: a limit that is null,
    zero or negative is replaced by 100 and such an offset by 0, so that a
    numeric limit is at least 1 and a numeric offset at least 0; and for a
    user who is not root a limit above 1000 is an error, so that the limit
    is at most 1000. *)
Theorem orders_pagination (args : Args) (remoteUser : option User) :
  (forall l, limit args = num l -> 1000 < l -> userIsRoot remoteUser = false ->
     OrdersCollectionResolver args remoteUser
     = Err (JsError
              "Cannot fetch more than 1,000 orders at the same time, please adjust the limit"))
  /\ (forall r,
        OrdersCollectionResolver args remoteUser = Ok r ->
        (exists options rows_,
           Order_findAndCountAll options = Ok (rows_, totalCount r)
           /\ nodes r = rows_
           /\ fo_limit options = col_limit r /\ fo_offset options = col_offset r)
        /\ col_limit r <> null /\ col_offset r <> null
        /\ (leZero (limit args) = true -> col_limit r = num 100)
        /\ (leZero (offset args) = true -> col_offset r = num 0)
        /\ (forall l, col_limit r = num l ->
              1 <= l /\ (userIsRoot remoteUser = false -> l <= 1000))
        /\ (forall o, col_offset r = num o -> 0 <= o)).
Proof.
  split.
  - intros l Hl Hgt Hroot. unfold OrdersCollectionResolver, findOptions, checkedLimit.
    rewrite Hl, Hroot. cbn.
    destruct (Z.leb_spec l 0); [lia|]. cbn.
    destruct (Z.ltb_spec 1000 l); [reflexivity|lia].
  - intros r Hr. destruct (resolver_inv _ _ _ Hr) as (options & rows_ & count & Hf & Hq & ->).
    destruct (findOptions_inv _ _ _ Hf) as (Hlim & Hl & Ho & _).
    cbn [nodes totalCount col_limit col_offset].
    split; [exists options, rows_; repeat split; assumption|].
    unfold checkedLimit, checkedOffset in *.
    split; [destruct (limit args) as [| |z]; cbn; [discriminate..|];
            destruct (z <=? 0); discriminate|].
    split; [destruct (offset args) as [| |z]; cbn; [discriminate..|];
            destruct (z <=? 0); discriminate|].
    split; [now intros ->|]. split; [now intros ->|].
    split.
    + intros l. destruct (limit args) as [| |z]; cbn in *.
      * discriminate.
      * intros [= <-]. split; [lia|intros; lia].
      * destruct (Z.leb_spec z 0); cbn in *.
        -- intros [= <-]. split; [lia|intros; lia].
        -- intros [= <-]. split; [lia|]. intros Hroot. rewrite Hroot in Hlim.
           cbn in Hlim. rewrite andb_true_r in Hlim. apply Z.ltb_ge in Hlim. exact Hlim.
    + intros o. destruct (offset args) as [| |z]; cbn.
      * discriminate.
      * intros [= <-]. lia.
      * destruct (Z.leb_spec z 0); intros [= <-]; lia.
Qed.

(** X29: Incognito orders are for the admins of the account and for root: for
    any other user, [includeIncognito] changes nothing to what the resolver
    asks and answers. *)
Theorem orders_incognito_needs_admin (args : Args) (remoteUser : option User) :
  userIsRoot remoteUser = false ->
  (forall reference a,
     account args = Some reference ->
     fetchAccountWithReference reference = Ok (Some a) ->
     userIsAdminOf remoteUser a = false) ->
  findOptions args remoteUser
  = findOptions (set_includeIncognito false args) remoteUser
  /\ OrdersCollectionResolver args remoteUser
     = OrdersCollectionResolver (set_includeIncognito false args) remoteUser.
Proof.
  intros Hroot Hadmin.
  assert (E : accountConditions args remoteUser
              = accountConditions (set_includeIncognito false args) remoteUser).
  { unfold accountConditions. cbn [account set_includeIncognito].
    destruct (account args) as [reference|] eqn:Hacc; [|reflexivity].
    destruct (fetchAccountWithReference reference) as [[a|]|e] eqn:Hf; [|reflexivity..].
    cbn. unfold outgoingConditions.
    cbn [filter includeHostedAccounts includeIncognito set_includeIncognito].
    rewrite (Hadmin reference a eq_refl Hf), Hroot. cbn.
    now destruct (includeIncognito args). }
  assert (F : findOptions args remoteUser
              = findOptions (set_includeIncognito false args) remoteUser).
  { unfold findOptions. now rewrite E. }
  split; [exact F|]. unfold OrdersCollectionResolver. now rewrite F.
Qed.

(** X30: [tierSlug] narrows the orders of an account.  Without account it is
    refused with NotFound, and so is a slug that is not, in lower case, the
    slug of a tier of the account; the database is not asked for orders in
    these cases.  When the resolver does ask, it asks for the orders of
    that tier. *)
Theorem orders_tierSlug (args : Args) (remoteUser : option User) (slug : string) :
  tierSlug args = Some slug -> truthyS slug = true ->
  (account args = None ->
   gtThousand (checkedLimit args) && negb (userIsRoot remoteUser) = false ->
   OrdersCollectionResolver args remoteUser
   = Err (NotFound "tierSlug can only be used when an account is specified"))
  /\ (forall options,
        findOptions args remoteUser = Ok options ->
        exists reference a tier,
          account args = Some reference
          /\ fetchAccountWithReference reference = Ok (Some a)
          /\ Tier_findOne (a_id a) (toLowerCase slug) = Some tier
          /\ w_TierId (fo_where options) = Some tier).
Proof.
  intros Hslug Ht. split.
  - intros Hacc Hlim. unfold OrdersCollectionResolver, findOptions, accountConditions.
    rewrite Hlim, Hacc. cbn. unfold tierFilter. rewrite Hslug. cbn. now rewrite Ht.
  - intros options Hf.
    destruct (findOptions_inv _ _ _ Hf) as (_ & _ & _ & account_ & conditions & Ha & Htier).
    unfold tierFilter in Htier. rewrite Hslug in Htier. cbn in Htier. rewrite Ht in Htier.
    destruct account_ as [a|]; [|discriminate].
    destruct (Tier_findOne (a_id a) (toLowerCase slug)) as [tier|] eqn:Hfind;
      [|discriminate].
    injection Htier as Htier.
    unfold accountConditions in Ha.
    destruct (account args) as [reference|]; [|discriminate].
    destruct (fetchAccountWithReference reference) as [account_|e] eqn:Hfetch;
      [|discriminate].
    cbn in Ha.
    destruct (outgoingConditions args remoteUser account_); [|discriminate].
    cbn in Ha. destruct (incomingConditions args account_); [|discriminate].
    cbn in Ha. injection Ha as -> _.
    exists reference, a, tier.
    split; [reflexivity|]. split; [exact Hfetch|]. split; [exact Hfind|now symmetry].
Qed.
End ResolverProps.

Lemma orders_pagination_witness :
  OrdersCollectionResolver (imports := demoOrders) (demoArgs (num 5000) None None)
    (Some demoVisitor)
  = Err (JsError
           "Cannot fetch more than 1,000 orders at the same time, please adjust the limit")
  /\ exists r,
       OrdersCollectionResolver (imports := demoOrders) (demoArgs null None None) None
       = Ok r
       /\ col_limit r = num 100.
Proof.
  split.
  - apply (proj1 (orders_pagination (imports := demoOrders) (demoArgs (num 5000) None None)
                    (Some demoVisitor)) 5000); [reflexivity|lia|reflexivity].
  - eexists. split; [reflexivity|].
    apply (proj2 (orders_pagination (imports := demoOrders) (demoArgs null None None) None)
             _ eq_refl).
    reflexivity.
Defined.

Lemma orders_incognito_needs_admin_witness :
  OrdersCollectionResolver (imports := demoOrders) (demoArgs (num 10) (Some 1) None)
    (Some demoVisitor)
  = OrdersCollectionResolver (imports := demoOrders)
      (set_includeIncognito false (demoArgs (num 10) (Some 1) None)) (Some demoVisitor).
Proof.
  apply (orders_incognito_needs_admin (imports := demoOrders)
           (demoArgs (num 10) (Some 1) None) (Some demoVisitor)).
  - reflexivity.
  - intros reference a _ _. reflexivity.
Defined.

Lemma orders_tierSlug_witness :
  OrdersCollectionResolver (imports := demoOrders)
    (demoArgs (num 10) None (Some "backer")) None
  = Err (NotFound "tierSlug can only be used when an account is specified").
Proof.
  apply (proj1 (orders_tierSlug (imports := demoOrders)
                  (demoArgs (num 10) None (Some "backer")) None "backer"
                  eq_refl eq_refl));
    reflexivity.
Defined.

End OrdersCollectionProps.
